(** * back-planok: validators, unit state machine and user service

    A shallow embedding of the validation and service layer of the
    real-estate API (real_estate/validators, real_estate/services,
    real_estate/repositories, real_estate/models.py) together with the
    properties its specification states about them.

    Conventions of the embedding.
    - A Python [str] is a [string] whose characters are the code points
      0..255 (Latin-1); [len] is [String.length].  String constants of the
      source that contain accented letters are written through [py_str],
      which turns the UTF-8 text of this file into those code points.
    - A value of a request mapping is a [pyval]: [None], a boolean, an
      integer, a float, a string or a native date.  Containers are outside
      the model.
    - An exception is a value of [exn]; code that may raise returns a
      [result].
    - A database table is a finite map from primary key to row.  [save]
      writes the row of an instance under the checks of the database
      engine that models.py declares (unique indexes, foreign keys): a
      refused row raises [IntegrityError].  The state of a service is its
      own table; the keys stored in the tables that a foreign key refers
      to are parameters.  What a deletion does to the rows of other tables
      ([on_delete]) is outside that state.
    - [Avg] is computed by the database backend, which the settings choose
      and the repository does not fix: it is a parameter, and what is
      assumed of it is stated where it is used. *)

From Stdlib Require Import ZArith String Ascii List Bool.
From Stdlib Require Import Floats.SpecFloat QArith.Qcanon.
From stdpp Require Import gmap strings list numbers.

Local Open Scope string_scope.
Local Open Scope Z_scope.

(* ===================================================================== *)
(** * Python values                                                      *)
(* ===================================================================== *)

Module Py.

(** Exceptions that the modelled code raises or lets escape. *)
Inductive exn : Type :=
| TypeError
| ValueError (msg : string)
| IntegrityError
| MultipleObjectsReturned
| UnidadNoDisponibleError
| ClienteNoValidoError.

Inductive result (A : Type) : Type :=
| Ok (a : A)
| Raise (e : exn).
Arguments Ok {A} a.
Arguments Raise {A} e.

Definition raises {A} (r : result A) : bool :=
  match r with Ok _ => false | Raise _ => true end.

(** [datetime.date]: compared field by field, year first. *)
Record date : Type := mkdate { year : Z; month : Z; day : Z }.

Definition date_compare (a b : date) : comparison :=
  match year a ?= year b with
  | Eq => match month a ?= month b with
          | Eq => day a ?= day b
          | c => c
          end
  | c => c
  end.

Inductive pyval : Type :=
| PyNone
| PyBool (b : bool)
| PyInt (z : Z)
| PyFloat (f : spec_float)
| PyStr (s : string)
| PyDate (d : date).

(** Truth value of an object, as [if x] and [not x] test it. *)
Definition truthy (v : pyval) : bool :=
  match v with
  | PyNone => false
  | PyBool b => b
  | PyInt z => negb (z =? 0)
  | PyFloat (S754_zero _) => false
  | PyFloat _ => true
  | PyStr s => negb (String.length s =? 0)%nat
  | PyDate _ => true
  end.

(** [d.get(k)]: a missing key reads as [None]. *)
Definition get (d : gmap string pyval) (k : string) : pyval :=
  default PyNone (d !! k).

(** [isinstance(x, str)]. *)
Definition isinstance_str (v : pyval) : bool :=
  match v with PyStr _ => true | _ => false end.

(** [len(x)]: only strings have a length among the modelled values. *)
Definition len (v : pyval) : result nat :=
  match v with
  | PyStr s => Ok (String.length s)
  | _ => Raise TypeError
  end.

(** [x in l] for a list [l] of string constants: equality with a string
    holds for an equal string only. *)
Definition in_strs (v : pyval) (l : list string) : bool :=
  match v with
  | PyStr s => bool_decide (s ∈ l)
  | _ => false
  end.

(** Exact order between a float and an integer ([None]: unordered). *)
Definition float_compare_Z (f : spec_float) (z : Z) : option comparison :=
  match f with
  | S754_nan => None
  | S754_infinity true => Some Lt
  | S754_infinity false => Some Gt
  | S754_zero _ => Some (0 ?= z)
  | S754_finite s m e =>
      let sm := if s then Z.neg m else Z.pos m in
      if 0 <=? e then Some (sm * 2 ^ e ?= z)
      else Some (sm ?= z * 2 ^ (- e))
  end.

(** The three-way comparison behind [<], [<=], [>] on two values:
    [Raise TypeError] when the types are not ordered with each other,
    [Ok None] when a NaN is involved. *)
Definition compare (a b : pyval) : result (option comparison) :=
  let num v := match v with
               | PyBool b => Some (inl (Z.b2z b))
               | PyInt z => Some (inl z)
               | PyFloat f => Some (inr f)
               | _ => None
               end in
  match a, b with
  | PyDate x, PyDate y => Ok (Some (date_compare x y))
  | PyStr x, PyStr y => Ok (Some (String.compare x y))
  | _, _ =>
      match num a, num b with
      | Some (inl x), Some (inl y) => Ok (Some (x ?= y))
      | Some (inr x), Some (inr y) => Ok (SFcompare x y)
      | Some (inr x), Some (inl y) => Ok (float_compare_Z x y)
      | Some (inl x), Some (inr y) => Ok (CompOpp <$> float_compare_Z y x)
      | _, _ => Raise TypeError
      end
  end.

(** [a <= b]. *)
Definition le (a b : pyval) : result bool :=
  match compare a b with
  | Ok (Some Gt) | Ok None => Ok false
  | Ok (Some _) => Ok true
  | Raise e => Raise e
  end.

(** [a > b]. *)
Definition gt (a b : pyval) : result bool :=
  match compare a b with
  | Ok (Some Gt) => Ok true
  | Ok _ => Ok false
  | Raise e => Raise e
  end.

(** Decoding of the UTF-8 text of a constant into Latin-1 code points:
    a lead byte 0xC2 or 0xC3 and its continuation byte make one
    character. *)
Fixpoint py_str (s : string) : string :=
  match s with
  | String c (String c' rest as tl) =>
      let n := N_of_ascii c in
      if (n =? 194)%N then String c' (py_str rest)
      else if (n =? 195)%N then String (ascii_of_N (N_of_ascii c' + 64)) (py_str rest)
      else String c (py_str tl)
  | _ => s
  end.

(** [sep.join(l)]. *)
Fixpoint join (sep : string) (l : list string) : string :=
  match l with
  | [] => ""
  | [x] => x
  | x :: tl => x ++ sep ++ join sep tl
  end.

(** Character classes of [str.isupper], [str.islower] and [str.isdigit]
    on one character, for the code points 0..255. *)
Definition in_range (lo hi : N) (c : ascii) : bool :=
  ((lo <=? N_of_ascii c) && (N_of_ascii c <=? hi))%N.

Definition isupper (c : ascii) : bool :=
  in_range 65 90 c || in_range 192 214 c || in_range 216 222 c.

Definition islower (c : ascii) : bool :=
  in_range 97 122 c || in_range 170 170 c || in_range 181 181 c
  || in_range 186 186 c || in_range 223 246 c || in_range 248 255 c.

Definition isdigit (c : ascii) : bool :=
  in_range 48 57 c || in_range 178 179 c || in_range 185 185 c.

(** [any(p(c) for c in s)]. *)
Fixpoint any (p : ascii -> bool) (s : string) : bool :=
  match s with
  | EmptyString => false
  | String c tl => p c || any p tl
  end.

End Py.

(* ===================================================================== *)
(** * Regular expressions ([re.match] with a pattern [^body$])           *)
(* ===================================================================== *)

Module Re.

Inductive regex : Type :=
| Void
| Eps
| Chr (p : ascii -> bool)
| Cat (r1 r2 : regex)
| Alt (r1 r2 : regex)
| Star (r : regex).

Fixpoint nullable (r : regex) : bool :=
  match r with
  | Void => false
  | Eps => true
  | Chr _ => false
  | Cat r1 r2 => nullable r1 && nullable r2
  | Alt r1 r2 => nullable r1 || nullable r2
  | Star _ => true
  end.

(** Derivative of [r] by the character [c]. *)
Fixpoint deriv (c : ascii) (r : regex) : regex :=
  match r with
  | Void => Void
  | Eps => Void
  | Chr p => if p c then Eps else Void
  | Cat r1 r2 =>
      if nullable r1 then Alt (Cat (deriv c r1) r2) (deriv c r2)
      else Cat (deriv c r1) r2
  | Alt r1 r2 => Alt (deriv c r1) (deriv c r2)
  | Star r1 => Cat (deriv c r1) (Star r1)
  end.

(** The whole of [s] is in the language of [r]. *)
Fixpoint fullmatch (r : regex) (s : string) : bool :=
  match s with
  | EmptyString => nullable r
  | String c tl => fullmatch (deriv c r) tl
  end.

(** [r?], [r+], [r{n}], [r{m,n}] (with [m <= n]) and [r{m,}]. *)
Definition opt (r : regex) : regex := Alt Eps r.
Definition plus (r : regex) : regex := Cat r (Star r).

Fixpoint times (n : nat) (r : regex) : regex :=
  match n with
  | O => Eps
  | S k => Cat r (times k r)
  end.

Fixpoint upto (n : nat) (r : regex) : regex :=
  match n with
  | O => Eps
  | S k => opt (Cat r (upto k r))
  end.

Definition between (m n : nat) (r : regex) : regex :=
  Cat (times m r) (upto (n - m) r).

Definition at_least (m : nat) (r : regex) : regex :=
  Cat (times m r) (Star r).

(** Character classes of the patterns: [\d] on the code points 0..255 is
    the ten ASCII digits. *)
Definition digit : ascii -> bool := Py.in_range 48 57.
Definition alpha (c : ascii) : bool := Py.in_range 97 122 c || Py.in_range 65 90 c.
Definition one_of (l : string) (c : ascii) : bool := Py.any (Ascii.eqb c) l.
Definition lit (c : ascii) : regex := Chr (Ascii.eqb c).

Definition newline : ascii := ascii_of_N 10.

(** The string without its last character, when that one is a line feed. *)
Fixpoint chomp (s : string) : option string :=
  match s with
  | EmptyString => None
  | String c EmptyString => if Ascii.eqb c newline then Some EmptyString else None
  | String c tl => String c <$> chomp tl
  end.

(** [bool(re.match('^' + body + '$', s))]: [^] holds at the start, and [$]
    holds at the end of the string and also just before a line feed that
    ends the string. *)
Definition match_anchored (body : regex) (s : string) : bool :=
  fullmatch body s ||
  match chomp s with
  | Some p => fullmatch body p
  | None => false
  end.

(** The language of a regular expression. *)
Inductive lang : regex -> string -> Prop :=
| lang_eps : lang Eps ""
| lang_chr p c : p c = true -> lang (Chr p) (String c "")
| lang_cat r1 r2 s1 s2 : lang r1 s1 -> lang r2 s2 -> lang (Cat r1 r2) (s1 ++ s2)
| lang_alt_l r1 r2 s : lang r1 s -> lang (Alt r1 r2) s
| lang_alt_r r1 r2 s : lang r2 s -> lang (Alt r1 r2) s
| lang_star_nil r : lang (Star r) ""
| lang_star_cons r s1 s2 : lang r s1 -> lang (Star r) s2 -> lang (Star r) (s1 ++ s2).

(** Every character of [s] is in the class [p]. *)
Fixpoint allb (p : ascii -> bool) (s : string) : bool :=
  match s with
  | EmptyString => true
  | String c tl => p c && allb p tl
  end.

End Re.

Import Py.

(* ===================================================================== *)
(** * State and exceptions                                               *)
(* ===================================================================== *)

Module St.

(** A computation on a state [S] (the error list of a validator, a table
    of the database): it returns or raises, and leaves a state. *)
Definition M (S A : Type) : Type := S -> result A * S.

Definition ret {S A} (a : A) : M S A := fun s => (Ok a, s).

Definition bind {S A B} (m : M S A) (k : A -> M S B) : M S B :=
  fun s =>
    match m s with
    | (Ok a, s') => k a s'
    | (Raise e, s') => (Raise e, s')
    end.

Definition raise {S A} (e : exn) : M S A := fun s => (Raise e, s).

(** The outcome of a computation that does not touch the state. *)
Definition lift {S A} (r : result A) : M S A := fun s => (r, s).

#[global] Instance M_ret {S} : MRet (M S) := @ret S.
#[global] Instance M_bind {S} : MBind (M S) := fun A B k m => bind m k.
#[global] Instance M_fmap {S} : FMap (M S) :=
  fun A B f m => bind m (fun a => ret (f a)).

End St.

(* ===================================================================== *)
(** * validators/base_validator.py                                       *)
(* ===================================================================== *)

Module BaseValidator.
Import St.

Record ValidationError : Type := mkerror { field : string; message : string }.

(** A check runs on the error list of the validator: it returns or raises,
    and leaves the list it has built so far. *)
Abbreviation V := (M (list ValidationError)).

(** [add_error]: appends to [self.errors]. *)
Definition add_error (f m : string) : V unit :=
  fun errs => (Ok tt, (errs ++ [mkerror f m])%list).

(** The validator object: the mapping under validation and the error list.
    (The [instance] attribute of the subclasses is stored and never read.) *)
Record t : Type := mk { data : gmap string pyval; errors : list ValidationError }.

Section Methods.

(** The abstract method, implemented by each subclass. *)
Variable _validate : gmap string pyval -> V unit.

Definition is_valid (self : t) : result bool * t :=
  let self0 := mk (data self) [] in
  let '(r, errs) := _validate (data self0) (errors self0) in
  let self1 := mk (data self0) errs in
  match r with
  | Ok _ => (Ok (length (errors self1) =? 0)%nat, self1)
  | Raise e => (Raise e, self1)
  end.

End Methods.

Definition get_errors (self : t) : list ValidationError := errors self.

Definition get_error_dict (self : t) : gmap string (list string) :=
  fold_left
    (fun (error_dict : gmap string (list string)) error =>
       let error_dict' :=
         if decide (error_dict !! field error = None)
         then <[field error := []]> error_dict
         else error_dict in
       <[field error := (default [] (error_dict' !! field error) ++ [message error])%list]>
         error_dict')
    (errors self) ∅.

(** [bool(re.match(pattern, x))]: the subject has to be a string. *)
Definition re_match (body : Re.regex) (x : pyval) : result bool :=
  match x with
  | PyStr s => Ok (Re.match_anchored body s)
  | _ => Raise TypeError
  end.

End BaseValidator.

(* ===================================================================== *)
(** * validators/usuario_validator.py                                    *)
(* ===================================================================== *)

Module UsuarioValidator.
Import St BaseValidator Re.

(** [^\d{1,8}-[\dkK]$] *)
Definition rut_pattern : regex :=
  Cat (between 1 8 (Chr digit))
      (Cat (lit "-") (Chr (fun c => digit c || one_of "kK" c))).

Definition _is_valid_rut_format (rut : pyval) : result bool :=
  re_match rut_pattern rut.

Definition _validate_rut (data : gmap string pyval) : V unit :=
  let rut := get data "rut" in
  if negb (truthy rut) then
    add_error "rut" "El RUT es obligatorio"
  else
    ok ← lift (_is_valid_rut_format rut);
    if negb ok then
      add_error "rut" (py_str "El formato del RUT no es válido (debe ser 12345678-9)")
    else ret tt.

(** [^[a-zA-Z0-9._%+-]+@[a-zA-Z0-9.-]+\.[a-zA-Z]{2,}$] *)
Definition email_pattern : regex :=
  Cat (plus (Chr (fun c => alpha c || digit c || one_of "._%+-" c)))
      (Cat (lit "@")
           (Cat (plus (Chr (fun c => alpha c || digit c || one_of ".-" c)))
                (Cat (lit ".") (at_least 2 (Chr alpha))))).

Definition _is_valid_email (email : pyval) : result bool :=
  re_match email_pattern email.

Definition _validate_email (data : gmap string pyval) : V unit :=
  let email := get data "email" in
  if negb (truthy email) then
    add_error "email" "El email es obligatorio"
  else
    ok ← lift (_is_valid_email email);
    if negb ok then
      add_error "email" (py_str "El formato del email no es válido")
    else ret tt.

Definition _validate_nombres (data : gmap string pyval) : V unit :=
  let first_name := get data "first_name" in
  let last_name := get data "last_name" in
  (if negb (truthy first_name) then
     add_error "first_name" "El nombre es obligatorio"
   else
     n ← lift (len first_name);
     if (n <? 2)%nat then
       add_error "first_name" "El nombre debe tener al menos 2 caracteres"
     else ret tt) ;;
  (if negb (truthy last_name) then
     add_error "last_name" "El apellido es obligatorio"
   else
     n ← lift (len last_name);
     if (n <? 2)%nat then
       add_error "last_name" "El apellido debe tener al menos 2 caracteres"
     else ret tt).

(** The generator expressions iterate over the characters of a string. *)
Definition _is_strong_password (password : pyval) : result bool :=
  match password with
  | PyStr s => Ok (any isupper s && any islower s && any isdigit s)
  | _ => Raise TypeError
  end.

Definition _validate_password (data : gmap string pyval) : V unit :=
  let password := get data "password" in
  if truthy password then
    n ← lift (len password);
    if (n <? 8)%nat then
      add_error "password" (py_str "La contraseña debe tener al menos 8 caracteres")
    else
      ok ← lift (_is_strong_password password);
      if negb ok then
        add_error "password"
          (py_str "La contraseña debe contener al menos una letra mayúscula, una minúscula y un número")
      else ret tt
  else ret tt.

Definition roles_validos : list string := ["Administrador"; "Cliente"].

Definition _validate_role (data : gmap string pyval) : V unit :=
  let role := get data "role" in
  if truthy role && negb (in_strs role roles_validos) then
    add_error "role" ("El rol debe ser uno de: " ++ join ", " roles_validos)
  else ret tt.

(** [^(\+\d{1,3})?[0-9]{8,12}$] *)
Definition phone_pattern : regex :=
  Cat (opt (Cat (lit "+") (between 1 3 (Chr digit))))
      (between 8 12 (Chr digit)).

Definition _is_valid_phone (phone : pyval) : result bool :=
  re_match phone_pattern phone.

Definition _validate_phone (data : gmap string pyval) : V unit :=
  let phone := get data "phone" in
  if truthy phone then
    ok ← lift (_is_valid_phone phone);
    if negb ok then
      add_error "phone" (py_str "El formato del teléfono no es válido")
    else ret tt
  else ret tt.

Definition _validate (data : gmap string pyval) : V unit :=
  _validate_rut data ;;
  _validate_email data ;;
  _validate_nombres data ;;
  _validate_password data ;;
  _validate_role data ;;
  _validate_phone data.

End UsuarioValidator.

(* ===================================================================== *)
(** * validators/proyecto_validator.py                                   *)
(* ===================================================================== *)

Module ProyectoValidator.
Import St BaseValidator.

(** [date.fromisoformat] in the form that every version of the standard
    library accepts, [YYYY-MM-DD] with a day that exists in the month.
    [None] stands for the [ValueError] of the library. *)
Definition digit_val (c : ascii) : option Z :=
  if Re.digit c then Some (Z.of_N (N_of_ascii c) - 48) else None.

Definition is_leap (y : Z) : bool :=
  ((y mod 4 =? 0) && negb (y mod 100 =? 0)) || (y mod 400 =? 0).

Definition days_in_month (y m : Z) : Z :=
  if m =? 2 then (if is_leap y then 29 else 28)
  else if (m =? 4) || (m =? 6) || (m =? 9) || (m =? 11) then 30
  else 31.

Definition fromisoformat_ymd (s : string) : option date :=
  match s with
  | String y1 (String y2 (String y3 (String y4 (String "-"
      (String m1 (String m2 (String "-" (String d1 (String d2 EmptyString))))))))) =>
      a ← digit_val y1; b ← digit_val y2; c ← digit_val y3; d ← digit_val y4;
      e ← digit_val m1; f ← digit_val m2; g ← digit_val d1; h ← digit_val d2;
      let y := 1000 * a + 100 * b + 10 * c + d in
      let m := 10 * e + f in
      let dd := 10 * g + h in
      if (1 <=? y) && (1 <=? m) && (m <=? 12) && (1 <=? dd) && (dd <=? days_in_month y m)
      then Some (mkdate y m dd) else None
  | _ => None
  end.

Section Parser.

(** The date parser of the running interpreter: which strings it accepts
    depends on the version of the standard library. *)
Variable fromisoformat : string -> option date.

Definition _validate_nombre (data : gmap string pyval) : V unit :=
  let nombre := get data "nombre" in
  if negb (truthy nombre) then
    add_error "nombre" "El nombre es obligatorio"
  else
    n ← lift (len nombre);
    if (n <? 3)%nat then
      add_error "nombre" "El nombre debe tener al menos 3 caracteres"
    else if (100 <? n)%nat then
      add_error "nombre" (py_str "El nombre no puede tener más de 100 caracteres")
    else ret tt.

Definition _validate_ubicacion (data : gmap string pyval) : V unit :=
  let ubicacion := get data "ubicacion" in
  if negb (truthy ubicacion) then
    add_error "ubicacion" (py_str "La ubicación es obligatoria")
  else
    n ← lift (len ubicacion);
    if (n <? 5)%nat then
      add_error "ubicacion" (py_str "La ubicación debe tener al menos 5 caracteres")
    else if (200 <? n)%nat then
      add_error "ubicacion" (py_str "La ubicación no puede tener más de 200 caracteres")
    else ret tt.

(** The [try] block around [date.fromisoformat]: a string is replaced by
    the date it parses to, [None] is the [except ValueError] branch;
    a value that is not a string is kept as it is. *)
Definition parse_if_str (v : pyval) : option pyval :=
  match v with
  | PyStr s => PyDate <$> fromisoformat s
  | _ => Some v
  end.

Definition _validate_fechas (data : gmap string pyval) : V unit :=
  let fecha_inicio := get data "fecha_inicio" in
  let fecha_finalizacion := get data "fecha_finalizacion" in
  if truthy fecha_inicio && truthy fecha_finalizacion then
    match parse_if_str fecha_inicio with
    | None => add_error "fecha_inicio" (py_str "Formato de fecha inválido")
    | Some fecha_inicio =>
        match parse_if_str fecha_finalizacion with
        | None => add_error "fecha_finalizacion" (py_str "Formato de fecha inválido")
        | Some fecha_finalizacion =>
            lift (gt fecha_inicio fecha_finalizacion) ≫= fun later : bool =>
            if later then
              add_error "fecha_finalizacion"
                (py_str "La fecha de finalización debe ser posterior a la fecha de inicio")
            else ret tt
        end
    end
  else ret tt.

Definition estados_validos : list string :=
  [py_str "Planificación"; py_str "En Construcción"; "Terminado"; "Cancelado"].

Definition _validate_estado (data : gmap string pyval) : V unit :=
  let estado := get data "estado" in
  if truthy estado && negb (in_strs estado estados_validos) then
    add_error "estado" ("El estado debe ser uno de: " ++ join ", " estados_validos)
  else ret tt.

Definition _validate_codigo (data : gmap string pyval) : V unit :=
  let codigo := get data "codigo" in
  if truthy codigo then
    n ← lift (len codigo);
    if (n <? 5)%nat then
      add_error "codigo" (py_str "El código debe tener al menos 5 caracteres")
    else if (20 <? n)%nat then
      add_error "codigo" (py_str "El código no puede tener más de 20 caracteres")
    else ret tt
  else ret tt.

Definition _validate (data : gmap string pyval) : V unit :=
  _validate_nombre data ;;
  _validate_ubicacion data ;;
  _validate_fechas data ;;
  _validate_estado data ;;
  _validate_codigo data.

End Parser.

End ProyectoValidator.

(* ===================================================================== *)
(** * validators/unidad_validator.py                                     *)
(* ===================================================================== *)

Module UnidadValidator.
Import St BaseValidator.

Definition _validate_proyecto (data : gmap string pyval) : V unit :=
  let proyecto_id := get data "proyecto_id" in
  if negb (truthy proyecto_id) then
    add_error "proyecto_id" "El proyecto es obligatorio"
  else ret tt.

Definition _validate_numero_unidad (data : gmap string pyval) : V unit :=
  let numero_unidad := get data "numero_unidad" in
  if negb (truthy numero_unidad) then
    add_error "numero_unidad" (py_str "El número de unidad es obligatorio")
  else
    n ← lift (len numero_unidad);
    if (20 <? n)%nat then
      add_error "numero_unidad"
        (py_str "El número de unidad no puede tener más de 20 caracteres")
    else ret tt.

Definition tipos_validos : list string :=
  ["Departamento"; "Casa"; "Oficina"; "Local Comercial"; "Terreno"; "Bodega";
   "Estacionamiento"].

Definition _validate_tipo_unidad (data : gmap string pyval) : V unit :=
  let tipo_unidad := get data "tipo_unidad" in
  if negb (truthy tipo_unidad) then
    add_error "tipo_unidad" "El tipo de unidad es obligatorio"
  else if negb (in_strs tipo_unidad tipos_validos) then
    add_error "tipo_unidad"
      ("El tipo de unidad debe ser uno de: " ++ join ", " tipos_validos)
  else ret tt.

(** [x is None]. *)
Definition is_None (v : pyval) : bool :=
  match v with PyNone => true | _ => false end.

Definition _validate_metraje (data : gmap string pyval) : V unit :=
  let metraje := get data "metraje_cuadrado" in
  if is_None metraje then
    add_error "metraje_cuadrado" "El metraje cuadrado es obligatorio"
  else
    lift (le metraje (PyInt 0)) ≫= fun nonpos : bool =>
    if nonpos then
      add_error "metraje_cuadrado" "El metraje cuadrado debe ser mayor que cero"
    else ret tt.

Definition _validate_precio (data : gmap string pyval) : V unit :=
  let precio := get data "precio_venta" in
  if is_None precio then
    add_error "precio_venta" "El precio de venta es obligatorio"
  else
    lift (le precio (PyInt 0)) ≫= fun nonpos : bool =>
    if nonpos then
      add_error "precio_venta" "El precio de venta debe ser mayor que cero"
    else ret tt.

Definition estados_validos : list string :=
  ["Disponible"; "Reservado"; "Vendido"; "No Disponible"].

Definition _validate_estado (data : gmap string pyval) : V unit :=
  let estado := get data "estado" in
  if negb (truthy estado) then
    add_error "estado" "El estado es obligatorio"
  else if negb (in_strs estado estados_validos) then
    add_error "estado" ("El estado debe ser uno de: " ++ join ", " estados_validos)
  else ret tt.

Definition _validate (data : gmap string pyval) : V unit :=
  _validate_proyecto data ;;
  _validate_numero_unidad data ;;
  _validate_tipo_unidad data ;;
  _validate_metraje data ;;
  _validate_precio data ;;
  _validate_estado data.

End UnidadValidator.

(** The three validator classes and the dispatch of the abstract method. *)
Module Validators.

Inductive subclass : Type := Usuario | Proyecto | Unidad.

Definition _validate (fromisoformat : string -> option date) (k : subclass)
  : gmap string pyval -> BaseValidator.V unit :=
  match k with
  | Usuario => UsuarioValidator._validate
  | Proyecto => ProyectoValidator._validate fromisoformat
  | Unidad => UnidadValidator._validate
  end.

Definition is_valid (fromisoformat : string -> option date) (k : subclass)
  : BaseValidator.t -> result bool * BaseValidator.t :=
  BaseValidator.is_valid (_validate fromisoformat k).

End Validators.

(* ===================================================================== *)
(** * Database access                                                    *)
(* ===================================================================== *)

Module Db.
Export St.

(** An instance is the row read from the table together with its key. *)
Abbreviation instance T := (N * T)%type.

(** The rows of a table, as a query set enumerates them.  The modelled
    code never depends on the order of a query set. *)
Definition all {T} (table : gmap N T) : list (instance T) := map_to_list table.

(** [objects.filter(...)]. *)
Definition objects_filter {T} (p : T -> bool) (table : gmap N T) : list (instance T) :=
  List.filter (fun i => p i.2) (all table).

(** [objects.get(...)] inside [try ... except DoesNotExist: return None]:
    more than one matching row is an exception that is not caught. *)
Definition objects_get {T} (p : T -> bool) : M (gmap N T) (option (instance T)) :=
  fun table =>
    match objects_filter p table with
    | [] => (Ok None, table)
    | [i] => (Ok (Some i), table)
    | _ => (Raise MultipleObjectsReturned, table)
    end.

(** [objects.get(id=id)] inside the same [try]: the key is unique. *)
Definition objects_get_pk {T} (id : N) : M (gmap N T) (option (instance T)) :=
  fun table => (Ok (pair id <$> table !! id), table).

(** What the database engine enforces on the rows of a table, as the
    model declares it: the unique indexes, each given by the test that two
    rows have the same entry in the index, and the foreign keys, each
    given by the column of the row and by the test that a key is stored
    in the table the column refers to. *)
Record constraints (T : Type) : Type := mk_constraints {
  unique_indexes : list (T -> T -> bool);
  foreign_keys : list ((T -> option N) * (N -> bool))
}.
Arguments mk_constraints {T} unique_indexes foreign_keys.
Arguments unique_indexes {T} c.
Arguments foreign_keys {T} c.

(** The check of the engine when [row] is written under the key [id].
    The engine checks the entries that the write puts into the table:
    those of a new row and those that an update changes (a stored row
    has passed the checks, so that an entry which the write leaves as it
    is needs none).  An index entry is refused when another row has it; a
    reference is refused when it is not null and not a stored key. *)
Definition accepted {T} (c : constraints T) (table : gmap N T) (id : N) (row : T) : bool :=
  let old := table !! id in
  forallb
    (fun same : T -> T -> bool =>
       from_option (fun o => same o row) false old
       || forallb (fun j : instance T => (j.1 =? id)%N || negb (same j.2 row)) (all table))
    (unique_indexes c)
  && forallb
       (fun fk : (T -> option N) * (N -> bool) =>
          from_option (fun o => bool_decide (fk.1 o = fk.1 row)) false old
          || from_option fk.2 true (fk.1 row))
       (foreign_keys c).

(** [instance.save()] of an instance read from the table: the engine
    refuses the row with an [IntegrityError], and nothing is written. *)
Definition save {T} (c : constraints T) (i : instance T) : M (gmap N T) unit :=
  fun table =>
    if accepted c table i.1 i.2 then (Ok tt, <[i.1 := i.2]> table)
    else (Raise IntegrityError, table).

(** [save] of a new instance whose key [id] was drawn by [uuid.uuid4]:
    a key that is taken is refused as well. *)
Definition save_new {T} (c : constraints T) (i : instance T) : M (gmap N T) unit :=
  fun table =>
    match table !! i.1 with
    | Some _ => (Raise IntegrityError, table)
    | None => save c i table
    end.

(** [instance.delete()].  What the deletion does to the rows of other
    tables that refer to the row ([on_delete]) is outside the table. *)
Definition delete_row {T} (i : instance T) : M (gmap N T) unit :=
  fun table => (Ok tt, delete i.1 table).

End Db.

(* ===================================================================== *)
(** * models.py                                                          *)
(* ===================================================================== *)

(** A primary key ([UUIDField]) is the 128-bit number of the UUID.  A
    [DecimalField] with two decimal places holds a whole number of
    hundredths.  The rows carry the fields that the services read or
    write; the other columns ([created_at], the flags of [AbstractUser])
    are left out. *)
Module Usuario.
Record t : Type := mk {
  rut : string;
  email : string;
  first_name : string;
  last_name : string;
  role : string;
  phone : option string;
  username : string;
  password : string
}.

(** [unique=True] on [rut], [email] and [username]. *)
Definition constraints : Db.constraints t :=
  Db.mk_constraints
    [fun a b => String.eqb (rut a) (rut b);
     fun a b => String.eqb (email a) (email b);
     fun a b => String.eqb (username a) (username b)]
    [].
End Usuario.

Module UnidadPropiedad.
Record t : Type := mk {
  proyecto_id : N;
  numero_unidad : string;
  tipo_unidad : string;
  metraje_cuadrado : Z;
  precio_venta : Z;
  estado : string;
  cliente_id : option N
}.

(** [unique_together = ('proyecto', 'numero_unidad')], and the foreign
    keys [proyecto] and [cliente] (which may be null), given the keys of
    the stored projects and of the stored users. *)
Definition constraints (proyectos usuarios : gset N) : Db.constraints t :=
  Db.mk_constraints
    [fun a b => (proyecto_id a =? proyecto_id b)%N
                && String.eqb (numero_unidad a) (numero_unidad b)]
    [(fun u => Some (proyecto_id u), fun k => bool_decide (k ∈ proyectos));
     (cliente_id, fun k => bool_decide (k ∈ usuarios))].
End UnidadPropiedad.

(** [Decimal(n)] for a whole number [n], in hundredths. *)
Definition Decimal (n : Z) : Z := 100 * n.

(** A [Decimal] of any precision, as an aggregate returns it: the number
    [coefficient * 10 ^ exponent]. *)
Record decimal : Type := mk_decimal { coefficient : Z; exponent : Z }.

(** The value of a [Decimal] in hundredths, as the prices are given. *)
Definition hundredths (d : decimal) : Qc :=
  let k := exponent d + 2 in
  if 0 <=? k then Qc_of_Z (coefficient d * 10 ^ k)
  else Qcdiv (Qc_of_Z (coefficient d)) (Qc_of_Z (10 ^ (- k))).

(* ===================================================================== *)
(** * repositories/base_repository.py                                    *)
(* ===================================================================== *)

(** The abstract repository of a model [T] whose keyword arguments are
    [KW].  [create] takes the key that [uuid.uuid4] draws for the row. *)
Class BaseRepository (T KW : Type) : Type := {
  repo_get_by_id : N -> St.M (gmap N T) (option (Db.instance T));
  repo_create : N -> KW -> St.M (gmap N T) (Db.instance T);
  repo_update : Db.instance T -> KW -> St.M (gmap N T) (Db.instance T);
  repo_delete : Db.instance T -> St.M (gmap N T) bool
}.

(* ===================================================================== *)
(** * services/base_service.py                                           *)
(* ===================================================================== *)

Module BaseService.
Section Generic.
Context {T KW : Type} `{repository : BaseRepository T KW}.

Definition get_by_id (id : N) : St.M (gmap N T) (option (Db.instance T)) :=
  repo_get_by_id id.

Definition create (new_id : N) (kwargs : KW) : St.M (gmap N T) (Db.instance T) :=
  repo_create new_id kwargs.

Definition update (id : N) (kwargs : KW) : St.M (gmap N T) (option (Db.instance T)) :=
  instance ← get_by_id id;
  match instance with
  | None => mret None
  | Some instance => Some <$> repo_update instance kwargs
  end.

Definition delete (id : N) : St.M (gmap N T) bool :=
  instance ← get_by_id id;
  match instance with
  | None => mret false
  | Some instance => repo_delete instance
  end.

End Generic.
End BaseService.

(* ===================================================================== *)
(** * repositories/unidad_repository.py                                  *)
(* ===================================================================== *)

Module UnidadRepository.
Import Db.

(** Keyword arguments of [create] and [update]: a field is [None] when the
    keyword is not passed.  [cliente_id] may be passed as [None]. *)
Record kwargs : Type := mk_kwargs {
  kw_proyecto_id : option N;
  kw_numero_unidad : option string;
  kw_tipo_unidad : option string;
  kw_metraje_cuadrado : option Z;
  kw_precio_venta : option Z;
  kw_estado : option string;
  kw_cliente_id : option (option N)
}.

Definition no_kwargs : kwargs := mk_kwargs None None None None None None None.

(** [for key, value in kwargs.items(): setattr(instance, key, value)]. *)
Definition setattrs (u : UnidadPropiedad.t) (kw : kwargs) : UnidadPropiedad.t :=
  UnidadPropiedad.mk
    (default (UnidadPropiedad.proyecto_id u) (kw_proyecto_id kw))
    (default (UnidadPropiedad.numero_unidad u) (kw_numero_unidad kw))
    (default (UnidadPropiedad.tipo_unidad u) (kw_tipo_unidad kw))
    (default (UnidadPropiedad.metraje_cuadrado u) (kw_metraje_cuadrado kw))
    (default (UnidadPropiedad.precio_venta u) (kw_precio_venta kw))
    (default (UnidadPropiedad.estado u) (kw_estado kw))
    (default (UnidadPropiedad.cliente_id u) (kw_cliente_id kw)).

(** The row of [UnidadPropiedad.objects.create]: the fields that are not
    passed take the defaults of the model; the project, the area and the
    price have none and cannot be null, so that there is no row without
    them. *)
Definition new_row (kw : kwargs) : option UnidadPropiedad.t :=
  proyecto_id ← kw_proyecto_id kw;
  metraje_cuadrado ← kw_metraje_cuadrado kw;
  precio_venta ← kw_precio_venta kw;
  Some (UnidadPropiedad.mk proyecto_id
          (default "" (kw_numero_unidad kw)) (default "" (kw_tipo_unidad kw))
          metraje_cuadrado precio_venta
          (default "Disponible" (kw_estado kw)) (default None (kw_cliente_id kw))).

Definition get_by_id (id : N)
  : M (gmap N UnidadPropiedad.t) (option (instance UnidadPropiedad.t)) :=
  objects_get_pk id.

Section Engine.

(** The keys of the stored projects and of the stored users, which the
    foreign keys of a unit refer to.  The unit repository writes neither
    table. *)
Variable proyectos usuarios : gset N.

Definition create (new_id : N) (kw : kwargs)
  : M (gmap N UnidadPropiedad.t) (instance UnidadPropiedad.t) :=
  match new_row kw with
  | None => raise IntegrityError
  | Some row =>
      save_new (UnidadPropiedad.constraints proyectos usuarios) (new_id, row) ;;
      mret (new_id, row)
  end.

Definition update (i : instance UnidadPropiedad.t) (kw : kwargs)
  : M (gmap N UnidadPropiedad.t) (instance UnidadPropiedad.t) :=
  let i' := (i.1, setattrs i.2 kw) in
  save (UnidadPropiedad.constraints proyectos usuarios) i' ;; mret i'.

Definition delete (i : instance UnidadPropiedad.t) : M (gmap N UnidadPropiedad.t) bool :=
  delete_row i ;; mret true.

#[global] Instance repository : BaseRepository UnidadPropiedad.t kwargs := {
  repo_get_by_id := get_by_id;
  repo_create := create;
  repo_update := update;
  repo_delete := delete
}.

End Engine.

Definition filter (p : UnidadPropiedad.t -> bool) (table : gmap N UnidadPropiedad.t)
  : list (instance UnidadPropiedad.t) :=
  objects_filter p table.

Definition get_by_proyecto (proyecto_id : N) (table : gmap N UnidadPropiedad.t)
  : list (instance UnidadPropiedad.t) :=
  filter (fun u => bool_decide (UnidadPropiedad.proyecto_id u = proyecto_id)) table.

Definition get_all (table : gmap N UnidadPropiedad.t) : list (instance UnidadPropiedad.t) :=
  all table.

Definition get_disponibles (table : gmap N UnidadPropiedad.t)
  : list (instance UnidadPropiedad.t) :=
  filter (fun u => String.eqb (UnidadPropiedad.estado u) "Disponible") table.

Definition get_by_tipo (tipo_unidad : string) (table : gmap N UnidadPropiedad.t)
  : list (instance UnidadPropiedad.t) :=
  filter (fun u => String.eqb (UnidadPropiedad.tipo_unidad u) tipo_unidad) table.

(** The order of the rationals, as a test. *)
Definition Qc_leb (x y : Qc) : bool := QArith_base.Qle_bool x y.

Section Lookup.

(** The number, in hundredths, that a lookup on [precio_venta] compares
    the price with when it is given the text [s]: the conversion of the
    [DecimalField], which belongs to the framework (whether it rounds the
    number to the two decimal places of the field depends on its
    version, so that the number is a rational).  [None] stands for its
    exception on a text that is not a decimal number of the field. *)
Variable precio_de : string -> option Qc.

(** The bounds are [None] or the text of a query parameter, as the view
    passes them; [if precio:] is false on [None] and on the empty text.
    The value is the list of the rows of the query set, and [None] when
    building or evaluating the query set raises. *)
Definition get_by_rango_precio (precio_desde precio_hasta : option string)
    (table : gmap N UnidadPropiedad.t) : option (list (instance UnidadPropiedad.t)) :=
  let queryset := get_all table in
  queryset ←
    (if from_option (fun s => truthy (PyStr s)) false precio_desde then
       desde ← precio_de (default "" precio_desde);
       Some (List.filter (fun i : instance UnidadPropiedad.t =>
                            Qc_leb desde (Qc_of_Z (UnidadPropiedad.precio_venta i.2)))
               queryset)
     else Some queryset);
  queryset ←
    (if from_option (fun s => truthy (PyStr s)) false precio_hasta then
       hasta ← precio_de (default "" precio_hasta);
       Some (List.filter (fun i : instance UnidadPropiedad.t =>
                            Qc_leb (Qc_of_Z (UnidadPropiedad.precio_venta i.2)) hasta)
               queryset)
     else Some queryset);
  Some queryset.

End Lookup.

End UnidadRepository.

(* ===================================================================== *)
(** * services/unidad_service.py                                         *)
(* ===================================================================== *)

Module UnidadService.
Import Db UnidadRepository.

Abbreviation table := (gmap N UnidadPropiedad.t).

Section Engine.

(** The keys of the stored projects and of the stored users. *)
Variable proyectos usuarios : gset N.

#[local] Instance repository : BaseRepository UnidadPropiedad.t kwargs :=
  UnidadRepository.repository proyectos usuarios.

Definition get_by_id (id : N) : M table (option (instance UnidadPropiedad.t)) :=
  BaseService.get_by_id id.

Definition update (id : N) (kw : kwargs) : M table (option (instance UnidadPropiedad.t)) :=
  BaseService.update id kw.

(** [not unidad or unidad.estado != 'Disponible']: a model instance is
    always true, so [not unidad] tests for [None]. *)
Definition asignar_cliente (unidad_id : N) (cliente_id : option N)
  : M table (option (instance UnidadPropiedad.t)) :=
  unidad ← get_by_id unidad_id;
  match unidad with
  | None => raise UnidadNoDisponibleError
  | Some unidad =>
      if negb (String.eqb (UnidadPropiedad.estado unidad.2) "Disponible") then
        raise UnidadNoDisponibleError
      else
        update unidad_id
          (mk_kwargs None None None None None (Some "Reservado") (Some cliente_id))
  end.

(** [not unidad.cliente_id]: a UUID is always true, so the test is for
    [None]. *)
Definition marcar_como_vendida (unidad_id : N)
  : M table (option (instance UnidadPropiedad.t)) :=
  unidad ← get_by_id unidad_id;
  match unidad with
  | None => raise UnidadNoDisponibleError
  | Some unidad =>
      if negb (String.eqb (UnidadPropiedad.estado unidad.2) "Reservado") then
        raise UnidadNoDisponibleError
      else
        match UnidadPropiedad.cliente_id unidad.2 with
        | None => raise ClienteNoValidoError
        | Some _ =>
            update unidad_id (mk_kwargs None None None None None (Some "Vendido") None)
        end
  end.

(** A call of one of the two operations of the state machine, and the
    table that a sequence of calls leaves (a call that raises leaves the
    table it has reached). *)
Inductive call : Type :=
| AsignarCliente (unidad_id : N) (cliente_id : option N)
| MarcarComoVendida (unidad_id : N).

Definition run (c : call) : M table (option (instance UnidadPropiedad.t)) :=
  match c with
  | AsignarCliente unidad_id cliente_id => asignar_cliente unidad_id cliente_id
  | MarcarComoVendida unidad_id => marcar_como_vendida unidad_id
  end.

Definition run_all (cs : list call) (t : table) : table :=
  fold_left (fun t c => (run c t).2) cs t.

(** [create] and [delete] are the ones of the base service. *)
Definition create (new_id : N) (kw : kwargs) : M table (instance UnidadPropiedad.t) :=
  BaseService.create new_id kw.

Definition delete (id : N) : M table bool := BaseService.delete id.

End Engine.

Definition get_by_proyecto (proyecto_id : N) (t : table) : list (instance UnidadPropiedad.t) :=
  UnidadRepository.get_by_proyecto proyecto_id t.

Definition get_disponibles (t : table) : list (instance UnidadPropiedad.t) :=
  UnidadRepository.get_disponibles t.

Definition get_by_tipo (tipo_unidad : string) (t : table) : list (instance UnidadPropiedad.t) :=
  UnidadRepository.get_by_tipo tipo_unidad t.

Definition get_by_rango_precio (precio_de : string -> option Qc)
    (precio_desde precio_hasta : option string) (t : table)
  : option (list (instance UnidadPropiedad.t)) :=
  UnidadRepository.get_by_rango_precio precio_de precio_desde precio_hasta t.

(** The aggregates [Min], [Max] and [Count] of [QuerySet.aggregate]:
    [Min] and [Max] are [None] over no row, and [Count] is 0. *)
Definition Min (l : list Z) : option Z :=
  match l with
  | [] => None
  | x :: tl => Some (foldr Z.min x tl)
  end.

Definition Max (l : list Z) : option Z :=
  match l with
  | [] => None
  | x :: tl => Some (foldr Z.max x tl)
  end.

Definition Count {A} (l : list A) : nat := length l.

Record estadisticas : Type := mk_estadisticas {
  precio_promedio : option decimal;
  precio_minimo : option Z;
  precio_maximo : option Z;
  total_unidades : nat;
  unidades_por_estado : gmap string nat;
  unidades_por_tipo : gmap string nat
}.

(** The counting loop:
    [if key in d: d[key] += 1 else: d[key] = 1]. *)
Definition contar {A} (key : A -> string) (l : list A) : gmap string nat :=
  fold_left
    (fun (d : gmap string nat) x =>
       match d !! key x with
       | Some n => <[key x := (n + 1)%nat]> d
       | None => <[key x := 1%nat]> d
       end)
    l ∅.

Section Aggregate.

(** The aggregate [Avg] over the prices of the rows, given in hundredths:
    the database backend computes it, in its own arithmetic and to its
    own precision, and the framework hands the result over as a
    [Decimal]. *)
Variable Avg : list Z -> option decimal.

Definition get_estadisticas_por_proyecto (proyecto_id : N) (t : table) : estadisticas :=
  let unidades := get_by_proyecto proyecto_id t in
  let precios := map (fun u : instance UnidadPropiedad.t => UnidadPropiedad.precio_venta u.2) unidades in
  mk_estadisticas
    (Avg precios) (Min precios) (Max precios) (Count unidades)
    (contar (fun u : instance UnidadPropiedad.t => UnidadPropiedad.estado u.2) unidades)
    (contar (fun u : instance UnidadPropiedad.t => UnidadPropiedad.tipo_unidad u.2) unidades).

End Aggregate.

End UnidadService.

(* ===================================================================== *)
(** * repositories/usuario_repository.py and the manager of models.py    *)
(* ===================================================================== *)

Module UsuarioRepository.
Import Db.

(** Keyword arguments of [create] and [update], with string values: a
    field is [None] when the keyword is not passed. *)
Record kwargs : Type := mk_kwargs {
  kw_rut : option string;
  kw_email : option string;
  kw_first_name : option string;
  kw_last_name : option string;
  kw_role : option string;
  kw_phone : option string;
  kw_username : option string;
  kw_password : option string
}.

Definition no_kwargs : kwargs := mk_kwargs None None None None None None None None.

(** [kwargs.get(k)] used as a condition: the keyword is passed and its
    value is true. *)
Definition passed (o : option string) : bool :=
  match o with
  | Some s => truthy (PyStr s)
  | None => false
  end.

(** [kwargs.pop('password', None)]: the other keywords. *)
Definition pop_password (kw : kwargs) : kwargs :=
  mk_kwargs (kw_rut kw) (kw_email kw) (kw_first_name kw) (kw_last_name kw)
    (kw_role kw) (kw_phone kw) (kw_username kw) None.

(** [for key, value in kwargs.items(): setattr(instance, key, value)] on
    keywords without [password]. *)
Definition setattrs (u : Usuario.t) (kw : kwargs) : Usuario.t :=
  Usuario.mk
    (default (Usuario.rut u) (kw_rut kw))
    (default (Usuario.email u) (kw_email kw))
    (default (Usuario.first_name u) (kw_first_name kw))
    (default (Usuario.last_name u) (kw_last_name kw))
    (default (Usuario.role u) (kw_role kw))
    (match kw_phone kw with Some p => Some p | None => Usuario.phone u end)
    (default (Usuario.username u) (kw_username kw))
    (Usuario.password u).

(** A row built from keywords: the fields that are not passed take the
    defaults of the model. *)
Definition new_row (kw : kwargs) : Usuario.t :=
  setattrs (Usuario.mk "" "" "" "" "Cliente" None "" "") kw.

Section Hasher.

(** [make_password] behind [set_password], and [normalize_email] of the
    manager: both belong to the framework. *)
Variable make_password : string -> string.
Variable normalize_email : string -> string.

Definition set_password (u : Usuario.t) (raw : string) : Usuario.t :=
  Usuario.mk (Usuario.rut u) (Usuario.email u) (Usuario.first_name u)
    (Usuario.last_name u) (Usuario.role u) (Usuario.phone u) (Usuario.username u)
    (make_password raw).

(** [UserManager.create_user(email, password, **extra_fields)], called
    with keywords only: [email] has no default. *)
Definition create_user (new_id : N) (password : string) (kw : kwargs)
  : M (gmap N Usuario.t) (instance Usuario.t) :=
  match kw_email kw with
  | None => raise TypeError
  | Some email =>
      if negb (truthy (PyStr email)) then
        raise (ValueError (py_str "El correo electrónico es obligatorio"))
      else
        let email := normalize_email email in
        let user := new_row (mk_kwargs (kw_rut kw) (Some email) (kw_first_name kw)
                               (kw_last_name kw) (kw_role kw) (kw_phone kw)
                               (kw_username kw) None) in
        let user := set_password user password in
        save_new Usuario.constraints (new_id, user) ;; mret (new_id, user)
  end.

(** [Usuario.objects.create]. *)
Definition objects_create (new_id : N) (kw : kwargs)
  : M (gmap N Usuario.t) (instance Usuario.t) :=
  let i := (new_id, new_row kw) in
  save_new Usuario.constraints i ;; mret i.

Definition get_by_id (id : N) : M (gmap N Usuario.t) (option (instance Usuario.t)) :=
  objects_get_pk id.

Definition get_by_email (email : string)
  : M (gmap N Usuario.t) (option (instance Usuario.t)) :=
  objects_get (fun u => String.eqb (Usuario.email u) email).

Definition get_by_rut (rut : string)
  : M (gmap N Usuario.t) (option (instance Usuario.t)) :=
  objects_get (fun u => String.eqb (Usuario.rut u) rut).

Definition create (new_id : N) (kw : kwargs)
  : M (gmap N Usuario.t) (instance Usuario.t) :=
  let password := kw_password kw in
  let kw := pop_password kw in
  if passed password then create_user new_id (default "" password) kw
  else objects_create new_id kw.

Definition update (i : instance Usuario.t) (kw : kwargs)
  : M (gmap N Usuario.t) (instance Usuario.t) :=
  let password := kw_password kw in
  let kw := pop_password kw in
  let u := setattrs i.2 kw in
  let u := if passed password then set_password u (default "" password) else u in
  save Usuario.constraints (i.1, u) ;; mret (i.1, u).

Definition delete (i : instance Usuario.t) : M (gmap N Usuario.t) bool :=
  delete_row i ;; mret true.

#[global] Instance repository : BaseRepository Usuario.t kwargs := {
  repo_get_by_id := get_by_id;
  repo_create := create;
  repo_update := update;
  repo_delete := delete
}.

End Hasher.

Definition filter (p : Usuario.t -> bool) (table : gmap N Usuario.t)
  : list (instance Usuario.t) :=
  objects_filter p table.

Definition get_by_role (role : string) (table : gmap N Usuario.t)
  : list (instance Usuario.t) :=
  filter (fun u => String.eqb (Usuario.role u) role) table.

Definition get_clientes (table : gmap N Usuario.t) : list (instance Usuario.t) :=
  get_by_role "Cliente" table.

Definition get_administradores (table : gmap N Usuario.t) : list (instance Usuario.t) :=
  get_by_role "Administrador" table.

End UsuarioRepository.

(* ===================================================================== *)
(** * services/usuario_service.py                                        *)
(* ===================================================================== *)

Module UsuarioService.
Import Db UsuarioRepository.

Abbreviation table := (gmap N Usuario.t).

Definition roles : list string := ["Administrador"; "Cliente"].

Section Hasher.

Variable make_password : string -> string.
Variable normalize_email : string -> string.

#[local] Instance repository : BaseRepository Usuario.t kwargs :=
  UsuarioRepository.repository make_password normalize_email.

Definition get_by_id (id : N) : M table (option (instance Usuario.t)) :=
  BaseService.get_by_id id.

Definition get_by_email (email : string) : M table (option (instance Usuario.t)) :=
  UsuarioRepository.get_by_email email.

Definition get_by_rut (rut : string) : M table (option (instance Usuario.t)) :=
  UsuarioRepository.get_by_rut rut.

Definition create (new_id : N) (kw : kwargs) : M table (instance Usuario.t) :=
  let email := kw_email kw in
  (if passed email then
     existing ← get_by_email (default "" email);
     if bool_decide (is_Some existing) then
       raise (ValueError ("Ya existe un usuario con el email " ++ default "" email))
     else mret tt
   else mret tt) ;;
  let rut := kw_rut kw in
  (if passed rut then
     existing ← get_by_rut (default "" rut);
     if bool_decide (is_Some existing) then
       raise (ValueError ("Ya existe un usuario con el RUT " ++ default "" rut))
     else mret tt
   else mret tt) ;;
  let role := kw_role kw in
  (if passed role && negb (bool_decide (default "" role ∈ roles)) then
     raise (ValueError ("El rol " ++ default "" role
                        ++ py_str " no es válido. Debe ser 'Administrador' o 'Cliente'"))
   else mret tt) ;;
  repo_create new_id kw.

Definition update (id : N) (kw : kwargs) : M table (option (instance Usuario.t)) :=
  instance ← get_by_id id;
  match instance with
  | None => mret None
  | Some instance =>
      let email := kw_email kw in
      (if passed email && negb (String.eqb (default "" email) (Usuario.email instance.2)) then
         existing ← get_by_email (default "" email);
         match existing with
         | Some existing =>
             if negb (N.eqb existing.1 id) then
               raise (ValueError ("Ya existe un usuario con el email " ++ default "" email))
             else mret tt
         | None => mret tt
         end
       else mret tt) ;;
      let rut := kw_rut kw in
      (if passed rut && negb (String.eqb (default "" rut) (Usuario.rut instance.2)) then
         existing ← get_by_rut (default "" rut);
         match existing with
         | Some existing =>
             if negb (N.eqb existing.1 id) then
               raise (ValueError ("Ya existe un usuario con el RUT " ++ default "" rut))
             else mret tt
         | None => mret tt
         end
       else mret tt) ;;
      let role := kw_role kw in
      (if passed role && negb (bool_decide (default "" role ∈ roles)) then
         raise (ValueError ("El rol " ++ default "" role
                            ++ py_str " no es válido. Debe ser 'Administrador' o 'Cliente'"))
       else mret tt) ;;
      Some <$> repo_update instance kw
  end.

(** [delete] is the one of the base service. *)
Definition delete (id : N) : M table bool := BaseService.delete id.

End Hasher.

Definition get_by_role (role : string) (t : table) : list (instance Usuario.t) :=
  UsuarioRepository.get_by_role role t.

Definition get_clientes (t : table) : list (instance Usuario.t) :=
  UsuarioRepository.get_clientes t.

Definition get_administradores (t : table) : list (instance Usuario.t) :=
  UsuarioRepository.get_administradores t.

Section Passwords.

(** [make_password] behind [set_password] and the verification behind
    [check_password] (the raw password against the stored one): both
    belong to the framework.  The new hash that the framework may store
    when a correct password was hashed by an outdated scheme is not
    modelled. *)
Variable make_password : string -> string.
Variable check_password : string -> string -> bool.

Definition cambiar_password (user_id : N) (password_actual password_nuevo : string)
  : M table bool :=
  usuario ← UsuarioRepository.get_by_id user_id;
  match usuario with
  | None => mret false
  | Some usuario =>
      if negb (check_password password_actual (Usuario.password usuario.2)) then
        mret false
      else
        let usuario := (usuario.1, set_password make_password usuario.2 password_nuevo) in
        save Usuario.constraints usuario ;; mret true
  end.

End Passwords.
End UsuarioService.

(* ===================================================================== *)
(** * Projects: models.py, repositories/proyecto_repository.py           *)
(* ===================================================================== *)

Module ProyectoInmobiliario.
Record t : Type := mk {
  nombre : string;
  descripcion : string;
  ubicacion : string;
  fecha_inicio : date;
  fecha_finalizacion : option date;
  estado : string;
  codigo : string
}.

(** [unique=True] on [codigo]. *)
Definition constraints : Db.constraints t :=
  Db.mk_constraints [fun a b => String.eqb (codigo a) (codigo b)] [].
End ProyectoInmobiliario.

Module ProyectoRepository.
Import Db.

(** Keyword arguments of [create] and [update]: a field is [None] when the
    keyword is not passed.  [fecha_finalizacion] may be passed as [None]. *)
Record kwargs : Type := mk_kwargs {
  kw_nombre : option string;
  kw_descripcion : option string;
  kw_ubicacion : option string;
  kw_fecha_inicio : option date;
  kw_fecha_finalizacion : option (option date);
  kw_estado : option string;
  kw_codigo : option string
}.

Definition setattrs (p : ProyectoInmobiliario.t) (kw : kwargs) : ProyectoInmobiliario.t :=
  ProyectoInmobiliario.mk
    (default (ProyectoInmobiliario.nombre p) (kw_nombre kw))
    (default (ProyectoInmobiliario.descripcion p) (kw_descripcion kw))
    (default (ProyectoInmobiliario.ubicacion p) (kw_ubicacion kw))
    (default (ProyectoInmobiliario.fecha_inicio p) (kw_fecha_inicio kw))
    (default (ProyectoInmobiliario.fecha_finalizacion p) (kw_fecha_finalizacion kw))
    (default (ProyectoInmobiliario.estado p) (kw_estado kw))
    (default (ProyectoInmobiliario.codigo p) (kw_codigo kw)).

(** The row of [ProyectoInmobiliario.objects.create]: the fields that are
    not passed take the defaults of the model; the start date has none and
    cannot be null, so that there is no row without it. *)
Definition new_row (kw : kwargs) : option ProyectoInmobiliario.t :=
  fecha_inicio ← kw_fecha_inicio kw;
  Some (ProyectoInmobiliario.mk
          (default "" (kw_nombre kw)) (default "" (kw_descripcion kw))
          (default "" (kw_ubicacion kw)) fecha_inicio
          (default None (kw_fecha_finalizacion kw))
          (default (py_str "Planificación") (kw_estado kw))
          (default "" (kw_codigo kw))).

Definition get_all (table : gmap N ProyectoInmobiliario.t)
  : list (instance ProyectoInmobiliario.t) :=
  all table.

Definition get_by_id (id : N)
  : M (gmap N ProyectoInmobiliario.t) (option (instance ProyectoInmobiliario.t)) :=
  objects_get_pk id.

Definition create (new_id : N) (kw : kwargs)
  : M (gmap N ProyectoInmobiliario.t) (instance ProyectoInmobiliario.t) :=
  match new_row kw with
  | None => raise IntegrityError
  | Some row =>
      save_new ProyectoInmobiliario.constraints (new_id, row) ;; mret (new_id, row)
  end.

Definition update (i : instance ProyectoInmobiliario.t) (kw : kwargs)
  : M (gmap N ProyectoInmobiliario.t) (instance ProyectoInmobiliario.t) :=
  let i' := (i.1, setattrs i.2 kw) in
  save ProyectoInmobiliario.constraints i' ;; mret i'.

Definition delete (i : instance ProyectoInmobiliario.t)
  : M (gmap N ProyectoInmobiliario.t) bool :=
  delete_row i ;; mret true.

Definition filter (p : ProyectoInmobiliario.t -> bool)
    (table : gmap N ProyectoInmobiliario.t) : list (instance ProyectoInmobiliario.t) :=
  objects_filter p table.

#[global] Instance repository : BaseRepository ProyectoInmobiliario.t kwargs := {
  repo_get_by_id := get_by_id;
  repo_create := create;
  repo_update := update;
  repo_delete := delete
}.

End ProyectoRepository.

(* ===================================================================== *)
(** * services/proyecto_service.py                                       *)
(* ===================================================================== *)

Module ProyectoService.
Import Db ProyectoRepository.

Abbreviation table := (gmap N ProyectoInmobiliario.t).

(** [str.isspace] on one character, for the code points 0..255. *)
Definition isspace (c : ascii) : bool :=
  in_range 9 13 c || in_range 28 32 c || in_range 133 133 c || in_range 160 160 c.

(** [s.split()]: the maximal runs of characters that are not white space.
    [cur] is the run being read. *)
Fixpoint split_from (cur : string) (s : string) : list string :=
  match s with
  | EmptyString => match cur with EmptyString => [] | _ => [cur] end
  | String c tl =>
      if isspace c then
        match cur with
        | EmptyString => split_from "" tl
        | _ => cur :: split_from "" tl
        end
      else split_from (cur ++ String c "") tl
  end.

Definition split (s : string) : list string := split_from "" s.

(** [s[:n]]. *)
Fixpoint take (n : nat) (s : string) : string :=
  match n, s with
  | S k, String c tl => String c (take k tl)
  | _, _ => EmptyString
  end.

(** The first eight characters of [str(u)] for a UUID [u]: the eight
    hexadecimal digits, in lower case, of its 32 highest bits. *)
Definition hex_digit (n : N) : ascii :=
  if (n <? 10)%N then ascii_of_N (48 + n) else ascii_of_N (87 + n).

Fixpoint hex (digits : nat) (n : N) : string :=
  match digits with
  | O => EmptyString
  | S k => hex k (n / 16) ++ String (hex_digit (n mod 16)) ""
  end.

Definition uuid_corto (u : N) : string := hex 8 ((u / 2 ^ 96) mod 2 ^ 32)%N.

(** What [create] raises: the [IndexError] of [split()[0]] on a name
    without a word, or an exception of the repository. *)
Inductive raised : Type :=
| IndexError
| Repository (e : exn).

Section Upper.

(** [str.upper] belongs to the interpreter (it leaves the code points
    0..255 on some letters). *)
Variable upper : string -> string.

(** [kwargs.get('nombre', '').split()[0][:3].upper()]. *)
Definition nombre_base (kw : kwargs) : option string :=
  match split (default "" (kw_nombre kw)) with
  | [] => None
  | word :: _ => Some (upper (take 3 word))
  end.

(** [create]: [new_id] is the key drawn for the row, [u] the UUID drawn
    for the code. *)
Definition create (new_id u : N) (kw : kwargs)
  : table -> (raised + instance ProyectoInmobiliario.t) * table :=
  fun t =>
    let kwargs' :=
      match kw_codigo kw with
      | Some _ => Some kw
      | None =>
          base ← nombre_base kw;
          Some (mk_kwargs (kw_nombre kw) (kw_descripcion kw) (kw_ubicacion kw)
                  (kw_fecha_inicio kw) (kw_fecha_finalizacion kw) (kw_estado kw)
                  (Some (base ++ "-" ++ uuid_corto u)))
      end in
    match kwargs' with
    | None => (inl IndexError, t)
    | Some kw' =>
        match BaseService.create new_id kw' t with
        | (Ok i, t') => (inr i, t')
        | (Raise e, t') => (inl (Repository e), t')
        end
    end.

End Upper.

Record estadisticas : Type := mk_estadisticas {
  total_proyectos : nat;
  proyectos_por_estado : gmap string nat;
  proyectos_activos : nat
}.

Definition get_estadisticas (t : table) : estadisticas :=
  let proyectos := get_all t in
  let estados :=
    UnidadService.contar
      (fun p : instance ProyectoInmobiliario.t => ProyectoInmobiliario.estado p.2)
      proyectos in
  mk_estadisticas
    (length proyectos)
    estados
    (length (List.filter
               (fun p : instance ProyectoInmobiliario.t =>
                  String.eqb (ProyectoInmobiliario.estado p.2) (py_str "En Construcción"))
               proyectos)).

End ProyectoService.

(* ===================================================================== *)
(** * Vocabulary of the properties                                       *)
(* ===================================================================== *)

Module Spec.

(** The row that a reservation writes. *)
Definition reservada (u : UnidadPropiedad.t) (cliente_id : option N) : UnidadPropiedad.t :=
  UnidadPropiedad.mk (UnidadPropiedad.proyecto_id u) (UnidadPropiedad.numero_unidad u)
    (UnidadPropiedad.tipo_unidad u) (UnidadPropiedad.metraje_cuadrado u)
    (UnidadPropiedad.precio_venta u) "Reservado" cliente_id.

(** The row that a sale writes. *)
Definition vendida (u : UnidadPropiedad.t) : UnidadPropiedad.t :=
  UnidadPropiedad.mk (UnidadPropiedad.proyecto_id u) (UnidadPropiedad.numero_unidad u)
    (UnidadPropiedad.tipo_unidad u) (UnidadPropiedad.metraje_cuadrado u)
    (UnidadPropiedad.precio_venta u) "Vendido" (UnidadPropiedad.cliente_id u).

(** Some stored user has the email, or the RUT. *)
Definition email_taken (t : gmap N Usuario.t) (email : string) : Prop :=
  exists i u, t !! i = Some u /\ Usuario.email u = email.

Definition rut_taken (t : gmap N Usuario.t) (rut : string) : Prop :=
  exists i u, t !! i = Some u /\ Usuario.rut u = rut.

(** Some stored user other than [id] has the email, or the RUT. *)
Definition email_of_other (t : gmap N Usuario.t) (id : N) (email : string) : Prop :=
  exists i u, i <> id /\ t !! i = Some u /\ Usuario.email u = email.

Definition rut_of_other (t : gmap N Usuario.t) (id : N) (rut : string) : Prop :=
  exists i u, i <> id /\ t !! i = Some u /\ Usuario.rut u = rut.

(** Some stored user other than [id] has the user name. *)
Definition username_of_other (t : gmap N Usuario.t) (id : N) (username : string) : Prop :=
  exists i u, i <> id /\ t !! i = Some u /\ Usuario.username u = username.

(** The invariant of the user table: no two rows share an email or a RUT. *)
Definition unique_keys (t : gmap N Usuario.t) : Prop :=
  forall i j u v, t !! i = Some u -> t !! j = Some v ->
    Usuario.email u = Usuario.email v \/ Usuario.rut u = Usuario.rut v -> i = j.

(** A keyword that is not passed or that repeats the current value. *)
Definition unchanged (o : option string) (current : string) : Prop :=
  o = None \/ o = Some current.

(** A role that the services accept: not passed, empty, or one of the two. *)
Definition role_accepted (o : option string) : Prop :=
  UsuarioRepository.passed o = true -> default "" o ∈ UsuarioService.roles.

(** Sample data: a table with two users, and keyword arguments. *)
Definition ana : Usuario.t :=
  Usuario.mk "11111111-1" "ana@example.com" "Ana" "Soto" "Cliente" None "ana" "".

Definition luis : Usuario.t :=
  Usuario.mk "22222222-2" "luis@example.com" "Luis" "Rojas" "Administrador" None "luis" "".

Definition dos_usuarios : gmap N Usuario.t := <[1%N := ana]> (<[2%N := luis]> ∅).

Definition kw_email_only (email : string) : UsuarioRepository.kwargs :=
  UsuarioRepository.mk_kwargs None (Some email) None None None None None None.

Definition kw_rut_only (rut : string) : UsuarioRepository.kwargs :=
  UsuarioRepository.mk_kwargs (Some rut) None None None None None None None.

Definition kw_role_only (role : string) : UsuarioRepository.kwargs :=
  UsuarioRepository.mk_kwargs None None None None (Some role) None None None.

Definition kw_empty_role : UsuarioRepository.kwargs :=
  UsuarioRepository.mk_kwargs (Some "33333333-3") (Some "eva@example.com") (Some "Eva")
    (Some "Mora") (Some "") None (Some "eva") None.

(** A stand-in for the hasher and for the normalisation of emails. *)
Definition plain (s : string) : string := s.

(** A client that the engine lets a write put on a unit whose client is
    [actual]: the same client, none, or a stored user. *)
Definition cliente_aceptado (usuarios : gset N) (actual cliente : option N) : bool :=
  bool_decide (actual = cliente)
  || from_option (fun k => bool_decide (k ∈ usuarios)) true cliente.

(** Sample data: the keys of the stored projects and of the stored users. *)
Definition los_proyectos : gset N := {[7%N]}.

Definition los_usuarios : gset N := {[2%N; 3%N]}.

(** Sample data: a unit for sale at 5000, and a table that holds it. *)
Definition depto : UnidadPropiedad.t :=
  UnidadPropiedad.mk 7%N "A101" "Departamento" (Decimal 80) (Decimal 5000) "Disponible" None.

Definition una_unidad : gmap N UnidadPropiedad.t := <[1%N := depto]> ∅.

Definition depto_reservado : UnidadPropiedad.t := reservada depto (Some 2%N).

Definition depto_vendido : UnidadPropiedad.t := vendida depto_reservado.

(** Sample data: three units of one project, for sale at 1.00, 1.00 and
    2.00. *)
Definition tres_unidades : gmap N UnidadPropiedad.t :=
  <[1%N := UnidadPropiedad.mk 7%N "A101" "Departamento" (Decimal 80) 100 "Disponible" None]>
    (<[2%N := UnidadPropiedad.mk 7%N "A102" "Departamento" (Decimal 80) 100 "Disponible" None]>
       (<[3%N := UnidadPropiedad.mk 7%N "A103" "Departamento" (Decimal 80) 200 "Disponible"
                   None]> ∅)).

(** A stand-in for the aggregate [Avg] of a backend in the sample runs:
    the mean cut to a whole number of hundredths, which is the mean when
    the prices are equal. *)
Definition media_en_centesimas (l : list Z) : option decimal :=
  match l with
  | [] => None
  | _ => Some (mk_decimal (foldr Z.add 0 l / Z.of_nat (length l)) (-2))
  end.

(** The number of elements of [l] whose key is [k]. *)
Definition cuenta {A} (key : A -> string) (k : string) (l : list A) : nat :=
  length (List.filter (fun x => String.eqb (key x) k) l).

(** The messages recorded for the field [f], in the order of the list. *)
Definition messages_of (f : string) (errs : list BaseValidator.ValidationError)
  : list string :=
  map BaseValidator.message
    (List.filter (fun e => String.eqb (BaseValidator.field e) f) errs).

(** Some error is recorded for the field [f]. *)
Definition has_error (f : string) (errs : list BaseValidator.ValidationError) : bool :=
  existsb (fun e => String.eqb (BaseValidator.field e) f) errs.

(** Values of the type a check expects: a string (or a false value) for a
    text field, a number (or [None]) for an area or a price, a string or a
    date (or a false value) for a date. *)
Definition str_or_false (v : pyval) : bool := isinstance_str v || negb (truthy v).

Definition number_or_none (v : pyval) : bool :=
  match v with
  | PyNone | PyBool _ | PyInt _ | PyFloat _ => true
  | _ => false
  end.

Definition date_or_false (v : pyval) : bool :=
  match v with
  | PyStr _ | PyDate _ => true
  | _ => negb (truthy v)
  end.

Definition expected_types (k : Validators.subclass) (d : gmap string pyval) : bool :=
  match k with
  | Validators.Usuario =>
      forallb (fun f => str_or_false (get d f))
        ["rut"; "email"; "first_name"; "last_name"; "password"; "phone"]
  | Validators.Proyecto =>
      forallb (fun f => str_or_false (get d f)) ["nombre"; "ubicacion"; "codigo"]
      && date_or_false (get d "fecha_inicio")
      && date_or_false (get d "fecha_finalizacion")
  | Validators.Unidad =>
      str_or_false (get d "numero_unidad")
      && number_or_none (get d "metraje_cuadrado")
      && number_or_none (get d "precio_venta")
  end.

(** A date field that is present: a non-empty string or a native date. *)
Definition present (v : pyval) : bool :=
  match v with
  | PyStr _ => truthy v
  | PyDate _ => true
  | _ => false
  end.

(** The date that a present date field stands for, if it parses. *)
Definition date_value (fromisoformat : string -> option date) (v : pyval) : option date :=
  match v with
  | PyStr s => fromisoformat s
  | PyDate d => Some d
  | _ => None
  end.

Definition format_error (f : string) : BaseValidator.ValidationError :=
  BaseValidator.mkerror f (py_str "Formato de fecha inválido").

Definition order_error : BaseValidator.ValidationError :=
  BaseValidator.mkerror "fecha_finalizacion"
    (py_str "La fecha de finalización debe ser posterior a la fecha de inicio").

(** The pattern [\d{1,8}-[\dkK]] anchored at both ends: the string is
    one to eight digits, a hyphen, and one digit or [k] or [K]. *)
Definition rut_shape (s : string) : Prop :=
  exists (ds : string) (c : ascii),
    s = ds ++ String "-" (String c "")
    /\ (1 <= String.length ds <= 8)%nat
    /\ Re.allb Re.digit ds = true
    /\ Re.digit c || Re.one_of "kK" c = true.

(** Sample inputs. *)
Definition usuario_valido : gmap string pyval :=
  list_to_map
    [("rut", PyStr "12345678-9"); ("email", PyStr "test@example.com");
     ("first_name", PyStr "Test"); ("last_name", PyStr "User");
     ("password", PyStr "SecurePass1"); ("role", PyStr "Cliente");
     ("username", PyStr "testuser")].

Definition proyecto_valido (inicio fin : pyval) : gmap string pyval :=
  list_to_map
    [("nombre", PyStr "Proyecto Test");
     ("descripcion", PyStr (py_str "Descripción del proyecto de prueba"));
     ("ubicacion", PyStr (py_str "Dirección Test"));
     ("fecha_inicio", inicio); ("fecha_finalizacion", fin);
     ("estado", PyStr (py_str "En Construcción")); ("codigo", PyStr "TEST002")].

Definition unidad_valida : gmap string pyval :=
  list_to_map
    [("proyecto_id", PyInt 7); ("numero_unidad", PyStr "A101");
     ("tipo_unidad", PyStr "Departamento");
     ("metraje_cuadrado", PyFloat (S754_finite false 161 (-1)));
     ("precio_venta", PyInt 5000); ("estado", PyStr "Disponible")].

Definition line_feed : string := String Re.newline EmptyString.

(** A check that returns, whatever the error list it starts from. *)
Definition returns (m : St.M (list BaseValidator.ValidationError) unit) : Prop :=
  forall errs, exists errs', m errs = (Ok tt, errs').

(** Sample dates. *)
Definition d_2024_01_01 : date := mkdate 2024 1 1.
Definition d_2023_12_31 : date := mkdate 2023 12 31.

End Spec.

(* ===================================================================== *)
(** * Vocabulary of the further properties                               *)
(* ===================================================================== *)

Module Vocabulary.

(** Two unit rows that differ at most in the state and the client. *)
Definition same_unit (u u' : UnidadPropiedad.t) : Prop :=
  UnidadPropiedad.proyecto_id u' = UnidadPropiedad.proyecto_id u
  /\ UnidadPropiedad.numero_unidad u' = UnidadPropiedad.numero_unidad u
  /\ UnidadPropiedad.tipo_unidad u' = UnidadPropiedad.tipo_unidad u
  /\ UnidadPropiedad.metraje_cuadrado u' = UnidadPropiedad.metraje_cuadrado u
  /\ UnidadPropiedad.precio_venta u' = UnidadPropiedad.precio_venta u.

(** A client that can be referred to: none, or a stored user. *)
Definition cliente_valido (usuarios : gset N) (cliente : option N) : Prop :=
  forall k, cliente = Some k -> k ∈ usuarios.

(** No stored unit has the number [numero] in the project [proyecto]. *)
Definition numero_libre (t : gmap N UnidadPropiedad.t) (proyecto : N) (numero : string)
  : Prop :=
  forall j v, t !! j = Some v ->
    ~ (UnidadPropiedad.proyecto_id v = proyecto /\ UnidadPropiedad.numero_unidad v = numero).

(** A bound of a price range that is given: a text that is not empty. *)
Definition dado (b : option string) (s : string) : Prop := b = Some s /\ s <> "".

(** A stand-in for the conversion of the text of a bound in the sample
    runs: it reads a run of decimal digits as a whole number, which is
    what the conversion gives on such a text. *)
Fixpoint entero_desde (acc : Z) (s : string) : option Qc :=
  match s with
  | EmptyString => Some (Qc_of_Z (Decimal acc))
  | String c tl =>
      if Re.digit c then entero_desde (10 * acc + (Z.of_N (N_of_ascii c) - 48)) tl
      else None
  end.

Definition precio_entero (s : string) : option Qc :=
  match s with
  | EmptyString => None
  | _ => entero_desde 0 s
  end.

(** The sum of the counts of a grouping. *)
Definition suma (d : gmap string nat) : nat :=
  map_fold (fun _ n acc => (n + acc)%nat) 0%nat d.

(** Sample data: the user that the keywords [kw_empty_role] describe. *)
Definition eva : Usuario.t :=
  Usuario.mk "33333333-3" "eva@example.com" "Eva" "Mora" "" None "eva" "".

(** Sample data: keywords of a project without code. *)
Definition kw_proyecto (nombre : option string) : ProyectoRepository.kwargs :=
  ProyectoRepository.mk_kwargs nombre None (Some "Av. Siempre Viva 742")
    (Some (mkdate 2024 1 1)) None None None.

(** A stand-in for [str.upper] in the sample runs: it turns the letters
    [a] to [z] into [A] to [Z], which is what [str.upper] does on a text
    of ASCII characters. *)
Fixpoint mayusculas (s : string) : string :=
  match s with
  | EmptyString => EmptyString
  | String c tl =>
      String (if Py.in_range 97 122 c then ascii_of_N (N_of_ascii c - 32) else c)
             (mayusculas tl)
  end.

(** No stored project has the code [codigo]. *)
Definition codigo_libre (t : gmap N ProyectoInmobiliario.t) (codigo : string) : Prop :=
  forall j p, t !! j = Some p -> ProyectoInmobiliario.codigo p <> codigo.

(** No character of [s] is white space. *)
Definition sin_espacios (s : string) : bool :=
  Re.allb (fun c => negb (ProyectoService.isspace c)) s.

(** The character classes of the email pattern. *)
Definition email_local_char (c : ascii) : bool :=
  Re.alpha c || Re.digit c || Re.one_of "._%+-" c.

Definition email_domain_char (c : ascii) : bool :=
  Re.alpha c || Re.digit c || Re.one_of ".-" c.

(** The pattern [[a-zA-Z0-9._%+-]+@[a-zA-Z0-9.-]+\.[a-zA-Z]{2,}] from end to
    end: a local part, an at sign, a domain, a dot and at least two
    letters. *)
Definition email_shape (s : string) : Prop :=
  exists local dominio tld : string,
    s = local ++ String "@" (dominio ++ String "." tld)
    /\ local <> "" /\ Re.allb email_local_char local = true
    /\ dominio <> "" /\ Re.allb email_domain_char dominio = true
    /\ (2 <= String.length tld)%nat /\ Re.allb Re.alpha tld = true.

(** The pattern [(\+\d{1,3})?[0-9]{8,12}] from end to end: eight to twelve
    digits, after an optional plus sign with one to three digits. *)
Definition phone_shape (s : string) : Prop :=
  exists prefijo numero : string,
    s = prefijo ++ numero
    /\ (prefijo = ""
        \/ exists cc, prefijo = String "+" cc
                      /\ (1 <= String.length cc <= 3)%nat
                      /\ Re.allb Re.digit cc = true)
    /\ (8 <= String.length numero <= 12)%nat
    /\ Re.allb Re.digit numero = true.

(** A shape, with or without one line feed after it. *)
Definition or_line_feed (shape : string -> Prop) (s : string) : Prop :=
  shape s \/ exists p, s = p ++ Spec.line_feed /\ shape p.

(** A check that only appends to the error list, the same errors and with
    the same outcome whatever the list it starts from, and whose errors
    are for fields of [fs], in the order of [fs] and at most one for each. *)
Definition ordered (m : St.M (list BaseValidator.ValidationError) unit)
    (fs : list string) : Prop :=
  (forall errs, m errs = ((m []).1, (errs ++ (m []).2)%list))
  /\ sublist (map BaseValidator.field (m []).2) fs.

(** The fields that each validator reports on, in the order of its checks. *)
Definition campos (k : Validators.subclass) : list string :=
  match k with
  | Validators.Usuario =>
      ["rut"; "email"; "first_name"; "last_name"; "password"; "role"; "phone"]
  | Validators.Proyecto =>
      ["nombre"; "ubicacion"; "fecha_inicio"; "fecha_finalizacion"; "estado"; "codigo"]
  | Validators.Unidad =>
      ["proyecto_id"; "numero_unidad"; "tipo_unidad"; "metraje_cuadrado";
       "precio_venta"; "estado"]
  end.

(** A check that returns and records no error. *)
Definition accepts (m : St.M (list BaseValidator.ValidationError) unit) : Prop :=
  m [] = (Ok tt, []).

(** A field that is left out: a missing key, [None] or another false
    value. *)
Definition ausente (v : pyval) : Prop := truthy v = false.

(** A string that satisfies [P]. *)
Definition cadena (P : string -> Prop) (v : pyval) : Prop :=
  match v with
  | PyStr s => P s
  | _ => False
  end.

(** A string of [lo] to [hi] characters. *)
Definition texto (lo hi : nat) : pyval -> Prop :=
  cadena (fun s => (lo <= String.length s <= hi)%nat).

(** A string of at least [lo] characters. *)
Definition texto_desde (lo : nat) : pyval -> Prop :=
  cadena (fun s => (lo <= String.length s)%nat).

(** One of the strings of [l]. *)
Definition uno_de (l : list string) : pyval -> Prop :=
  cadena (fun s => s ∈ l).

(** A string of the shape [shape], with or without a line feed after it. *)
Definition con_forma (shape : string -> Prop) : pyval -> Prop :=
  cadena (or_line_feed shape).

(** A string of eight characters or more with an upper-case letter, a
    lower-case letter and a digit among them. *)
Definition clave_fuerte : pyval -> Prop :=
  cadena (fun s => (8 <= String.length s)%nat
                   /\ any isupper s = true /\ any islower s = true
                   /\ any isdigit s = true).

(** The values that are not [<= 0]: [True], an integer above zero, a
    float above zero or plus infinity, and a NaN, which is below or equal
    to nothing. *)
Definition positivo (v : pyval) : bool :=
  match v with
  | PyBool b => b
  | PyInt z => 0 <? z
  | PyFloat S754_nan => true
  | PyFloat (S754_infinity s) | PyFloat (S754_finite s _ _) => negb s
  | _ => false
  end.

(** The two dates of a project, when both are given, parse and are in
    order. *)
Definition fechas_en_orden (fromisoformat : string -> option date) (inicio fin : pyval)
  : Prop :=
  ausente inicio \/ ausente fin
  \/ exists a b, Spec.date_value fromisoformat inicio = Some a
                 /\ Spec.date_value fromisoformat fin = Some b
                 /\ date_compare a b <> Gt.

(** The mappings that each validator accepts. *)
Definition usuario_aceptado (d : gmap string pyval) : Prop :=
  con_forma Spec.rut_shape (get d "rut")
  /\ con_forma email_shape (get d "email")
  /\ texto_desde 2 (get d "first_name")
  /\ texto_desde 2 (get d "last_name")
  /\ (ausente (get d "password") \/ clave_fuerte (get d "password"))
  /\ (ausente (get d "role") \/ uno_de UsuarioValidator.roles_validos (get d "role"))
  /\ (ausente (get d "phone") \/ con_forma phone_shape (get d "phone")).

Definition proyecto_aceptado (fromisoformat : string -> option date)
    (d : gmap string pyval) : Prop :=
  texto 3 100 (get d "nombre")
  /\ texto 5 200 (get d "ubicacion")
  /\ fechas_en_orden fromisoformat (get d "fecha_inicio") (get d "fecha_finalizacion")
  /\ (ausente (get d "estado")
      \/ uno_de ProyectoValidator.estados_validos (get d "estado"))
  /\ (ausente (get d "codigo") \/ texto 5 20 (get d "codigo")).

Definition unidad_aceptada (d : gmap string pyval) : Prop :=
  truthy (get d "proyecto_id") = true
  /\ texto 1 20 (get d "numero_unidad")
  /\ uno_de UnidadValidator.tipos_validos (get d "tipo_unidad")
  /\ positivo (get d "metraje_cuadrado") = true
  /\ positivo (get d "precio_venta") = true
  /\ uno_de UnidadValidator.estados_validos (get d "estado").

(** The required fields of each validator: the field, the test that finds
    it missing, and the message recorded for it. *)
Definition obligatorios (k : Validators.subclass)
  : list (string * (pyval -> bool) * string) :=
  let falso v := negb (truthy v) in
  match k with
  | Validators.Usuario =>
      [("rut", falso, "El RUT es obligatorio");
       ("email", falso, "El email es obligatorio");
       ("first_name", falso, "El nombre es obligatorio");
       ("last_name", falso, "El apellido es obligatorio")]
  | Validators.Proyecto =>
      [("nombre", falso, "El nombre es obligatorio");
       ("ubicacion", falso, py_str "La ubicación es obligatoria")]
  | Validators.Unidad =>
      [("proyecto_id", falso, "El proyecto es obligatorio");
       ("numero_unidad", falso, py_str "El número de unidad es obligatorio");
       ("tipo_unidad", falso, "El tipo de unidad es obligatorio");
       ("metraje_cuadrado", UnidadValidator.is_None, "El metraje cuadrado es obligatorio");
       ("precio_venta", UnidadValidator.is_None, "El precio de venta es obligatorio");
       ("estado", falso, "El estado es obligatorio")]
  end.

End Vocabulary.

(* ===================================================================== *)
(** * Reading a table                                                    *)
(* ===================================================================== *)

Module DbProps.
Import Db.

Lemma mbind_unfold {S A B} (k : A -> M S B) (m : M S A) (s : S) :
  (m ≫= k) s =
  match m s with
  | (Ok a, s') => k a s'
  | (Raise e, s') => (Raise e, s')
  end.
Proof. reflexivity. Qed.

Lemma elem_of_objects_filter {T} (p : T -> bool) (t : gmap N T) (x : instance T) :
  In x (objects_filter p t) <-> t !! x.1 = Some x.2 /\ p x.2 = true.
Proof.
  unfold objects_filter, all. rewrite filter_In, <- list_elem_of_In.
  destruct x as [i u]. rewrite elem_of_map_to_list. reflexivity.
Qed.

(** [objects_get] reads only; it finds the one matching row, finds none
    when no row matches, and raises on several. *)
Lemma objects_get_spec {T} (p : T -> bool) (t : gmap N T) :
  (objects_get p t = (Ok None, t) /\ forall i u, t !! i = Some u -> p u = false)
  \/ (exists x, objects_get p t = (Ok (Some x), t) /\ t !! x.1 = Some x.2 /\ p x.2 = true)
  \/ (objects_get p t = (Raise MultipleObjectsReturned, t)).
Proof.
  unfold objects_get. destruct (objects_filter p t) as [|x [|y l]] eqn:E.
  - left. split; [reflexivity|]. intros i u Hi. destruct (p u) eqn:Hp; [|reflexivity].
    assert (In (i, u) (objects_filter p t)) as Hin by (apply elem_of_objects_filter; auto).
    rewrite E in Hin. destruct Hin.
  - right; left. exists x. split; [reflexivity|].
    apply elem_of_objects_filter. rewrite E. left. reflexivity.
  - right; right. reflexivity.
Qed.

(** The engine refuses a row whose entry in a unique index another row
    has, unless the write leaves the entry as it is. *)
Lemma accepted_refused {T} (c : constraints T) (t : gmap N T) (id j : N) (row other : T)
    (same : T -> T -> bool) :
  In same (unique_indexes c) ->
  from_option (fun o => same o row) false (t !! id) = false ->
  j <> id -> t !! j = Some other -> same other row = true ->
  accepted c t id row = false.
Proof.
  intros Hin Hold Hj Ht Hs. unfold accepted. apply andb_false_iff. left.
  apply not_true_is_false. intros Hall. rewrite forallb_forall in Hall.
  specialize (Hall same Hin). cbv beta in Hall. rewrite Hold in Hall. cbn [orb] in Hall.
  rewrite forallb_forall in Hall.
  assert (In (j, other) (all t)) as Hin'
    by (apply list_elem_of_In, elem_of_map_to_list; exact Ht).
  specialize (Hall (j, other) Hin'). cbn [fst snd] in Hall. rewrite Hs in Hall.
  destruct (N.eqb_spec j id); [contradiction|discriminate Hall].
Qed.

(** The engine accepts a row when each entry of a unique index is left as
    it is or is the entry of no other row, and each reference is left as
    it is, is null, or is a stored key. *)
Lemma accepted_intro {T} (c : constraints T) (t : gmap N T) (id : N) (row : T) :
  (forall same, In same (unique_indexes c) ->
     from_option (fun o => same o row) false (t !! id) = true
     \/ forall j other, j <> id -> t !! j = Some other -> same other row = false) ->
  (forall fk, In fk (foreign_keys c) ->
     from_option (fun o => bool_decide (fk.1 o = fk.1 row)) false (t !! id) = true
     \/ from_option fk.2 true (fk.1 row) = true) ->
  accepted c t id row = true.
Proof.
  intros Hu Hf. unfold accepted. apply andb_true_iff. split; apply forallb_forall.
  - intros same Hin. apply orb_true_iff. destruct (Hu same Hin) as [H|H]; [left; exact H|].
    right. apply forallb_forall. intros [j other] Hj. cbn [fst snd].
    apply list_elem_of_In, elem_of_map_to_list in Hj.
    destruct (N.eqb_spec j id) as [E|E]; [reflexivity|]. cbn. rewrite (H j other E Hj).
    reflexivity.
  - intros fk Hin. apply orb_true_iff. exact (Hf fk Hin).
Qed.

Lemma save_new_refused {T} (c : constraints T) (t : gmap N T) (id j : N) (row other : T)
    (same : T -> T -> bool) :
  In same (unique_indexes c) -> t !! j = Some other -> same other row = true ->
  save_new c (id, row) t = (Raise IntegrityError, t).
Proof.
  intros Hin Hj Hs. unfold save_new, save. cbn [fst snd].
  destruct (t !! id) eqn:Hid; [reflexivity|].
  rewrite (accepted_refused c t id j row other same Hin); try assumption;
    [reflexivity|rewrite Hid; reflexivity|congruence].
Qed.

Lemma save_refused {T} (c : constraints T) (t : gmap N T) (id j : N) (old row other : T)
    (same : T -> T -> bool) :
  In same (unique_indexes c) -> t !! id = Some old -> same old row = false ->
  j <> id -> t !! j = Some other -> same other row = true ->
  save c (id, row) t = (Raise IntegrityError, t).
Proof.
  intros Hin Hid Hold Hne Hj Hs. unfold save. cbn [fst snd].
  rewrite (accepted_refused c t id j row other same Hin); try assumption;
    [reflexivity|rewrite Hid; exact Hold].
Qed.

End DbProps.

(* ===================================================================== *)
(** * Properties of the unit state machine                               *)
(* ===================================================================== *)

Module UnidadServiceProps.
Import Db UnidadRepository UnidadService Spec DbProps.

(** Unfolds the calls of the service down to the reads and writes of the
    table. *)
Ltac run_service :=
  unfold run, asignar_cliente, marcar_como_vendida, UnidadService.update,
    UnidadService.get_by_id, UnidadService.delete, UnidadService.create,
    BaseService.update, BaseService.delete, BaseService.create, BaseService.get_by_id,
    repo_get_by_id, repo_update, repo_delete, repo_create;
  cbn [UnidadService.repository UnidadRepository.repository];
  unfold UnidadRepository.update, UnidadRepository.get_by_id, UnidadRepository.delete,
    fmap, M_fmap, mbind, M_bind, mret, M_ret, bind, ret, raise, objects_get_pk, save,
    delete_row;
  cbn [fst snd fmap option_fmap option_map].

Section Engine.

Variable proyectos usuarios : gset N.

(** The check of the engine on a write that keeps the project and the
    number of a stored unit: only the client is looked at. *)
Lemma accepted_same_unit (t : table) (id : N) (u u' : UnidadPropiedad.t) :
  t !! id = Some u ->
  UnidadPropiedad.proyecto_id u' = UnidadPropiedad.proyecto_id u ->
  UnidadPropiedad.numero_unidad u' = UnidadPropiedad.numero_unidad u ->
  accepted (UnidadPropiedad.constraints proyectos usuarios) t id u'
  = cliente_aceptado usuarios (UnidadPropiedad.cliente_id u) (UnidadPropiedad.cliente_id u').
Proof.
  intros Hu Hp Hn. unfold accepted, cliente_aceptado. rewrite Hu.
  cbn [UnidadPropiedad.constraints unique_indexes foreign_keys forallb from_option fst snd].
  rewrite Hp, Hn, N.eqb_refl, String.eqb_refl.
  rewrite (bool_decide_eq_true_2 (Some (UnidadPropiedad.proyecto_id u)
                                  = Some (UnidadPropiedad.proyecto_id u))) by reflexivity.
  cbn [andb orb]. rewrite andb_true_r. reflexivity.
Qed.

Lemma asignar_cliente_eq (t : table) unidad_id cliente_id :
  asignar_cliente proyectos usuarios unidad_id cliente_id t =
  match t !! unidad_id with
  | Some u =>
      if String.eqb (UnidadPropiedad.estado u) "Disponible"
      then
        if cliente_aceptado usuarios (UnidadPropiedad.cliente_id u) cliente_id
        then (Ok (Some (unidad_id, reservada u cliente_id)),
              <[unidad_id := reservada u cliente_id]> t)
        else (Raise IntegrityError, t)
      else (Raise UnidadNoDisponibleError, t)
  | None => (Raise UnidadNoDisponibleError, t)
  end.
Proof.
  run_service. destruct (t !! unidad_id) as [u|] eqn:Hu; cbn; [|reflexivity].
  destruct (String.eqb (UnidadPropiedad.estado u) "Disponible"); cbn; [|reflexivity].
  rewrite Hu. cbn [fmap option_fmap option_map fst snd].
  change (setattrs u _) with (reservada u cliente_id).
  rewrite (accepted_same_unit t unidad_id u (reservada u cliente_id) Hu eq_refl eq_refl).
  cbn [UnidadPropiedad.cliente_id reservada].
  destruct (cliente_aceptado usuarios (UnidadPropiedad.cliente_id u) cliente_id);
    reflexivity.
Qed.

Lemma marcar_como_vendida_eq (t : table) unidad_id :
  marcar_como_vendida proyectos usuarios unidad_id t =
  match t !! unidad_id with
  | Some u =>
      if String.eqb (UnidadPropiedad.estado u) "Reservado"
      then match UnidadPropiedad.cliente_id u with
           | Some _ => (Ok (Some (unidad_id, vendida u)), <[unidad_id := vendida u]> t)
           | None => (Raise ClienteNoValidoError, t)
           end
      else (Raise UnidadNoDisponibleError, t)
  | None => (Raise UnidadNoDisponibleError, t)
  end.
Proof.
  run_service. destruct (t !! unidad_id) as [u|] eqn:Hu; cbn; [|reflexivity].
  destruct (String.eqb (UnidadPropiedad.estado u) "Reservado"); cbn; [|reflexivity].
  destruct (UnidadPropiedad.cliente_id u) as [c|] eqn:Hc; cbn; [|reflexivity].
  rewrite Hu. cbn [fmap option_fmap option_map fst snd].
  change (setattrs u _) with (vendida u).
  rewrite (accepted_same_unit t unidad_id u (vendida u) Hu eq_refl eq_refl).
  unfold cliente_aceptado. cbn [UnidadPropiedad.cliente_id vendida].
  rewrite (bool_decide_eq_true_2 (UnidadPropiedad.cliente_id u
                                  = UnidadPropiedad.cliente_id u)) by reflexivity.
  reflexivity.
Qed.

(** C1 (amended). [asignar_cliente(unidad_id, cliente_id)] raises
    [UnidadNoDisponibleError] when no unit has the key or when the state of
    the unit is not 'Disponible', and then the table, hence the state and
    the client of the unit, is the one before the call.  On a unit in
    state 'Disponible', when [cliente_id] is [None] or the key of a stored
    user, it returns the unit with [cliente_id] as its client and
    'Reservado' as its state, and that is the row the table then holds;
    when [cliente_id] is the key of no stored user (and not a client the
    unit already has), the save is refused: the call raises
    [IntegrityError] and the table is the one before the call. *)
Theorem asignar_cliente_spec (t : table) (unidad_id : N) (cliente_id : option N) :
  match t !! unidad_id with
  | None =>
      asignar_cliente proyectos usuarios unidad_id cliente_id t
      = (Raise UnidadNoDisponibleError, t)
  | Some u =>
      if decide (UnidadPropiedad.estado u = "Disponible") then
        (cliente_id = None \/ (exists k, cliente_id = Some k /\ k ∈ usuarios) ->
         exists u',
           asignar_cliente proyectos usuarios unidad_id cliente_id t
           = (Ok (Some (unidad_id, u')), <[unidad_id := u']> t)
           /\ <[unidad_id := u']> t !! unidad_id = Some u'
           /\ UnidadPropiedad.cliente_id u' = cliente_id
           /\ UnidadPropiedad.estado u' = "Reservado")
        /\ (forall k, cliente_id = Some k -> k ∉ usuarios ->
                      UnidadPropiedad.cliente_id u <> Some k ->
            asignar_cliente proyectos usuarios unidad_id cliente_id t
            = (Raise IntegrityError, t))
      else
        asignar_cliente proyectos usuarios unidad_id cliente_id t
        = (Raise UnidadNoDisponibleError, t)
        /\ (asignar_cliente proyectos usuarios unidad_id cliente_id t).2 !! unidad_id
           = Some u
  end.
Proof.
  rewrite asignar_cliente_eq.
  destruct (t !! unidad_id) as [u|] eqn:Hu; [|reflexivity].
  destruct (decide (UnidadPropiedad.estado u = "Disponible")) as [He|He].
  - rewrite He. cbn [String.eqb Ascii.eqb Bool.eqb]. split.
    + intros Hc.
      assert (cliente_aceptado usuarios (UnidadPropiedad.cliente_id u) cliente_id = true)
        as ->.
      { unfold cliente_aceptado. apply orb_true_iff. right.
        destruct Hc as [->|(k & -> & Hk)]; [reflexivity|].
        cbn. apply bool_decide_eq_true_2, Hk. }
      exists (reservada u cliente_id).
      rewrite lookup_insert_eq. repeat split; reflexivity.
    + intros k -> Hk Hne.
      assert (cliente_aceptado usuarios (UnidadPropiedad.cliente_id u) (Some k) = false)
        as ->; [|reflexivity].
      unfold cliente_aceptado. apply orb_false_iff. split.
      * apply bool_decide_eq_false_2. exact Hne.
      * cbn. apply bool_decide_eq_false_2, Hk.
  - destruct (String.eqb_spec (UnidadPropiedad.estado u) "Disponible") as [E|_];
      [contradiction|]. split; [reflexivity|exact Hu].
Qed.

(** C2. [marcar_como_vendida(unidad_id)] raises [UnidadNoDisponibleError]
    when no unit has the key or when the state of the unit is not
    'Reservado'; it raises [ClienteNoValidoError] when the state is
    'Reservado' and the unit has no client; otherwise it returns the unit
    with state 'Vendido' and the same client, and that is the row the
    table then holds.  A call that raises leaves the table as it was. *)
Theorem marcar_como_vendida_spec (t : table) (unidad_id : N) :
  match t !! unidad_id with
  | None =>
      marcar_como_vendida proyectos usuarios unidad_id t = (Raise UnidadNoDisponibleError, t)
  | Some u =>
      if decide (UnidadPropiedad.estado u = "Reservado") then
        match UnidadPropiedad.cliente_id u with
        | None =>
            marcar_como_vendida proyectos usuarios unidad_id t
            = (Raise ClienteNoValidoError, t)
        | Some c =>
            exists u',
              marcar_como_vendida proyectos usuarios unidad_id t
              = (Ok (Some (unidad_id, u')), <[unidad_id := u']> t)
              /\ <[unidad_id := u']> t !! unidad_id = Some u'
              /\ UnidadPropiedad.estado u' = "Vendido"
              /\ UnidadPropiedad.cliente_id u' = Some c
        end
      else
        marcar_como_vendida proyectos usuarios unidad_id t
        = (Raise UnidadNoDisponibleError, t)
  end.
Proof.
  rewrite marcar_como_vendida_eq.
  destruct (t !! unidad_id) as [u|] eqn:Hu; [|reflexivity].
  destruct (decide (UnidadPropiedad.estado u = "Reservado")) as [He|He].
  - rewrite He. cbn. destruct (UnidadPropiedad.cliente_id u) as [c|] eqn:Hc; [|reflexivity].
    exists (vendida u). rewrite lookup_insert_eq. cbn. rewrite Hc. repeat split; reflexivity.
  - destruct (String.eqb_spec (UnidadPropiedad.estado u) "Reservado") as [E|_];
      [contradiction|reflexivity].
Qed.

(** One call on a table that holds [u] under [unidad_id] leaves a row
    there: the same row, or 'Disponible' turned into 'Reservado', or
    'Reservado' turned into 'Vendido'. *)
Lemma run_step (c : call) (t : table) (unidad_id : N) (u : UnidadPropiedad.t) :
  t !! unidad_id = Some u ->
  exists u', (run proyectos usuarios c t).2 !! unidad_id = Some u' /\
    (u' = u
     \/ (UnidadPropiedad.estado u = "Disponible" /\ UnidadPropiedad.estado u' = "Reservado")
     \/ (UnidadPropiedad.estado u = "Reservado" /\ UnidadPropiedad.estado u' = "Vendido")).
Proof.
  intros Hu. destruct c as [k cid|k]; cbn [run].
  - rewrite asignar_cliente_eq. destruct (t !! k) as [v|] eqn:Hv; cbn; [|eauto].
    destruct (String.eqb_spec (UnidadPropiedad.estado v) "Disponible") as [E|E]; cbn; [|eauto].
    destruct (cliente_aceptado usuarios (UnidadPropiedad.cliente_id v) cid); cbn; [|eauto].
    destruct (decide (k = unidad_id)) as [->|Hne].
    + rewrite lookup_insert_eq. assert (v = u) as -> by congruence. eauto 6.
    + rewrite lookup_insert_ne by exact Hne. eauto.
  - rewrite marcar_como_vendida_eq. destruct (t !! k) as [v|] eqn:Hv; cbn; [|eauto].
    destruct (String.eqb_spec (UnidadPropiedad.estado v) "Reservado") as [E|E]; cbn; [|eauto].
    destruct (UnidadPropiedad.cliente_id v); cbn; [|eauto].
    destruct (decide (k = unidad_id)) as [->|Hne].
    + rewrite lookup_insert_eq. assert (v = u) as -> by congruence. eauto 6.
    + rewrite lookup_insert_ne by exact Hne. eauto.
Qed.

(** C9. Under [asignar_cliente] and [marcar_como_vendida]: one call leaves
    a stored unit as it is, or takes it from 'Disponible' to 'Reservado',
    or from 'Reservado' to 'Vendido'; over any sequence of calls a unit in
    state 'Vendido' stays the very same row, and a unit in state
    'Reservado' is never in state 'Disponible' again. *)
Theorem estado_forward_only (t : table) (unidad_id : N) (u : UnidadPropiedad.t) :
  t !! unidad_id = Some u ->
  (forall c, exists u', (run proyectos usuarios c t).2 !! unidad_id = Some u' /\
     (u' = u
      \/ (UnidadPropiedad.estado u = "Disponible" /\ UnidadPropiedad.estado u' = "Reservado")
      \/ (UnidadPropiedad.estado u = "Reservado" /\ UnidadPropiedad.estado u' = "Vendido")))
  /\ (forall cs, UnidadPropiedad.estado u = "Vendido" ->
        run_all proyectos usuarios cs t !! unidad_id = Some u)
  /\ (forall cs, UnidadPropiedad.estado u = "Reservado" ->
        exists u', run_all proyectos usuarios cs t !! unidad_id = Some u'
                   /\ UnidadPropiedad.estado u' <> "Disponible").
Proof.
  intros Hu. split; [|split].
  - intros c. apply run_step. exact Hu.
  - intros cs. revert t Hu. induction cs as [|c cs IH]; intros t Hu Hv; [exact Hu|].
    cbn. apply IH; [|exact Hv].
    destruct (run_step c t unidad_id u Hu) as (u' & Hu' & [->|[[E _]|[E _]]]);
      [exact Hu'|congruence|congruence].
  - intros cs Hr.
    assert (Hinv : UnidadPropiedad.estado u = "Reservado" \/ UnidadPropiedad.estado u = "Vendido")
      by (left; exact Hr).
    clear Hr. revert t u Hu Hinv. induction cs as [|c cs IH]; intros t u Hu Hinv.
    + exists u. split; [exact Hu|]. destruct Hinv as [E|E]; rewrite E; discriminate.
    + cbn. destruct (run_step c t unidad_id u Hu) as (u' & Hu' & Hstep).
      apply (IH _ u' Hu').
      destruct Hstep as [->|[[E _]|[_ E]]]; [exact Hinv| |right; exact E].
      destruct Hinv as [E'|E']; rewrite E' in E; discriminate.
Qed.

End Engine.

(** C1 as the specification states it fails on a client that is not
    stored: the unit is in state 'Disponible', and the call raises
    [IntegrityError] and leaves the unit without client and
    'Disponible'. *)
Lemma asignar_cliente_refused :
  una_unidad !! 1%N = Some depto
  /\ UnidadPropiedad.estado depto = "Disponible"
  /\ (999%N ∉ los_usuarios)
  /\ asignar_cliente los_proyectos los_usuarios 1 (Some 999%N) una_unidad
     = (Raise IntegrityError, una_unidad).
Proof.
  split; [reflexivity|split; [reflexivity|split]].
  - unfold los_usuarios. apply not_elem_of_union.
    split; apply not_elem_of_singleton; discriminate.
  - rewrite asignar_cliente_eq. vm_compute. reflexivity.
Qed.

Lemma asignar_cliente_spec_witness :
  exists u',
    asignar_cliente los_proyectos los_usuarios 1 (Some 2%N) una_unidad
    = (Ok (Some (1%N, u')), <[1%N := u']> una_unidad)
    /\ UnidadPropiedad.cliente_id u' = Some 2%N
    /\ UnidadPropiedad.estado u' = "Reservado".
Proof.
  pose proof (asignar_cliente_spec los_proyectos los_usuarios una_unidad 1 (Some 2%N)) as H.
  unfold una_unidad in H at 1. rewrite lookup_insert_eq in H.
  destruct (decide (UnidadPropiedad.estado depto = "Disponible")) as [_|Hn];
    [|exfalso; apply Hn; reflexivity].
  destruct H as [H _].
  destruct H as (u' & E & _ & Hc & He).
  - right. exists 2%N. split; [reflexivity|].
    unfold los_usuarios. apply elem_of_union. left. apply elem_of_singleton. reflexivity.
  - exists u'. split; [exact E|split; [exact Hc|exact He]].
Defined.

Lemma estado_forward_only_witness :
  (forall c, exists u',
     (run los_proyectos los_usuarios c (<[1%N := depto_reservado]> ∅)).2 !! 1%N = Some u' /\
     (u' = depto_reservado
      \/ (UnidadPropiedad.estado depto_reservado = "Disponible"
          /\ UnidadPropiedad.estado u' = "Reservado")
      \/ (UnidadPropiedad.estado depto_reservado = "Reservado"
          /\ UnidadPropiedad.estado u' = "Vendido")))
  /\ (forall cs, run_all los_proyectos los_usuarios cs (<[1%N := depto_vendido]> ∅) !! 1%N
                 = Some depto_vendido)
  /\ (forall cs, exists u',
        run_all los_proyectos los_usuarios cs (<[1%N := depto_reservado]> ∅) !! 1%N = Some u'
        /\ UnidadPropiedad.estado u' <> "Disponible").
Proof.
  split; [|split].
  - apply (estado_forward_only los_proyectos los_usuarios (<[1%N := depto_reservado]> ∅) 1
             depto_reservado).
    reflexivity.
  - intros cs.
    apply (estado_forward_only los_proyectos los_usuarios (<[1%N := depto_vendido]> ∅) 1
             depto_vendido);
      reflexivity.
  - intros cs.
    apply (estado_forward_only los_proyectos los_usuarios (<[1%N := depto_reservado]> ∅) 1
             depto_reservado);
      reflexivity.
Defined.

(** A look-up in the dictionary of the counting loop, started from [d]. *)
Lemma contar_from {A} (key : A -> string) (l : list A) (d : gmap string nat) (k : string) :
  fold_left
    (fun (d : gmap string nat) x =>
       match d !! key x with
       | Some n => <[key x := (n + 1)%nat]> d
       | None => <[key x := 1%nat]> d
       end) l d !! k
  = match cuenta key k l with
    | O => d !! k
    | S n => Some (default 0%nat (d !! k) + S n)%nat
    end.
Proof.
  unfold cuenta. revert d. induction l as [|x l IH]; intros d; [reflexivity|].
  cbn [fold_left List.filter]. rewrite IH. clear IH.
  destruct (String.eqb_spec (key x) k) as [E|E].
  - subst k. cbn [length].
    destruct (d !! key x) as [n|] eqn:Hd; rewrite lookup_insert_eq;
      destruct (length _); cbn; f_equal; lia.
  - destruct (d !! key x) as [n|] eqn:Hd; rewrite lookup_insert_ne by exact E;
      reflexivity.
Qed.

Lemma contar_lookup {A} (key : A -> string) (l : list A) (k : string) :
  contar key l !! k
  = match cuenta key k l with O => None | S n => Some (S n) end.
Proof.
  unfold contar. rewrite contar_from, lookup_empty. destruct (cuenta key k l); reflexivity.
Qed.

Lemma Min_spec (x : Z) (l : list Z) :
  In (foldr Z.min x l) (x :: l) /\ forall y, In y (x :: l) -> foldr Z.min x l <= y.
Proof.
  induction l as [|a l [IHin IHle]]; cbn [foldr].
  - split; [left; reflexivity|]. intros y [<-|[]]. lia.
  - split.
    + destruct (Z.min_spec a (foldr Z.min x l)) as [[_ ->]|[_ ->]].
      * right; left; reflexivity.
      * destruct IHin as [E|Hin]; [left; exact E|right; right; exact Hin].
    + intros y [<-|[<-|Hy]].
      * specialize (IHle x ltac:(left; reflexivity)). lia.
      * lia.
      * specialize (IHle y ltac:(right; exact Hy)). lia.
Qed.

Lemma Max_spec (x : Z) (l : list Z) :
  In (foldr Z.max x l) (x :: l) /\ forall y, In y (x :: l) -> y <= foldr Z.max x l.
Proof.
  induction l as [|a l [IHin IHle]]; cbn [foldr].
  - split; [left; reflexivity|]. intros y [<-|[]]. lia.
  - split.
    + destruct (Z.max_spec a (foldr Z.max x l)) as [[_ ->]|[_ ->]].
      * destruct IHin as [E|Hin]; [left; exact E|right; right; exact Hin].
      * right; left; reflexivity.
    + intros y [<-|[<-|Hy]].
      * specialize (IHle x ltac:(left; reflexivity)). lia.
      * lia.
      * specialize (IHle y ltac:(right; exact Hy)). lia.
Qed.

Lemma pow10_mod3 (m : Z) : 0 <= m -> 10 ^ m mod 3 = 1.
Proof.
  intros H. pattern m. apply natlike_ind; [reflexivity| |exact H].
  intros x Hx IH. rewrite Z.pow_succ_r by exact Hx.
  rewrite Z.mul_mod, IH by lia. reflexivity.
Qed.

(** No [Decimal] is a third of 400 hundredths. *)
Lemma hundredths_not_third (d : decimal) :
  Qcmult (hundredths d) (Qc_of_Z 3) <> Qc_of_Z 400.
Proof.
  unfold hundredths. cbv zeta.
  destruct (Z.leb_spec 0 (exponent d + 2)) as [Hk|Hk].
  - rewrite <- Z2Qc_inj_mul. intros E. apply Z2Qc_inj in E. lia.
  - assert (0 < 10 ^ (- (exponent d + 2))) as Hp by (apply Z.pow_pos_nonneg; lia).
    assert (10 ^ (- (exponent d + 2)) mod 3 = 1) as Hm.
    { apply pow10_mod3. lia. }
    intros E.
    assert (Qc_of_Z (coefficient d * 3) = Qc_of_Z (400 * 10 ^ (- (exponent d + 2)))) as E'.
    { assert (Qc_of_Z (10 ^ (- (exponent d + 2))) <> 0%Qc) as Hp0
        by (rewrite <- Z2Qc_inj_0; intros E0; apply Z2Qc_inj in E0; lia).
      rewrite !Z2Qc_inj_mul, <- E.
      rewrite <- (test_field (Qc_of_Z (coefficient d)) _ Hp0) at 1.
      rewrite <- !Qcmult_assoc. f_equal. apply Qcmult_comm. }
    apply Z2Qc_inj in E'.
    assert ((400 * 10 ^ (- (exponent d + 2))) mod 3 = 1) as Hm'.
    { rewrite Z.mul_mod, Hm by lia. reflexivity. }
    rewrite <- E' in Hm'. rewrite Z.mod_mul in Hm' by lia. discriminate.
Qed.

Section Aggregate.

(** The aggregate of the backend, and what every backend does: over no
    row the aggregate is [None]; over one price that the field can hold
    (twelve digits) it is that price. *)
Variable Avg : list Z -> option decimal.
Hypothesis Avg_nil : Avg [] = None.
Hypothesis Avg_one :
  forall x, Z.abs x < 10 ^ 12 -> exists d, Avg [x] = Some d /\ hundredths d = Qc_of_Z x.


End Aggregate.



End UnidadServiceProps.

(* ===================================================================== *)
(** * Properties of the user service                                     *)
(* ===================================================================== *)

Module UsuarioServiceProps.
Import Db UsuarioRepository UsuarioService Spec DbProps.

Section Hasher.

Variable make_password : string -> string.
Variable normalize_email : string -> string.

(** The uniqueness check of [create]: it reads only, and it returns only
    when the condition is false or no row matches. *)
Lemma create_check (cond : bool) (p : Usuario.t -> bool) (msg : string) (t : table) :
  let check : M table unit :=
    if cond then
      existing ← objects_get p;
      if bool_decide (is_Some existing) then raise (ValueError msg) else mret tt
    else mret tt in
  (check t = (Ok tt, t) /\ (cond = true -> forall i u, t !! i = Some u -> p u = false))
  \/ (exists e, check t = (Raise e, t)).
Proof.
  cbv zeta. destruct cond; [|left; split; [reflexivity|discriminate]].
  rewrite mbind_unfold.
  destruct (objects_get_spec p t) as [[E H]|[(x & E & _)|E]]; rewrite E.
  - left. split; [reflexivity|]. intros _. exact H.
  - right. eexists. reflexivity.
  - right. eexists. reflexivity.
Qed.

(** The uniqueness check of [update]: it reads only, and it returns only
    when the condition is false or no other row matches. *)
Lemma update_check (cond : bool) (p : Usuario.t -> bool) (msg : string) (id : N) (t : table) :
  let check : M table unit :=
    if cond then
      existing ← objects_get p;
      match existing with
      | Some existing =>
          if negb (N.eqb existing.1 id) then raise (ValueError msg) else mret tt
      | None => mret tt
      end
    else mret tt in
  (check t = (Ok tt, t) /\
   (cond = true -> forall i u, i <> id -> t !! i = Some u -> p u = false))
  \/ (exists e, check t = (Raise e, t)).
Proof.
  cbv zeta. destruct cond; [|left; split; [reflexivity|discriminate]].
  rewrite mbind_unfold.
  destruct (objects_get_spec p t) as [[E H]|[(x & Hx & Hl & Hp)|E]]; try rewrite E.
  - left. split; [reflexivity|]. intros _ i u _. apply H.
  - rewrite Hx. destruct (N.eqb_spec x.1 id) as [E|E]; cbn.
    + left. split; [reflexivity|]. intros _ i u Hne Hi.
      destruct (p u) eqn:Hpu; [|reflexivity]. exfalso.
      destruct (objects_get_spec p t) as [[_ H]|[(y & Hy & _)|Hy]].
      * rewrite (H _ _ Hi) in Hpu. discriminate.
      * unfold objects_get in Hx, Hy.
        destruct (objects_filter p t) as [|z [|z' l]] eqn:Ef; try discriminate.
        assert (In (i, u) (objects_filter p t)) as Hin
          by (apply elem_of_objects_filter; auto).
        rewrite Ef in Hin. destruct Hin as [Hin|[]]. subst z.
        injection Hx as Hx. subst x. cbn in E. congruence.
      * rewrite Hx in Hy. discriminate.
    + right. eexists. reflexivity.
  - right. eexists. reflexivity.
Qed.

(** The role check: it reads only, and it returns only on an accepted
    role. *)
Lemma role_check (role : option string) (t : table) :
  let check : M table unit :=
    if passed role && negb (bool_decide (default "" role ∈ roles)) then
      raise (ValueError ("El rol " ++ default "" role
                         ++ py_str " no es válido. Debe ser 'Administrador' o 'Cliente'"))
    else mret tt in
  (check t = (Ok tt, t) /\ role_accepted role) \/ (exists e, check t = (Raise e, t)).
Proof.
  cbv zeta. unfold role_accepted.
  destruct (passed role); [|left; split; [reflexivity|discriminate]].
  destruct (bool_decide_reflect (default "" role ∈ roles)) as [H|H].
  - left. split; [reflexivity|]. intros _. exact H.
  - right. eexists. reflexivity.
Qed.

Ltac open_service :=
  unfold create, update, delete, get_by_id, get_by_email, get_by_rut,
    UsuarioRepository.get_by_email, UsuarioRepository.get_by_rut,
    BaseService.delete, BaseService.get_by_id, repo_get_by_id, repo_delete;
  cbn [repository UsuarioRepository.repository];
  unfold UsuarioRepository.get_by_id, objects_get_pk;
  cbv zeta.

(** The row that the repository writes for an instance keeps what the
    keywords do not name. *)
Lemma updated_row (kw : kwargs) (u : Usuario.t) :
  let u' := let r := setattrs u (pop_password kw) in
            if passed (kw_password kw)
            then set_password make_password r (default "" (kw_password kw)) else r in
  Usuario.rut u' = default (Usuario.rut u) (kw_rut kw)
  /\ Usuario.email u' = default (Usuario.email u) (kw_email kw)
  /\ Usuario.username u' = default (Usuario.username u) (kw_username kw).
Proof. cbv zeta. destruct (passed (kw_password kw)); repeat split. Qed.

(** [create] raises, and writes nothing, when one of its three checks
    fails or when the engine refuses the row. *)
Lemma create_raises (t : table) (new_id : N) (kw : kwargs) :
  (exists e, kw_email kw = Some e /\ email_taken t e)
  \/ (exists r, kw_rut kw = Some r /\ rut_taken t r)
  \/ (passed (kw_role kw) = true /\ default "" (kw_role kw) ∉ roles) ->
  exists e, create make_password normalize_email new_id kw t = (Raise e, t).
Proof.
  intros H. open_service.
  rewrite mbind_unfold.
  destruct (create_check (passed (kw_email kw))
              (fun u => String.eqb (Usuario.email u) (default "" (kw_email kw)))
              ("Ya existe un usuario con el email " ++ default "" (kw_email kw)) t)
    as [[E1 H1]|[e E1]]; rewrite E1; [|eexists; reflexivity].
  rewrite mbind_unfold.
  destruct (create_check (passed (kw_rut kw))
              (fun u => String.eqb (Usuario.rut u) (default "" (kw_rut kw)))
              ("Ya existe un usuario con el RUT " ++ default "" (kw_rut kw)) t)
    as [[E2 H2]|[e E2]]; rewrite E2; [|eexists; reflexivity].
  rewrite mbind_unfold.
  destruct (role_check (kw_role kw) t) as [[E3 H3]|[e E3]]; rewrite E3;
    [|eexists; reflexivity].
  unfold repo_create. cbn [repository UsuarioRepository.repository].
  unfold UsuarioRepository.create. cbv zeta.
  destruct H as [(e & He & (i & u & Hi & Hu))|[(r & Hr & (i & u & Hi & Hu))|[Hp Hr]]].
  - destruct (passed (kw_email kw)) eqn:Hp.
    { exfalso. specialize (H1 eq_refl i u Hi). cbn in H1.
      rewrite He in H1. cbn in H1. rewrite Hu, String.eqb_refl in H1. discriminate. }
    rewrite He in Hp. cbn [passed] in Hp.
    destruct (passed (kw_password kw)).
    + unfold create_user. cbn [pop_password kw_email]. rewrite He, Hp. cbn [negb].
      eexists. reflexivity.
    + unfold objects_create. cbv zeta. rewrite mbind_unfold.
      rewrite (save_new_refused Usuario.constraints t new_id i _ u
                 (fun a b => String.eqb (Usuario.email a) (Usuario.email b)));
        [eexists; reflexivity|cbn; tauto|exact Hi|].
      cbn. rewrite He, Hu. cbn. apply String.eqb_refl.
  - destruct (passed (kw_rut kw)) eqn:Hp.
    { exfalso. specialize (H2 eq_refl i u Hi). cbn in H2.
      rewrite Hr in H2. cbn in H2. rewrite Hu, String.eqb_refl in H2. discriminate. }
    destruct (passed (kw_password kw)).
    + unfold create_user. cbn [pop_password kw_email].
      destruct (kw_email kw) as [e|]; [|eexists; reflexivity].
      destruct (negb (truthy (PyStr e))); [eexists; reflexivity|].
      cbv zeta. rewrite mbind_unfold.
      rewrite (save_new_refused Usuario.constraints t new_id i _ u
                 (fun a b => String.eqb (Usuario.rut a) (Usuario.rut b)));
        [eexists; reflexivity|cbn; tauto|exact Hi|].
      cbn. rewrite Hr, Hu. cbn. apply String.eqb_refl.
    + unfold objects_create. cbv zeta. rewrite mbind_unfold.
      rewrite (save_new_refused Usuario.constraints t new_id i _ u
                 (fun a b => String.eqb (Usuario.rut a) (Usuario.rut b)));
        [eexists; reflexivity|cbn; tauto|exact Hi|].
      cbn. rewrite Hr, Hu. cbn. apply String.eqb_refl.
  - exfalso. apply Hr, H3, Hp.
Qed.

(** The row that [update] writes for the instance [u]. *)
Lemma update_returns (t : table) (id : N) (kw : kwargs) (u : Usuario.t) :
  t !! id = Some u ->
  unchanged (kw_email kw) (Usuario.email u) ->
  unchanged (kw_rut kw) (Usuario.rut u) ->
  role_accepted (kw_role kw) ->
  (forall n, kw_username kw = Some n -> ~ username_of_other t id n) ->
  exists u',
    update make_password normalize_email id kw t = (Ok (Some (id, u')), <[id := u']> t)
    /\ Usuario.email u' = Usuario.email u /\ Usuario.rut u' = Usuario.rut u.
Proof.
  intros Hu He Hr Hrole Hname.
  assert (C1 : passed (kw_email kw)
               && negb (String.eqb (default "" (kw_email kw)) (Usuario.email u)) = false).
  { destruct He as [->| ->]; [reflexivity|]. simpl default.
    rewrite String.eqb_refl. apply andb_false_r. }
  assert (C2 : passed (kw_rut kw)
               && negb (String.eqb (default "" (kw_rut kw)) (Usuario.rut u)) = false).
  { destruct Hr as [->| ->]; [reflexivity|]. simpl default.
    rewrite String.eqb_refl. apply andb_false_r. }
  assert (C3 : passed (kw_role kw)
               && negb (bool_decide (default "" (kw_role kw) ∈ roles)) = false).
  { unfold role_accepted in Hrole. destruct (passed (kw_role kw)); [|reflexivity].
    rewrite bool_decide_eq_true_2 by (apply Hrole; reflexivity). reflexivity. }
  pose proof (updated_row kw u) as Hrow. cbv zeta in Hrow.
  set (u' := let r := setattrs u (pop_password kw) in
             if passed (kw_password kw)
             then set_password make_password r (default "" (kw_password kw)) else r)
    in Hrow |- *.
  destruct Hrow as (Erut & Eemail & Ename).
  assert (Usuario.email u' = Usuario.email u) as Ee
    by (rewrite Eemail; destruct He as [->| ->]; reflexivity).
  assert (Usuario.rut u' = Usuario.rut u) as Er
    by (rewrite Erut; destruct Hr as [->| ->]; reflexivity).
  exists u'. split; [|split; assumption].
  open_service. rewrite mbind_unfold, Hu. cbn [fmap option_fmap option_map fst snd].
  rewrite C1, C2, C3.
  unfold repo_update, repository. cbn [UsuarioRepository.repository].
  unfold UsuarioRepository.update. cbv zeta.
  unfold fmap, M_fmap, mbind, M_bind, mret, M_ret, bind, ret, save. cbn [fst snd].
  fold u'.
  rewrite accepted_intro; [reflexivity| |intros fk []].
  intros same Hin. rewrite Hu. cbn [from_option].
  cbn [Usuario.constraints unique_indexes In] in Hin.
  destruct Hin as [<-|[<-|[<-|[]]]].
  - left. rewrite Er. apply String.eqb_refl.
  - left. rewrite Ee. apply String.eqb_refl.
  - destruct (kw_username kw) as [n|] eqn:Hn.
    + right. intros j other Hj Ho. apply String.eqb_neq. intros E.
      apply (Hname n eq_refl). exists j, other. repeat split; try assumption.
      rewrite E, Ename. reflexivity.
    + left. rewrite Ename. apply String.eqb_refl.
Qed.

(** [update] raises, and writes nothing, when the email or the RUT is
    the one of another user, or when the role is not accepted. *)
Lemma update_raises (t : table) (id : N) (kw : kwargs) (u : Usuario.t) :
  t !! id = Some u ->
  unique_keys t ->
  (exists e, kw_email kw = Some e /\ email_of_other t id e)
  \/ (exists r, kw_rut kw = Some r /\ rut_of_other t id r)
  \/ (passed (kw_role kw) = true /\ default "" (kw_role kw) ∉ roles) ->
  exists e, update make_password normalize_email id kw t = (Raise e, t).
Proof.
  intros Hu Huniq H. open_service. rewrite mbind_unfold, Hu.
  cbn [fmap option_fmap option_map fst snd].
  rewrite mbind_unfold.
  destruct (update_check
              (passed (kw_email kw)
               && negb (String.eqb (default "" (kw_email kw)) (Usuario.email u)))
              (fun u => String.eqb (Usuario.email u) (default "" (kw_email kw)))
              ("Ya existe un usuario con el email " ++ default "" (kw_email kw)) id t)
    as [[E1 H1]|[e E1]]; rewrite E1; [|eexists; reflexivity].
  rewrite mbind_unfold.
  destruct (update_check
              (passed (kw_rut kw)
               && negb (String.eqb (default "" (kw_rut kw)) (Usuario.rut u)))
              (fun u => String.eqb (Usuario.rut u) (default "" (kw_rut kw)))
              ("Ya existe un usuario con el RUT " ++ default "" (kw_rut kw)) id t)
    as [[E2 H2]|[e E2]]; rewrite E2; [|eexists; reflexivity].
  rewrite mbind_unfold.
  destruct (role_check (kw_role kw) t) as [[E3 H3]|[e E3]]; rewrite E3;
    [|eexists; reflexivity].
  pose proof (updated_row kw u) as Hrow. cbv zeta in Hrow.
  destruct Hrow as (Erut & Eemail & _).
  unfold repo_update, repository. cbn [UsuarioRepository.repository].
  unfold UsuarioRepository.update. cbv zeta.
  unfold fmap, M_fmap, mbind, M_bind, mret, M_ret, bind, ret. cbn [fst snd].
  destruct H as [(e & He & (i & v & Hne & Hi & Hv))|[(r & Hr & (i & v & Hne & Hi & Hv))|[Hp Hr]]].
  - assert (Usuario.email u <> e) as Hdiff.
    { intros E. apply Hne. apply (Huniq i id v u Hi Hu). left. congruence. }
    destruct (passed (kw_email kw)) eqn:Hp.
    { exfalso.
      assert (String.eqb (Usuario.email v) (default "" (kw_email kw)) = false) as Habs.
      { apply (H1 ltac:(rewrite He; cbn; apply negb_true_iff, String.eqb_neq; congruence)
                 i v Hne Hi). }
      rewrite He in Habs. cbn in Habs. rewrite Hv, String.eqb_refl in Habs. discriminate. }
    rewrite (save_refused Usuario.constraints t id i u _ v
               (fun a b => String.eqb (Usuario.email a) (Usuario.email b)));
      [eexists; reflexivity|cbn; tauto|exact Hu| |exact Hne|exact Hi|].
    + rewrite Eemail, He. cbn. apply String.eqb_neq. exact Hdiff.
    + rewrite Eemail, He, Hv. cbn. apply String.eqb_refl.
  - assert (Usuario.rut u <> r) as Hdiff.
    { intros E. apply Hne. apply (Huniq i id v u Hi Hu). right. congruence. }
    destruct (passed (kw_rut kw)) eqn:Hp.
    { exfalso.
      assert (String.eqb (Usuario.rut v) (default "" (kw_rut kw)) = false) as Habs.
      { apply (H2 ltac:(rewrite Hr; cbn; apply negb_true_iff, String.eqb_neq; congruence)
                 i v Hne Hi). }
      rewrite Hr in Habs. cbn in Habs. rewrite Hv, String.eqb_refl in Habs. discriminate. }
    rewrite (save_refused Usuario.constraints t id i u _ v
               (fun a b => String.eqb (Usuario.rut a) (Usuario.rut b)));
      [eexists; reflexivity|cbn; tauto|exact Hu| |exact Hne|exact Hi|].
    + rewrite Erut, Hr. cbn. apply String.eqb_neq. exact Hdiff.
    + rewrite Erut, Hr, Hv. cbn. apply String.eqb_refl.
  - exfalso. apply Hr, H3, Hp.
Qed.

(** C3 (amended). [create] raises, writing nothing, when the email or the
    RUT that is passed is the one of a stored user (the service refuses
    it, or the engine does when it is empty), or when a non-empty role is
    passed that is neither 'Administrador' nor 'Cliente'.  On a table
    without duplicate emails and RUTs, [update] of a stored user raises,
    writing nothing, when the email or the RUT passed is the one of
    another stored user, or on such a role; and an [update] whose email
    and RUT, when passed, are the current ones of the user (with an
    accepted role, and with a user name, if one is passed, that no other
    user has) returns the updated user, whose email and RUT are the
    same. *)
Theorem usuario_checks (t : table) (new_id id : N) (kw : kwargs) (u : Usuario.t) :
  ((exists e, kw_email kw = Some e /\ email_taken t e)
   \/ (exists r, kw_rut kw = Some r /\ rut_taken t r)
   \/ (passed (kw_role kw) = true /\ default "" (kw_role kw) ∉ roles) ->
   exists e, create make_password normalize_email new_id kw t = (Raise e, t))
  /\ (t !! id = Some u -> unique_keys t ->
      (exists e, kw_email kw = Some e /\ email_of_other t id e)
      \/ (exists r, kw_rut kw = Some r /\ rut_of_other t id r)
      \/ (passed (kw_role kw) = true /\ default "" (kw_role kw) ∉ roles) ->
      exists e, update make_password normalize_email id kw t = (Raise e, t))
  /\ (t !! id = Some u ->
      unchanged (kw_email kw) (Usuario.email u) ->
      unchanged (kw_rut kw) (Usuario.rut u) ->
      role_accepted (kw_role kw) ->
      (forall n, kw_username kw = Some n -> ~ username_of_other t id n) ->
      exists u',
        update make_password normalize_email id kw t
        = (Ok (Some (id, u')), <[id := u']> t)
        /\ Usuario.email u' = Usuario.email u /\ Usuario.rut u' = Usuario.rut u).
Proof.
  split; [apply create_raises|split].
  - apply update_raises.
  - apply update_returns.
Qed.

(** C10. For a key that no stored user has, [update] returns [None]
    whatever the keywords are, so without any check, and the table is
    the one before the call; [delete] of the base service returns
    [False] on a key that is not stored, for users and for units, and
    the table is the one before the call. *)
Theorem missing_id_is_a_no_op (t : table) (units : gmap N UnidadPropiedad.t)
    (proyectos usuarios : gset N) (id : N) (kw : kwargs) :
  t !! id = None -> units !! id = None ->
  update make_password normalize_email id kw t = (Ok None, t)
  /\ delete make_password normalize_email id t = (Ok false, t)
  /\ BaseService.delete (repository := UnidadRepository.repository proyectos usuarios)
       id units
     = (Ok false, units).
Proof.
  intros Hu Hn. split; [|split].
  - open_service. rewrite mbind_unfold, Hu. reflexivity.
  - open_service. rewrite mbind_unfold, Hu. reflexivity.
  - unfold BaseService.delete, BaseService.get_by_id, repo_get_by_id.
    cbn [UnidadRepository.repository].
    unfold UnidadRepository.get_by_id, objects_get_pk.
    rewrite mbind_unfold, Hn. reflexivity.
Qed.

End Hasher.

Lemma unique_keys_dos_usuarios : unique_keys dos_usuarios.
Proof.
  intros i j u v Hi Hj H. unfold dos_usuarios in Hi, Hj.
  apply lookup_insert_Some in Hi as [[<- <-]|[Hi1 Hi]];
    apply lookup_insert_Some in Hj as [[<- <-]|[Hj1 Hj]]; [reflexivity| | |].
  - apply lookup_insert_Some in Hj as [[<- <-]|[_ Hj]];
      [destruct H; discriminate|rewrite lookup_empty in Hj; discriminate].
  - apply lookup_insert_Some in Hi as [[<- <-]|[_ Hi]];
      [destruct H; discriminate|rewrite lookup_empty in Hi; discriminate].
  - apply lookup_insert_Some in Hi as [[<- <-]|[_ Hi]];
      [|rewrite lookup_empty in Hi; discriminate].
    apply lookup_insert_Some in Hj as [[<- <-]|[_ Hj]];
      [reflexivity|rewrite lookup_empty in Hj; discriminate].
Defined.

Lemma usuario_checks_witness :
  (exists e, create plain plain 3 (kw_email_only "ana@example.com") dos_usuarios
             = (Raise e, dos_usuarios))
  /\ (exists e, update plain plain 1 (kw_email_only "luis@example.com") dos_usuarios
                = (Raise e, dos_usuarios))
  /\ (exists u', update plain plain 1 (kw_email_only "ana@example.com") dos_usuarios
                 = (Ok (Some (1%N, u')), <[1%N := u']> dos_usuarios)
                 /\ Usuario.email u' = Usuario.email ana
                 /\ Usuario.rut u' = Usuario.rut ana).
Proof.
  split; [|split].
  - apply (proj1 (usuario_checks plain plain dos_usuarios 3 1
                    (kw_email_only "ana@example.com") ana)).
    left. eexists. split; [reflexivity|]. exists 1%N, ana. split; reflexivity.
  - apply (proj1 (proj2 (usuario_checks plain plain dos_usuarios 3 1
                           (kw_email_only "luis@example.com") ana)));
      [reflexivity|exact unique_keys_dos_usuarios|].
    left. eexists. split; [reflexivity|]. exists 2%N, luis.
    split; [discriminate|split; reflexivity].
  - apply (proj2 (proj2 (usuario_checks plain plain dos_usuarios 3 1
                           (kw_email_only "ana@example.com") ana)));
      [reflexivity|right; reflexivity|left; reflexivity|discriminate|discriminate].
Defined.

(** C3 as the specification states it fails on an empty role: the role is passed and is
    neither 'Administrador' nor 'Cliente', and [create] stores the user. *)
Lemma create_accepts_empty_role :
  kw_role kw_empty_role = Some ""
  /\ ("" ∉ roles)
  /\ create plain plain 3 kw_empty_role dos_usuarios
     = (Ok (3%N, Usuario.mk "33333333-3" "eva@example.com" "Eva" "Mora" "" None "eva" ""),
        <[3%N := Usuario.mk "33333333-3" "eva@example.com" "Eva" "Mora" "" None "eva" ""]>
          dos_usuarios).
Proof.
  split; [reflexivity|split].
  - intros H. apply list_elem_of_In in H. cbn in H. intuition discriminate.
  - vm_compute. reflexivity.
Qed.

Lemma missing_id_is_a_no_op_witness :
  update plain plain 9 (kw_role_only "Jefe") dos_usuarios = (Ok None, dos_usuarios)
  /\ delete plain plain 9 dos_usuarios = (Ok false, dos_usuarios)
  /\ BaseService.delete
       (repository := UnidadRepository.repository los_proyectos los_usuarios) 9 una_unidad
     = (Ok false, una_unidad).
Proof.
  apply (missing_id_is_a_no_op plain plain dos_usuarios una_unidad los_proyectos
           los_usuarios 9 (kw_role_only "Jefe"));
    reflexivity.
Defined.

End UsuarioServiceProps.

(* ===================================================================== *)
(** * Matching by derivatives                                            *)
(* ===================================================================== *)

Module ReProps.
Import Re.

Lemma append_cons (c : ascii) (s1 s2 : string) : String c s1 ++ s2 = String c (s1 ++ s2).
Proof. reflexivity. Qed.

Lemma append_nil_l (s : string) : "" ++ s = s.
Proof. reflexivity. Qed.

Lemma append_empty (s1 s2 : string) : s1 ++ s2 = "" -> s1 = "" /\ s2 = "".
Proof. destruct s1; [auto|discriminate]. Qed.

Lemma append_nil_r (s : string) : s ++ "" = s.
Proof. induction s as [|c s IH]; [reflexivity|]. rewrite !append_cons, ?IH. cbn [String.length]. rewrite ?IH. reflexivity. Qed.

Lemma append_assoc (s1 s2 s3 : string) : (s1 ++ s2) ++ s3 = s1 ++ (s2 ++ s3).
Proof. induction s1 as [|c s1 IH]; [reflexivity|]. rewrite !append_cons, ?IH. cbn [String.length]. rewrite ?IH. reflexivity. Qed.

Lemma append_length (s1 s2 : string) :
  String.length (s1 ++ s2) = (String.length s1 + String.length s2)%nat.
Proof. induction s1 as [|c s1 IH]; [reflexivity|]. rewrite !append_cons, ?IH. cbn [String.length]. rewrite ?IH. reflexivity. Qed.

Lemma nullable_lang (r : regex) : nullable r = true <-> lang r "".
Proof.
  split.
  - induction r as [| |p|r1 IH1 r2 IH2|r1 IH1 r2 IH2|r IH]; cbn [nullable]; intros H;
      try discriminate.
    + constructor.
    + apply andb_true_iff in H as [H1 H2].
      change "" with ("" ++ ""). constructor; auto.
    + apply orb_true_iff in H as [H|H]; [apply lang_alt_l|apply lang_alt_r]; auto.
    + constructor.
  - intros H. remember "" as s eqn:Es.
    induction H as [|p c Hp|r1 r2 s1 s2 H1 IH1 H2 IH2|r1 r2 s H IH|r1 r2 s H IH|r
                    |r s1 s2 H1 IH1 H2 IH2]; cbn [nullable]; try reflexivity.
    + discriminate.
    + apply append_empty in Es as [-> ->]. rewrite IH1, IH2; reflexivity.
    + rewrite IH by exact Es. reflexivity.
    + rewrite IH by exact Es. apply orb_true_r.
Qed.

Lemma deriv_sound (r : regex) (c : ascii) (s : string) :
  lang (deriv c r) s -> lang r (String c s).
Proof.
  revert s. induction r as [| |p|r1 IH1 r2 IH2|r1 IH1 r2 IH2|r IH]; intros s; cbn [deriv].
  - intros H. inversion H.
  - intros H. inversion H.
  - destruct (p c) eqn:Hp; intros H; inversion H; subst. constructor. exact Hp.
  - assert (forall w, lang (Cat (deriv c r1) r2) w -> lang (Cat r1 r2) (String c w)) as Hcat.
    { intros w H. inversion H as [| |a b s1 s2 H1 H2| | | |]; subst.
      change (String c (s1 ++ s2)) with (String c s1 ++ s2). constructor; auto. }
    destruct (nullable r1) eqn:N; [|apply Hcat].
    intros H. inversion H as [| | |a b w H1|a b w H2| |]; subst; [apply Hcat, H1|].
    change (String c s) with ("" ++ String c s). constructor; [|auto].
    apply nullable_lang, N.
  - intros H. inversion H; subst; [apply lang_alt_l|apply lang_alt_r]; auto.
  - intros H. inversion H as [| |a b s1 s2 H1 H2| | | |]; subst.
    change (String c (s1 ++ s2)) with (String c s1 ++ s2). constructor; auto.
Qed.

Lemma deriv_complete (r : regex) (c : ascii) (s : string) :
  lang r (String c s) -> lang (deriv c r) s.
Proof.
  intros H. remember (String c s) as w eqn:Ew. revert c s Ew.
  induction H as [|p c' Hp|r1 r2 s1 s2 H1 IH1 H2 IH2|r1 r2 w H IH|r1 r2 w H IH|r
                  |r s1 s2 H1 IH1 H2 IH2]; intros c s Ew; cbn [deriv].
  - discriminate.
  - injection Ew as -> <-. rewrite Hp. constructor.
  - destruct s1 as [|c1 s1].
    + rewrite ?append_cons, ?append_nil_l in Ew. subst s2.
      rewrite (proj2 (nullable_lang r1) H1). apply lang_alt_r. apply IH2. reflexivity.
    + rewrite ?append_cons, ?append_nil_l in Ew. injection Ew as -> <-.
      assert (lang (Cat (deriv c r1) r2) (s1 ++ s2)) as Hc
        by (constructor; [apply IH1; reflexivity|exact H2]).
      destruct (nullable r1); [apply lang_alt_l|]; exact Hc.
  - apply lang_alt_l. apply IH, Ew.
  - apply lang_alt_r. apply IH, Ew.
  - discriminate.
  - destruct s1 as [|c1 s1].
    + rewrite ?append_cons, ?append_nil_l in Ew. apply (IH2 c s Ew).
    + rewrite ?append_cons, ?append_nil_l in Ew. injection Ew as -> <-.
      constructor; [apply IH1; reflexivity|exact H2].
Qed.

(** [fullmatch] decides the language. *)
Lemma fullmatch_lang (r : regex) (s : string) : fullmatch r s = true <-> lang r s.
Proof.
  revert r. induction s as [|c s IH]; intros r; cbn [fullmatch].
  - apply nullable_lang.
  - rewrite IH. split; [apply deriv_sound|apply deriv_complete].
Qed.

(** Repetitions of a character class. *)
Lemma lang_upto_chr (p : ascii -> bool) (n : nat) (s : string) :
  lang (upto n (Chr p)) s <-> (String.length s <= n)%nat /\ allb p s = true.
Proof.
  revert s. induction n as [|n IH]; intros s; cbn [upto].
  - split.
    + intros H. inversion H. split; [cbn; lia|reflexivity].
    + intros [Hl _]. destruct s; [constructor|cbn in Hl; lia].
  - unfold opt. split.
    + intros H. inversion H as [| | |a b w H1|a b w H2| |]; subst.
      * inversion H1. split; [cbn; lia|reflexivity].
      * inversion H2 as [| |a b s1 s2 Hc Hu| | | |]; subst.
        inversion Hc as [|q c Hp| | | | |]; subst.
        apply IH in Hu as [Hl Ha]. rewrite append_cons, append_nil_l.
        cbn [String.length allb]. rewrite Hp, Ha. split; [lia|reflexivity].
    + intros [Hl Ha]. destruct s as [|c s]; [apply lang_alt_l; constructor|].
      cbn in Hl, Ha. apply andb_true_iff in Ha as [Hp Ha].
      apply lang_alt_r. change (String c s) with (String c "" ++ s).
      constructor; [constructor; exact Hp|]. apply IH. split; [lia|exact Ha].
Qed.

Lemma lang_times_chr (p : ascii -> bool) (n : nat) (s : string) :
  lang (times n (Chr p)) s <-> String.length s = n /\ allb p s = true.
Proof.
  revert s. induction n as [|n IH]; intros s; cbn [times].
  - split.
    + intros H. inversion H. split; reflexivity.
    + intros [Hl _]. destruct s; [constructor|discriminate].
  - split.
    + intros H. inversion H as [| |a b s1 s2 Hc Hu| | | |]; subst.
      inversion Hc as [|q c Hp| | | | |]; subst.
      apply IH in Hu as [Hl Ha]. rewrite append_cons, append_nil_l.
      cbn [String.length allb]. rewrite Hp, Ha, Hl. split; reflexivity.
    + intros [Hl Ha]. destruct s as [|c s]; [discriminate|].
      cbn in Hl, Ha. apply andb_true_iff in Ha as [Hp Ha].
      change (String c s) with (String c "" ++ s).
      constructor; [constructor; exact Hp|]. apply IH. split; [lia|exact Ha].
Qed.

Lemma allb_app (p : ascii -> bool) (s1 s2 : string) :
  allb p (s1 ++ s2) = allb p s1 && allb p s2.
Proof.
  induction s1 as [|c s1 IH]; [reflexivity|]. rewrite append_cons. cbn [allb]. rewrite IH. apply andb_assoc.
Qed.

Lemma split_at (n : nat) (s : string) :
  (n <= String.length s)%nat ->
  exists s1 s2, s = s1 ++ s2 /\ String.length s1 = n.
Proof.
  revert s. induction n as [|n IH]; intros s Hl.
  - exists "", s. split; reflexivity.
  - destruct s as [|c s]; [cbn in Hl; lia|]. cbn in Hl.
    destruct (IH s ltac:(lia)) as (s1 & s2 & -> & Hn).
    exists (String c s1), s2. split; [reflexivity|]. cbn. rewrite Hn. reflexivity.
Qed.

Lemma lang_between_chr (p : ascii -> bool) (m n : nat) (s : string) :
  (m <= n)%nat ->
  lang (between m n (Chr p)) s
  <-> (m <= String.length s <= n)%nat /\ allb p s = true.
Proof.
  intros Hmn. unfold between. split.
  - intros H. inversion H as [| |a b s1 s2 H1 H2| | | |]; subst.
    apply lang_times_chr in H1 as [Hl1 Ha1]. apply lang_upto_chr in H2 as [Hl2 Ha2].
    rewrite append_length, allb_app, Ha1, Ha2. split; [lia|reflexivity].
  - intros [Hl Ha]. destruct (split_at m s ltac:(lia)) as (s1 & s2 & -> & Hn).
    rewrite allb_app in Ha. apply andb_true_iff in Ha as [Ha1 Ha2].
    rewrite append_length in Hl.
    constructor; [apply lang_times_chr|apply lang_upto_chr]; split; auto; lia.
Qed.

(** The string without a last line feed. *)
Lemma chomp_app (p : string) : chomp (p ++ String newline "") = Some p.
Proof.
  induction p as [|a p IH]; [reflexivity|].
  rewrite append_cons. cbn [chomp].
  destruct (p ++ String newline "") as [|c' s'] eqn:E.
  - apply append_empty in E as [_ E]. discriminate.
  - rewrite IH. reflexivity.
Qed.

Lemma chomp_spec (s p : string) :
  chomp s = Some p <-> s = p ++ String newline "".
Proof.
  split; [|intros ->; apply chomp_app].
  revert p. induction s as [|c s IH]; intros p; cbn [chomp]; [discriminate|].
  destruct s as [|c' s'].
  - destruct (Ascii.eqb_spec c newline) as [->|Hc]; [|discriminate].
    intros [= <-]. reflexivity.
  - destruct (chomp (String c' s')) as [q|] eqn:Eq; [|discriminate].
    cbn [fmap option_fmap option_map]. intros [= <-].
    rewrite append_cons, <- (IH q eq_refl). reflexivity.
Qed.

End ReProps.

(* ===================================================================== *)
(** * Properties of the validators                                       *)
(* ===================================================================== *)

Module ValidatorProps.
Import St BaseValidator Spec ReProps.

Section Base.

Variable _validate : gmap string pyval -> V unit.

(** [is_valid] is a function of the mapping alone. *)
Lemma is_valid_eq (self : t) :
  is_valid _validate self =
  (match (_validate (data self) []).1 with
   | Ok _ => Ok (length (_validate (data self) []).2 =? 0)%nat
   | Raise e => Raise e
   end,
   mk (data self) (_validate (data self) []).2).
Proof.
  unfold is_valid. cbn [data errors].
  destruct (_validate (data self) []) as [[[]|e] errs]; reflexivity.
Qed.

Lemma is_valid_again (self : t) :
  is_valid _validate (is_valid _validate self).2 = is_valid _validate self.
Proof. rewrite !is_valid_eq. reflexivity. Qed.

Lemma is_valid_iter (self : t) (n : nat) :
  Nat.iter n (fun r => is_valid _validate r.2) (is_valid _validate self)
  = is_valid _validate self.
Proof.
  induction n as [|n IH]; [reflexivity|].
  rewrite Nat.iter_succ, IH. apply is_valid_again.
Qed.

End Base.

(** A look-up in the dictionary that [get_error_dict] builds, started
    from [d]. *)
Lemma error_dict_from (errs : list ValidationError) (d : gmap string (list string))
    (f : string) :
  fold_left
    (fun (error_dict : gmap string (list string)) error =>
       let error_dict' :=
         if decide (error_dict !! field error = None)
         then <[field error := []]> error_dict
         else error_dict in
       <[field error := (default [] (error_dict' !! field error) ++ [message error])%list]>
         error_dict')
    errs d !! f
  = match messages_of f errs with
    | [] => d !! f
    | l => Some (default [] (d !! f) ++ l)%list
    end.
Proof.
  unfold messages_of. revert d. induction errs as [|e errs IH]; intros d; [reflexivity|].
  cbn [fold_left List.filter]. rewrite IH. clear IH. cbv zeta.
  destruct (String.eqb_spec (field e) f) as [E|E].
  - subst f. cbn [map].
    destruct (decide (d !! field e = None)) as [Hd|Hd].
    + rewrite !lookup_insert_eq, Hd. cbn.
      destruct (map message _); reflexivity.
    + rewrite lookup_insert_eq. destruct (d !! field e) as [l|] eqn:Hl; [|congruence].
      cbn. destruct (map message _); [reflexivity|]. rewrite <- app_assoc. reflexivity.
  - destruct (decide (d !! field e = None)) as [Hd|Hd];
      rewrite ?lookup_insert_ne by exact E; reflexivity.
Qed.

Lemma get_error_dict_lookup (self : t) (f : string) :
  get_error_dict self !! f
  = match messages_of f (errors self) with [] => None | l => Some l end.
Proof.
  unfold get_error_dict. rewrite error_dict_from, lookup_empty.
  destruct (messages_of f (errors self)); reflexivity.
Qed.

(** C4. For each of the three validators and every mapping: [is_valid]
    returns [True] exactly when the checks have run to their end and the
    error list they leave is empty, and [False] exactly when they have run
    to their end and it is not; the error list does not depend on the list
    before the call; [get_error_dict] maps a field to the messages
    recorded for it, in order, and has no entry for a field without
    error; calling [is_valid] again, any number of times, gives the same
    result and the same validator. *)
Theorem is_valid_spec (fromisoformat : string -> option date) (k : Validators.subclass)
    (d : gmap string pyval) (errs0 : list ValidationError) (n : nat) :
  let self := mk d errs0 in
  let run := Validators._validate fromisoformat k d [] in
  let r := Validators.is_valid fromisoformat k self in
  (r.1 = Ok true <-> run.1 = Ok tt /\ errors r.2 = [])
  /\ (r.1 = Ok false <-> run.1 = Ok tt /\ errors r.2 <> [])
  /\ errors r.2 = run.2
  /\ data r.2 = d
  /\ (forall f, get_error_dict r.2 !! f
                = match messages_of f (errors r.2) with [] => None | l => Some l end)
  /\ Nat.iter n (fun r => Validators.is_valid fromisoformat k r.2) r = r.
Proof.
  cbv zeta. unfold Validators.is_valid.
  split; [|split; [|split; [|split; [|split]]]].
  1-4: rewrite is_valid_eq; cbn [fst snd data errors];
    destruct (Validators._validate fromisoformat k d []) as [[[]|e] [|x errs]];
    cbn [fst snd length Nat.eqb]; intuition congruence.
  - intros f. apply get_error_dict_lookup.
  - apply is_valid_iter.
Qed.

(** ** Checks that return *)

Lemma returns_ret : returns (ret tt).
Proof. intros errs. eexists. reflexivity. Qed.

Lemma returns_add_error (f m : string) : returns (add_error f m).
Proof. intros errs. eexists. reflexivity. Qed.

Lemma returns_seq (m k : V unit) : returns m -> returns k -> returns (m ;; k).
Proof.
  intros Hm Hk errs. destruct (Hm errs) as [errs1 E1]. destruct (Hk errs1) as [errs2 E2].
  exists errs2. unfold mbind, M_bind, bind. rewrite E1. exact E2.
Qed.

Lemma returns_lift {A} (a : A) (k : A -> V unit) :
  returns (k a) -> returns (lift (Ok a) ≫= k).
Proof. intros Hk errs. exact (Hk errs). Qed.

Lemma returns_if (c : bool) (m k : V unit) :
  returns m -> returns k -> returns (if c then m else k).
Proof. destruct c; auto. Qed.

Lemma str_or_false_truthy (v : pyval) :
  str_or_false v = true -> truthy v = true -> exists s, v = PyStr s.
Proof.
  unfold str_or_false. intros H T. rewrite T in H. destruct v; try discriminate.
  eexists. reflexivity.
Qed.

Lemma number_le_zero (v : pyval) :
  number_or_none v = true -> UnidadValidator.is_None v = false ->
  exists b, Py.le v (PyInt 0) = Ok b.
Proof.
  destruct v as [|b|z|f|s|dt]; try discriminate; intros _ _; unfold Py.le, Py.compare.
  - destruct (Z.b2z b ?= 0); eexists; reflexivity.
  - destruct (z ?= 0); eexists; reflexivity.
  - destruct (float_compare_Z f 0) as [[]|]; eexists; reflexivity.
Qed.

Lemma date_gt (a b : pyval) :
  (exists x, a = PyDate x) -> (exists y, b = PyDate y) -> exists r, Py.gt a b = Ok r.
Proof.
  intros [x ->] [y ->]. unfold Py.gt, Py.compare.
  destruct (date_compare x y); eexists; reflexivity.
Qed.

Lemma parse_if_str_date (fromisoformat : string -> option date) (v w : pyval) :
  date_or_false v = true -> truthy v = true ->
  ProyectoValidator.parse_if_str fromisoformat v = Some w -> exists x, w = PyDate x.
Proof.
  destruct v as [|b|z|f|s|dt]; cbn [date_or_false]; intros H T; rewrite ?T in H;
    try discriminate; cbn.
  - destruct (fromisoformat s); intros [= <-]; eexists; reflexivity.
  - intros [= <-]. eexists. reflexivity.
Qed.

(** A text check of the shape
    [if not x: add_error elif <test on len(x)>: add_error ...]. *)
Ltac text_field v H :=
  let T := fresh "T" in
  let s := fresh "s" in
  let E := fresh "E" in
  destruct (truthy v) eqn:T; cbn [negb];
  [destruct (str_or_false_truthy v H T) as [s E]; rewrite E;
   cbn [len BaseValidator.re_match UsuarioValidator._is_valid_rut_format
        UsuarioValidator._is_valid_email UsuarioValidator._is_valid_phone
        UsuarioValidator._is_strong_password]
  |].

Ltac returns_step :=
  first
    [ apply returns_ret
    | apply returns_add_error
    | apply returns_seq
    | apply returns_lift
    | apply returns_if ].

(** Splits a sequence of checks into its checks. *)
Ltac split_seq :=
  lazymatch goal with
  | |- returns (_ ≫= _) => apply returns_seq; [|split_seq]
  | _ => idtac
  end.

Lemma usuario_returns (d : gmap string pyval) :
  expected_types Validators.Usuario d = true -> returns (UsuarioValidator._validate d).
Proof.
  cbn [expected_types forallb]. rewrite !andb_true_iff.
  intros (Hrut & Hemail & Hfirst & Hlast & Hpass & Hphone & _).
  unfold UsuarioValidator._validate.
  split_seq.
  - unfold UsuarioValidator._validate_rut. cbv zeta.
    text_field (get d "rut") Hrut; repeat returns_step.
  - unfold UsuarioValidator._validate_email. cbv zeta.
    text_field (get d "email") Hemail; repeat returns_step.
  - unfold UsuarioValidator._validate_nombres. cbv zeta. apply returns_seq.
    + text_field (get d "first_name") Hfirst; repeat returns_step.
    + text_field (get d "last_name") Hlast; repeat returns_step.
  - unfold UsuarioValidator._validate_password. cbv zeta.
    text_field (get d "password") Hpass; repeat returns_step.
  - unfold UsuarioValidator._validate_role. cbv zeta. repeat returns_step.
  - unfold UsuarioValidator._validate_phone. cbv zeta.
    text_field (get d "phone") Hphone; repeat returns_step.
Qed.

Lemma proyecto_returns (fromisoformat : string -> option date) (d : gmap string pyval) :
  expected_types Validators.Proyecto d = true ->
  returns (ProyectoValidator._validate fromisoformat d).
Proof.
  cbn [expected_types forallb]. rewrite !andb_true_iff.
  intros [[(Hnombre & Hubic & Hcod & _) Hfi] Hff].
  unfold ProyectoValidator._validate.
  split_seq.
  - unfold ProyectoValidator._validate_nombre. cbv zeta.
    text_field (get d "nombre") Hnombre; repeat returns_step.
  - unfold ProyectoValidator._validate_ubicacion. cbv zeta.
    text_field (get d "ubicacion") Hubic; repeat returns_step.
  - unfold ProyectoValidator._validate_fechas. cbv zeta.
    destruct (truthy (get d "fecha_inicio")) eqn:Ti; [|apply returns_ret].
    destruct (truthy (get d "fecha_finalizacion")) eqn:Tf; [|apply returns_ret].
    cbn [andb].
    destruct (ProyectoValidator.parse_if_str fromisoformat (get d "fecha_inicio"))
      as [a|] eqn:Pa; [|apply returns_add_error].
    destruct (ProyectoValidator.parse_if_str fromisoformat (get d "fecha_finalizacion"))
      as [b|] eqn:Pb; [|apply returns_add_error].
    destruct (date_gt a b (parse_if_str_date _ _ _ Hfi Ti Pa)
                (parse_if_str_date _ _ _ Hff Tf Pb)) as [r ->].
    repeat returns_step.
  - unfold ProyectoValidator._validate_estado. cbv zeta. repeat returns_step.
  - unfold ProyectoValidator._validate_codigo. cbv zeta.
    text_field (get d "codigo") Hcod; repeat returns_step.
Qed.

Lemma unidad_returns (d : gmap string pyval) :
  expected_types Validators.Unidad d = true -> returns (UnidadValidator._validate d).
Proof.
  cbn [expected_types]. rewrite !andb_true_iff.
  intros [[Hnum Hmet] Hpre].
  unfold UnidadValidator._validate.
  split_seq.
  - unfold UnidadValidator._validate_proyecto. cbv zeta. repeat returns_step.
  - unfold UnidadValidator._validate_numero_unidad. cbv zeta.
    text_field (get d "numero_unidad") Hnum; repeat returns_step.
  - unfold UnidadValidator._validate_tipo_unidad. cbv zeta. repeat returns_step.
  - unfold UnidadValidator._validate_metraje. cbv zeta.
    destruct (UnidadValidator.is_None (get d "metraje_cuadrado")) eqn:N;
      [apply returns_add_error|].
    destruct (number_le_zero _ Hmet N) as [b ->]. repeat returns_step.
  - unfold UnidadValidator._validate_precio. cbv zeta.
    destruct (UnidadValidator.is_None (get d "precio_venta")) eqn:N;
      [apply returns_add_error|].
    destruct (number_le_zero _ Hpre N) as [b ->]. repeat returns_step.
  - unfold UnidadValidator._validate_estado. cbv zeta. repeat returns_step.
Qed.

(** C5 (amended). For each of the three validators and every mapping in
    which each text field holds a string or a false value, each date a
    string, a date or a false value, and the area and the price a number
    or [None], [is_valid] does not raise. *)
Theorem is_valid_never_raises (fromisoformat : string -> option date)
    (k : Validators.subclass) (d : gmap string pyval) (errs0 : list ValidationError) :
  expected_types k d = true ->
  raises (Validators.is_valid fromisoformat k (mk d errs0)).1 = false.
Proof.
  intros H. unfold Validators.is_valid. rewrite is_valid_eq. cbn [fst data].
  assert (returns (Validators._validate fromisoformat k d)) as R.
  { destruct k; cbn [Validators._validate].
    - apply usuario_returns, H.
    - apply proyecto_returns, H.
    - apply unidad_returns, H. }
  destruct (R []) as [errs' ->]. reflexivity.
Qed.

Lemma is_valid_never_raises_witness :
  raises (Validators.is_valid ProyectoValidator.fromisoformat_ymd Validators.Unidad
            (mk unidad_valida [])).1 = false.
Proof.
  apply (is_valid_never_raises ProyectoValidator.fromisoformat_ymd Validators.Unidad
           unidad_valida []).
  vm_compute. reflexivity.
Defined.

(** C5 as the specification states it fails: a number as RUT, a number as name and a string
    as price are values a mapping can hold, and [is_valid] raises on
    each. *)
Lemma is_valid_raises_on_other_types :
  (Validators.is_valid ProyectoValidator.fromisoformat_ymd Validators.Usuario
     (mk (<["rut" := PyInt 123456789]> usuario_valido) [])).1 = Raise TypeError
  /\ (Validators.is_valid ProyectoValidator.fromisoformat_ymd Validators.Proyecto
        (mk (<["nombre" := PyInt 123]> (proyecto_valido PyNone PyNone)) [])).1
     = Raise TypeError
  /\ (Validators.is_valid ProyectoValidator.fromisoformat_ymd Validators.Unidad
        (mk (<["precio_venta" := PyStr "5000"]> unidad_valida) [])).1 = Raise TypeError.
Proof. repeat split; vm_compute; reflexivity. Qed.

(** ** Dates of a project *)

Lemma parse_present (fromisoformat : string -> option date) (v : pyval) :
  present v = true ->
  truthy v = true
  /\ ProyectoValidator.parse_if_str fromisoformat v
     = PyDate <$> date_value fromisoformat v.
Proof.
  destruct v as [|b|z|f|s|dt]; try discriminate; intros H.
  - split; [exact H|reflexivity].
  - split; reflexivity.
Qed.

(** C7 (amended). For every project mapping in which [fecha_inicio] and
    [fecha_finalizacion] are each a non-empty string or a native date,
    the check of the dates returns, and: when [fecha_inicio] is a string
    that does not parse, a format error is recorded for [fecha_inicio];
    when [fecha_inicio] is or parses to a date and [fecha_finalizacion] is
    a string that does not parse, the check records a format error for
    [fecha_finalizacion] and nothing else; when both are or parse to
    dates, it records one [fecha_finalizacion] error if the start is
    strictly after the completion and nothing otherwise.  On the sample
    project, the dates 2024-01-01 and 2023-12-31 make [is_valid] return
    [False] with that [fecha_finalizacion] error as the only error, and
    the two dates swapped make it return [True]. *)
Theorem _validate_fechas_spec (fromisoformat : string -> option date)
    (d : gmap string pyval) (errs0 : list ValidationError) :
  (let fecha_inicio := get d "fecha_inicio" in
   let fecha_finalizacion := get d "fecha_finalizacion" in
   let r := ProyectoValidator._validate_fechas fromisoformat d errs0 in
   present fecha_inicio = true -> present fecha_finalizacion = true ->
   r.1 = Ok tt
   /\ match date_value fromisoformat fecha_inicio,
            date_value fromisoformat fecha_finalizacion with
      | None, _ => In (format_error "fecha_inicio") r.2
      | Some _, None => r.2 = (errs0 ++ [format_error "fecha_finalizacion"])%list
      | Some a, Some b =>
          r.2 = (errs0 ++ match date_compare a b with
                          | Gt => [order_error]
                          | _ => []
                          end)%list
      end)
  /\ Validators.is_valid fromisoformat Validators.Proyecto
       (mk (proyecto_valido (PyDate d_2024_01_01) (PyDate d_2023_12_31)) errs0)
     = (Ok false,
        mk (proyecto_valido (PyDate d_2024_01_01) (PyDate d_2023_12_31)) [order_error])
  /\ Validators.is_valid fromisoformat Validators.Proyecto
       (mk (proyecto_valido (PyDate d_2023_12_31) (PyDate d_2024_01_01)) errs0)
     = (Ok true, mk (proyecto_valido (PyDate d_2023_12_31) (PyDate d_2024_01_01)) []).
Proof.
  split; [|split; vm_compute; reflexivity].
  cbv zeta. intros Hi Hf.
  destruct (parse_present fromisoformat _ Hi) as [Ti Pi].
  destruct (parse_present fromisoformat _ Hf) as [Tf Pf].
  unfold ProyectoValidator._validate_fechas. cbv zeta.
  rewrite Ti, Tf, Pi, Pf. cbn [andb].
  destruct (date_value fromisoformat (get d "fecha_inicio")) as [a|];
    cbn [fmap option_fmap option_map].
  - destruct (date_value fromisoformat (get d "fecha_finalizacion")) as [b|];
      cbn [fmap option_fmap option_map].
    + unfold mbind, M_bind, bind, lift, Py.gt, Py.compare.
      destruct (date_compare a b); (split; [reflexivity|]); cbn [snd];
        rewrite ?app_nil_r; reflexivity.
    + split; reflexivity.
  - split; [reflexivity|]. unfold add_error. cbn [snd].
    apply in_or_app. right. left. reflexivity.
Qed.

Lemma _validate_fechas_spec_witness :
  let d := proyecto_valido (PyStr "2024-01-01") (PyStr "2023-12-31") in
  let r := ProyectoValidator._validate_fechas ProyectoValidator.fromisoformat_ymd d [] in
  r.1 = Ok tt /\ r.2 = [order_error].
Proof.
  exact (proj1 (_validate_fechas_spec ProyectoValidator.fromisoformat_ymd
                  (proyecto_valido (PyStr "2024-01-01") (PyStr "2023-12-31")) [])
           eq_refl eq_refl).
Defined.

(** C7 as the specification states it fails on two inputs.  When neither date parses,
    [fecha_finalizacion] is a string that is no date and no error is
    recorded for that field.  When [fecha_inicio] is the empty string, the
    check is skipped and no error is recorded at all. *)
Lemma format_error_not_recorded :
  let d := proyecto_valido (PyStr "2024-13-01") (PyStr "2024-02-30") in
  let d' := proyecto_valido (PyStr "") (PyStr "2024-01-01") in
  ProyectoValidator.fromisoformat_ymd "2024-02-30" = None
  /\ ProyectoValidator._validate_fechas ProyectoValidator.fromisoformat_ymd d []
     = (Ok tt, [format_error "fecha_inicio"])
  /\ has_error "fecha_finalizacion"
       (errors (Validators.is_valid ProyectoValidator.fromisoformat_ymd
                  Validators.Proyecto (mk d [])).2) = false
  /\ ProyectoValidator.fromisoformat_ymd "" = None
  /\ ProyectoValidator._validate_fechas ProyectoValidator.fromisoformat_ymd d' []
     = (Ok tt, []).
Proof. repeat split; vm_compute; reflexivity. Qed.

(** ** The RUT of a user *)

Lemma rut_pattern_lang (s : string) :
  Re.lang UsuarioValidator.rut_pattern s <-> rut_shape s.
Proof.
  unfold UsuarioValidator.rut_pattern, rut_shape. split.
  - intros H. inversion H as [| |a b ds s2 Hds H2| | | |]; subst.
    apply lang_between_chr in Hds as [Hl Ha]; [|lia].
    inversion H2 as [| |a b s3 s4 H3 H4| | | |]; subst.
    inversion H3 as [|q c0 Hc0| | | | |]; subst.
    inversion H4 as [|q c Hc| | | | |]; subst.
    apply Ascii.eqb_eq in Hc0. subst c0.
    exists ds, c. repeat split; [lia|lia|exact Ha|exact Hc].
  - intros (ds & c & -> & Hl & Ha & Hc).
    constructor; [apply lang_between_chr; [lia|split; [lia|exact Ha]]|].
    change (String "-" (String c "")) with (String "-" "" ++ String c "").
    constructor; constructor; [apply Ascii.eqb_refl|exact Hc].
Qed.

(** The format check accepts the strings of the pattern and the same
    strings followed by one line feed, and no other. *)
Lemma _is_valid_rut_format_true (s : string) :
  UsuarioValidator._is_valid_rut_format (PyStr s) = Ok true
  <-> rut_shape s \/ exists p, s = p ++ line_feed /\ rut_shape p.
Proof.
  unfold UsuarioValidator._is_valid_rut_format, re_match, Re.match_anchored.
  split.
  - intros [= H]. apply orb_true_iff in H as [H|H].
    + left. apply rut_pattern_lang, fullmatch_lang, H.
    + right. destruct (Re.chomp s) as [p|] eqn:E; [|discriminate].
      exists p. split; [apply chomp_spec, E|]. apply rut_pattern_lang, fullmatch_lang, H.
  - intros [H|(p & -> & H)]; f_equal; apply orb_true_iff.
    + left. apply fullmatch_lang, rut_pattern_lang, H.
    + right. unfold line_feed. rewrite chomp_app. apply fullmatch_lang, rut_pattern_lang, H.
Qed.

(** C8 (the code against the specification). A missing or false RUT gets the
    required error.  A non-empty string gets no error when it matches the
    pattern from end to end, but also when it is such a string followed
    by a line feed; any other non-empty string gets the format error.  So
    the examples of the specification hold ("12345678-9" gets no error,
    "123456789" gets the format error), while "12345678-9" followed by a
    line feed, which does not match the pattern from end to end, gets no
    error either: [is_valid] returns [True] on it. *)
Theorem _validate_rut_spec :
  (forall d errs, truthy (get d "rut") = false ->
     UsuarioValidator._validate_rut d errs
     = (Ok tt, (errs ++ [mkerror "rut" "El RUT es obligatorio"])%list))
  /\ (forall d errs s, get d "rut" = PyStr s -> truthy (PyStr s) = true ->
       (rut_shape s \/ (exists p, s = p ++ line_feed /\ rut_shape p) ->
        UsuarioValidator._validate_rut d errs = (Ok tt, errs))
       /\ (~ (rut_shape s \/ exists p, s = p ++ line_feed /\ rut_shape p) ->
           UsuarioValidator._validate_rut d errs
           = (Ok tt,
              (errs ++ [mkerror "rut"
                          (py_str "El formato del RUT no es válido (debe ser 12345678-9)")])%list)))
  /\ rut_shape "12345678-9"
  /\ ~ rut_shape "123456789"
  /\ (let rut := "12345678-9" ++ line_feed in
      let d := <["rut" := PyStr rut]> usuario_valido in
      ~ rut_shape rut
      /\ UsuarioValidator._validate_rut d [] = (Ok tt, [])
      /\ (Validators.is_valid ProyectoValidator.fromisoformat_ymd Validators.Usuario
            (mk d [])).1 = Ok true).
Proof.
  split; [|split; [|split; [|split]]].
  - intros d errs T. unfold UsuarioValidator._validate_rut. cbv zeta. rewrite T.
    reflexivity.
  - intros d errs s G T. unfold UsuarioValidator._validate_rut. cbv zeta.
    rewrite G, T. cbn [negb]. rewrite <- _is_valid_rut_format_true.
    unfold UsuarioValidator._is_valid_rut_format, re_match.
    destruct (Re.match_anchored UsuarioValidator.rut_pattern s); split;
      intros H; try reflexivity.
    + exfalso. apply H. reflexivity.
    + discriminate.
  - apply rut_pattern_lang, fullmatch_lang. vm_compute. reflexivity.
  - intros H. apply rut_pattern_lang, fullmatch_lang in H. vm_compute in H. discriminate.
  - cbv zeta. split; [|split; vm_compute; reflexivity].
    intros H. apply rut_pattern_lang, fullmatch_lang in H. vm_compute in H. discriminate.
Qed.

End ValidatorProps.

(* ===================================================================== *)
(** * Further properties of the unit service                             *)
(* ===================================================================== *)

Module UnidadServiceMore.
Import Db UnidadRepository UnidadService Spec Vocabulary DbProps UnidadServiceProps.

Section Engine.

Variable proyectos usuarios : gset N.

Lemma cliente_valido_aceptado (actual cliente : option N) :
  cliente_valido usuarios cliente -> cliente_aceptado usuarios actual cliente = true.
Proof.
  intros H. unfold cliente_aceptado. apply orb_true_iff. right.
  destruct cliente as [k|]; [|reflexivity]. cbn. apply bool_decide_eq_true_2, H. reflexivity.
Qed.

(** A reservation that returns: the unit was 'Disponible', and the table
    holds it reserved for the client. *)
Lemma asignar_cliente_returned (t : table) (id : N) (c : option N)
    (r : option (instance UnidadPropiedad.t)) :
  (asignar_cliente proyectos usuarios id c t).1 = Ok r ->
  exists u, t !! id = Some u /\ UnidadPropiedad.estado u = "Disponible"
            /\ asignar_cliente proyectos usuarios id c t
               = (Ok (Some (id, reservada u c)), <[id := reservada u c]> t).
Proof.
  rewrite asignar_cliente_eq. destruct (t !! id) as [u|]; [|discriminate].
  destruct (String.eqb_spec (UnidadPropiedad.estado u) "Disponible") as [E|E];
    [|discriminate].
  destruct (cliente_aceptado usuarios (UnidadPropiedad.cliente_id u) c); [|discriminate].
  intros _. exists u. repeat split. exact E.
Qed.

(** One call keeps the keys of the table and, in every row, all the
    fields but the state and the client. *)
Lemma run_frame (c : call) (t : table) (id : N) :
  match t !! id with
  | None => (run proyectos usuarios c t).2 !! id = None
  | Some u => exists u', (run proyectos usuarios c t).2 !! id = Some u' /\ same_unit u u'
  end.
Proof.
  assert (forall u, same_unit u u) as Hrefl by (intros u; repeat split).
  destruct c as [k cid|k]; cbn [run].
  - rewrite asignar_cliente_eq. destruct (t !! k) as [v|] eqn:Hv; cbn [snd].
    + destruct (String.eqb (UnidadPropiedad.estado v) "Disponible"); cbn [snd].
      * destruct (cliente_aceptado usuarios (UnidadPropiedad.cliente_id v) cid); cbn [snd].
        -- destruct (decide (k = id)) as [->|Hne].
           ++ rewrite Hv, lookup_insert_eq. eexists. split; [reflexivity|repeat split].
           ++ rewrite lookup_insert_ne by exact Hne. destruct (t !! id); eauto.
        -- destruct (t !! id); eauto.
      * destruct (t !! id); eauto.
    + destruct (t !! id); eauto.
  - rewrite marcar_como_vendida_eq. destruct (t !! k) as [v|] eqn:Hv; cbn [snd].
    + destruct (String.eqb (UnidadPropiedad.estado v) "Reservado"); cbn [snd].
      * destruct (UnidadPropiedad.cliente_id v); cbn [snd].
        -- destruct (decide (k = id)) as [->|Hne].
           ++ rewrite Hv, lookup_insert_eq. eexists. split; [reflexivity|repeat split].
           ++ rewrite lookup_insert_ne by exact Hne. destruct (t !! id); eauto.
        -- destruct (t !! id); eauto.
      * destruct (t !! id); eauto.
    + destruct (t !! id); eauto.
Qed.

(** X1. Whatever sequence of [asignar_cliente] and [marcar_como_vendida]
    is run, succeeding or raising, the table keeps its keys (no unit is
    created or deleted), and every unit keeps its project, number, type,
    area and price: only the state and the client can change. *)
Theorem run_all_frame (cs : list call) (t : table) (id : N) :
  match t !! id with
  | None => run_all proyectos usuarios cs t !! id = None
  | Some u => exists u', run_all proyectos usuarios cs t !! id = Some u' /\ same_unit u u'
  end.
Proof.
  revert t. induction cs as [|c cs IH]; intros t; cbn [run_all fold_left].
  - destruct (t !! id) as [u|]; [|reflexivity]. exists u. split; [reflexivity|repeat split].
  - specialize (IH (run proyectos usuarios c t).2). unfold run_all in IH.
    pose proof (run_frame c t id) as Hc.
    destruct (t !! id) as [u|].
    + destruct Hc as (u1 & H1 & S1). rewrite H1 in IH. destruct IH as (u2 & H2 & S2).
      exists u2. split; [exact H2|].
      destruct S1 as (?&?&?&?&?), S2 as (?&?&?&?&?). repeat split; congruence.
    + rewrite Hc in IH. exact IH.
Qed.

(** X2. On a unit in state 'Disponible', [asignar_cliente] with the key
    of a stored user and then [marcar_como_vendida] both return: the unit
    ends in state 'Vendido' with that client, and no other row of the
    table changes. *)
Theorem reservar_y_vender (t : table) (id cliente : N) (u : UnidadPropiedad.t) :
  t !! id = Some u ->
  UnidadPropiedad.estado u = "Disponible" ->
  cliente ∈ usuarios ->
  exists u1 u2,
    asignar_cliente proyectos usuarios id (Some cliente) t
    = (Ok (Some (id, u1)), <[id := u1]> t)
    /\ marcar_como_vendida proyectos usuarios id (<[id := u1]> t)
       = (Ok (Some (id, u2)), <[id := u2]> t)
    /\ UnidadPropiedad.estado u2 = "Vendido"
    /\ UnidadPropiedad.cliente_id u2 = Some cliente
    /\ same_unit u u2
    /\ forall j, j <> id -> <[id := u2]> t !! j = t !! j.
Proof.
  intros Hu He Hc. exists (reservada u (Some cliente)), (vendida (reservada u (Some cliente))).
  split; [|split].
  - rewrite asignar_cliente_eq, Hu, He.
    rewrite cliente_valido_aceptado by (intros k [= <-]; exact Hc). reflexivity.
  - rewrite marcar_como_vendida_eq, lookup_insert_eq. cbn.
    rewrite insert_insert_eq. reflexivity.
  - repeat split. intros j Hj. apply lookup_insert_ne. congruence.
Qed.

(** X3. A reservation is not overwritten: after [asignar_cliente] has
    returned for a unit, a second [asignar_cliente] on that unit, for any
    client, raises [UnidadNoDisponibleError] and leaves the table, hence
    the first client, as it is. *)
Theorem reserva_unica (t : table) (id : N) (c1 c2 : option N) (u : UnidadPropiedad.t)
    (r : option (instance UnidadPropiedad.t)) :
  t !! id = Some u ->
  UnidadPropiedad.estado u = "Disponible" ->
  (asignar_cliente proyectos usuarios id c1 t).1 = Ok r ->
  let t1 := (asignar_cliente proyectos usuarios id c1 t).2 in
  asignar_cliente proyectos usuarios id c2 t1 = (Raise UnidadNoDisponibleError, t1)
  /\ (UnidadPropiedad.cliente_id <$> t1 !! id) = Some c1.
Proof.
  intros Hu He Hr. cbv zeta.
  destruct (asignar_cliente_returned t id c1 r Hr) as (u0 & Hu0 & _ & ->). cbn [snd].
  rewrite asignar_cliente_eq, lookup_insert_eq. split; reflexivity.
Qed.

(** X4. [asignar_cliente] accepts [None] as client: the unit is then in
    state 'Reservado' without client, and from there every call on it
    raises, so that no sequence of calls changes the unit again. *)
Theorem reserva_sin_cliente (t : table) (id : N) (u : UnidadPropiedad.t) (cs : list call) :
  t !! id = Some u ->
  UnidadPropiedad.estado u = "Disponible" ->
  let t1 := (asignar_cliente proyectos usuarios id None t).2 in
  t1 !! id = Some (reservada u None)
  /\ marcar_como_vendida proyectos usuarios id t1 = (Raise ClienteNoValidoError, t1)
  /\ (forall c, asignar_cliente proyectos usuarios id c t1
                = (Raise UnidadNoDisponibleError, t1))
  /\ run_all proyectos usuarios cs t1 !! id = Some (reservada u None).
Proof.
  intros Hu He. cbv zeta. rewrite (asignar_cliente_eq proyectos usuarios t), Hu, He.
  change (("Disponible" =? "Disponible")%string) with true.
  rewrite cliente_valido_aceptado by (intros k [=]). cbn [snd].
  split; [apply lookup_insert_eq|]. split; [|split].
  - rewrite marcar_como_vendida_eq, lookup_insert_eq. reflexivity.
  - intros c. rewrite asignar_cliente_eq, lookup_insert_eq. reflexivity.
  - generalize (<[id := reservada u None]> t), (lookup_insert_eq t id (reservada u None)).
    induction cs as [|c cs IH]; intros t' Ht'; [exact Ht'|].
    cbn [run_all fold_left]. apply IH.
    destruct c as [k cid|k]; cbn [run].
    + rewrite asignar_cliente_eq. destruct (t' !! k) as [v|] eqn:Hv; [|exact Ht'].
      destruct (String.eqb_spec (UnidadPropiedad.estado v) "Disponible") as [E|E];
        [|exact Ht'].
      destruct (cliente_aceptado usuarios (UnidadPropiedad.cliente_id v) cid);
        [|exact Ht']. cbn [snd].
      destruct (decide (k = id)) as [->|Hne]; [|rewrite lookup_insert_ne; auto].
      rewrite Ht' in Hv. injection Hv as <-. discriminate.
    + rewrite marcar_como_vendida_eq. destruct (t' !! k) as [v|] eqn:Hv; [|exact Ht'].
      destruct (String.eqb (UnidadPropiedad.estado v) "Reservado"); [|exact Ht'].
      destruct (UnidadPropiedad.cliente_id v) eqn:Hc; [|exact Ht']. cbn [snd].
      destruct (decide (k = id)) as [->|Hne]; [|rewrite lookup_insert_ne; auto].
      rewrite Ht' in Hv. injection Hv as <-. discriminate.
Qed.

(** X5. [get_disponibles] returns the stored units in state 'Disponible';
    after [asignar_cliente] has returned for a unit, that unit is no
    longer among them, and every other unit is among them exactly when it
    was before. *)
Theorem disponibles_tras_reserva (t : table) (id : N) (c : option N)
    (u : UnidadPropiedad.t) (r : option (instance UnidadPropiedad.t)) :
  t !! id = Some u ->
  UnidadPropiedad.estado u = "Disponible" ->
  (asignar_cliente proyectos usuarios id c t).1 = Ok r ->
  In (id, u) (get_disponibles t)
  /\ (forall j v, In (j, v) (get_disponibles t)
                  <-> t !! j = Some v /\ UnidadPropiedad.estado v = "Disponible")
  /\ (forall j v,
        In (j, v) (get_disponibles (asignar_cliente proyectos usuarios id c t).2)
        <-> j <> id /\ In (j, v) (get_disponibles t)).
Proof.
  intros Hu He Hr.
  assert (forall (t : table) j v,
            In (j, v) (get_disponibles t)
            <-> t !! j = Some v /\ UnidadPropiedad.estado v = "Disponible") as Hin.
  { intros t0 j v. unfold get_disponibles, UnidadRepository.get_disponibles,
      UnidadRepository.filter.
    rewrite (elem_of_objects_filter _ t0 (j, v)). cbn [fst snd].
    rewrite String.eqb_eq. reflexivity. }
  split; [apply Hin; auto|]. split; [apply Hin|].
  destruct (asignar_cliente_returned t id c r Hr) as (u0 & Hu0 & _ & ->). cbn [snd].
  intros j v. rewrite !Hin.
  destruct (decide (j = id)) as [->|Hne].
  - rewrite lookup_insert_eq. split; [|intros [Hne _]; exfalso; apply Hne; reflexivity].
    intros [[= <-] E]. discriminate.
  - rewrite lookup_insert_ne by congruence. tauto.
Qed.

(** X25. [update] of the service is outside the state machine: on a
    stored unit in any state it writes the state it is given, and the
    client it is given when that is [None] or a stored user, and changes
    nothing else; for a client that is no stored user (and not the one
    the unit has) it raises [IntegrityError] and writes nothing.  So a
    unit that is sold or reserved, once updated to 'Disponible', is
    reserved again by [asignar_cliente], for [None] and for any stored
    user. *)
Theorem update_reabre (t : table) (id : N) (u : UnidadPropiedad.t) (estado : string)
    (cliente c : option N) :
  t !! id = Some u ->
  let kw := mk_kwargs None None None None None (Some estado) (Some cliente) in
  (cliente_valido usuarios cliente ->
   exists u1,
     UnidadService.update proyectos usuarios id kw t = (Ok (Some (id, u1)), <[id := u1]> t)
     /\ UnidadPropiedad.estado u1 = estado
     /\ UnidadPropiedad.cliente_id u1 = cliente
     /\ same_unit u u1
     /\ (forall j, j <> id -> <[id := u1]> t !! j = t !! j)
     /\ (estado = "Disponible" -> cliente_valido usuarios c ->
         asignar_cliente proyectos usuarios id c (<[id := u1]> t)
         = (Ok (Some (id, reservada u c)), <[id := reservada u c]> t)))
  /\ (forall k, cliente = Some k -> k ∉ usuarios -> UnidadPropiedad.cliente_id u <> Some k ->
      UnidadService.update proyectos usuarios id kw t = (Raise IntegrityError, t)).
Proof.
  intros Hu kw.
  assert (UnidadService.update proyectos usuarios id kw t
          = if cliente_aceptado usuarios (UnidadPropiedad.cliente_id u) cliente
            then (Ok (Some (id, setattrs u kw)), <[id := setattrs u kw]> t)
            else (Raise IntegrityError, t)) as Heq.
  { run_service. rewrite Hu. cbn [fmap option_fmap option_map fst snd].
    rewrite (accepted_same_unit proyectos usuarios t id u (setattrs u kw) Hu eq_refl eq_refl).
    change (UnidadPropiedad.cliente_id (setattrs u kw)) with cliente.
    destruct (cliente_aceptado usuarios (UnidadPropiedad.cliente_id u) cliente);
      reflexivity. }
  split.
  - intros Hc. exists (setattrs u kw). split; [|split; [|split; [|split; [|split]]]].
    + rewrite Heq, cliente_valido_aceptado by exact Hc. reflexivity.
    + reflexivity.
    + reflexivity.
    + repeat split.
    + intros j Hj. apply lookup_insert_ne. congruence.
    + intros -> Hc'. rewrite asignar_cliente_eq, lookup_insert_eq. cbn.
      rewrite cliente_valido_aceptado by exact Hc'.
      rewrite insert_insert_eq. reflexivity.
  - intros k -> Hk Hne. rewrite Heq.
    assert (cliente_aceptado usuarios (UnidadPropiedad.cliente_id u) (Some k) = false)
      as ->; [|reflexivity].
    unfold cliente_aceptado. apply orb_false_iff. split.
    + apply bool_decide_eq_false_2. exact Hne.
    + cbn. apply bool_decide_eq_false_2, Hk.
Qed.

(** The check of the engine on a new unit. *)
Lemma accepted_new_unit (t : table) (id : N) (row : UnidadPropiedad.t) :
  t !! id = None ->
  accepted (UnidadPropiedad.constraints proyectos usuarios) t id row = true
  <-> numero_libre t (UnidadPropiedad.proyecto_id row) (UnidadPropiedad.numero_unidad row)
      /\ UnidadPropiedad.proyecto_id row ∈ proyectos
      /\ cliente_valido usuarios (UnidadPropiedad.cliente_id row).
Proof.
  intros Hid. unfold accepted. rewrite Hid.
  cbn [UnidadPropiedad.constraints unique_indexes foreign_keys forallb from_option fst snd
       orb].
  rewrite !andb_true_r, !andb_true_iff, forallb_forall, bool_decide_eq_true.
  unfold numero_libre, cliente_valido.
  split.
  - intros (Hall & Hp & Hc). split; [|split; [exact Hp|]].
    + intros j v Hj [E1 E2].
      assert (In (j, v) (all t)) as Hin
        by (apply list_elem_of_In, elem_of_map_to_list; exact Hj).
      specialize (Hall _ Hin). cbn [fst snd] in Hall.
      rewrite E1, E2, N.eqb_refl, String.eqb_refl in Hall. cbn in Hall.
      rewrite orb_false_r in Hall. apply N.eqb_eq in Hall. congruence.
    + intros k Hk. rewrite Hk in Hc. cbn in Hc. apply bool_decide_eq_true in Hc. exact Hc.
  - intros (Hfree & Hp & Hc). split; [|split; [exact Hp|]].
    + intros [j v] Hin. cbn [fst snd].
      apply list_elem_of_In, elem_of_map_to_list in Hin.
      apply orb_true_iff. right. apply negb_true_iff, not_true_is_false. intros E.
      apply andb_true_iff in E as [E1 E2]. apply N.eqb_eq in E1. apply String.eqb_eq in E2.
      exact (Hfree j v Hin (conj E1 E2)).
    + destruct (UnidadPropiedad.cliente_id row) as [k|]; [|reflexivity].
      cbn. apply bool_decide_eq_true_2, Hc. reflexivity.
Qed.


(** X27. [delete] of a stored unit returns [True] and removes that row
    and no other: the unit is no longer found, and [asignar_cliente] and
    [marcar_como_vendida] on it raise [UnidadNoDisponibleError].
    [delete] of a key that is not stored returns [False] and leaves the
    table as it is. *)
Theorem delete_unidad (t : table) (id : N) :
  (is_Some (t !! id) ->
   let t1 := base.delete id t in
   UnidadService.delete proyectos usuarios id t = (Ok true, t1)
   /\ UnidadService.get_by_id proyectos usuarios id t1 = (Ok None, t1)
   /\ (forall j, j <> id -> t1 !! j = t !! j)
   /\ (forall c, asignar_cliente proyectos usuarios id c t1
                 = (Raise UnidadNoDisponibleError, t1))
   /\ marcar_como_vendida proyectos usuarios id t1 = (Raise UnidadNoDisponibleError, t1)
   /\ UnidadService.delete proyectos usuarios id t1 = (Ok false, t1))
  /\ (t !! id = None -> UnidadService.delete proyectos usuarios id t = (Ok false, t)).
Proof.
  split.
  - intros [u Hu]. cbv zeta. split; [|split; [|split; [|split; [|split]]]].
    + run_service. rewrite Hu. reflexivity.
    + run_service. rewrite lookup_delete_eq. reflexivity.
    + intros j Hj. apply lookup_delete_ne. congruence.
    + intros c. rewrite asignar_cliente_eq, lookup_delete_eq. reflexivity.
    + rewrite marcar_como_vendida_eq, lookup_delete_eq. reflexivity.
    + run_service. rewrite lookup_delete_eq. reflexivity.
  - intros Hu. run_service. rewrite Hu. reflexivity.
Qed.

End Engine.

Lemma reservar_y_vender_witness :
  exists u2,
    (marcar_como_vendida los_proyectos los_usuarios 1
       (asignar_cliente los_proyectos los_usuarios 1 (Some 2%N) una_unidad).2).2 !! 1%N
    = Some u2
    /\ UnidadPropiedad.estado u2 = "Vendido"
    /\ UnidadPropiedad.cliente_id u2 = Some 2%N.
Proof.
  destruct (reservar_y_vender los_proyectos los_usuarios una_unidad 1 2 depto eq_refl eq_refl)
    as (u1 & u2 & E1 & E2 & Hs & Hc & _).
  { unfold los_usuarios. apply elem_of_union. left. apply elem_of_singleton. reflexivity. }
  exists u2. rewrite E1. cbn [snd]. rewrite E2. cbn [snd].
  rewrite lookup_insert_eq. repeat split; assumption.
Defined.

Lemma reserva_unica_witness :
  let t1 := (asignar_cliente los_proyectos los_usuarios 1 (Some 2%N) una_unidad).2 in
  asignar_cliente los_proyectos los_usuarios 1 (Some 3%N) t1
  = (Raise UnidadNoDisponibleError, t1)
  /\ (UnidadPropiedad.cliente_id <$> t1 !! 1%N) = Some (Some 2%N).
Proof.
  apply (reserva_unica los_proyectos los_usuarios una_unidad 1 (Some 2%N) (Some 3%N) depto
           (Some (1%N, depto_reservado)));
    [reflexivity|reflexivity|].
  rewrite asignar_cliente_eq. vm_compute. reflexivity.
Defined.

Lemma reserva_sin_cliente_witness :
  run_all los_proyectos los_usuarios [MarcarComoVendida 1; AsignarCliente 1 (Some 2%N)]
    (asignar_cliente los_proyectos los_usuarios 1 None una_unidad).2 !! 1%N
  = Some (reservada depto None).
Proof.
  exact (proj2 (proj2 (proj2
    (reserva_sin_cliente los_proyectos los_usuarios una_unidad 1 depto
       [MarcarComoVendida 1; AsignarCliente 1 (Some 2%N)] eq_refl eq_refl)))).
Defined.

Lemma disponibles_tras_reserva_witness :
  In (1%N, depto) (get_disponibles una_unidad)
  /\ ~ In (1%N, depto)
        (get_disponibles
           (asignar_cliente los_proyectos los_usuarios 1 (Some 2%N) una_unidad).2).
Proof.
  destruct (disponibles_tras_reserva los_proyectos los_usuarios una_unidad 1 (Some 2%N)
              depto (Some (1%N, depto_reservado)) eq_refl eq_refl)
    as (H1 & _ & H3).
  { rewrite asignar_cliente_eq. vm_compute. reflexivity. }
  split; [exact H1|]. intros H. apply H3 in H as [Hne _]. apply Hne. reflexivity.
Defined.

Lemma update_reabre_witness :
  asignar_cliente los_proyectos los_usuarios 1 (Some 3%N)
    (UnidadService.update los_proyectos los_usuarios 1
       (mk_kwargs None None None None None (Some "Disponible") (Some None))
       (<[1%N := depto_vendido]> ∅)).2
  = (Ok (Some (1%N, reservada depto_vendido (Some 3%N))),
     <[1%N := reservada depto_vendido (Some 3%N)]> (<[1%N := depto_vendido]> ∅)).
Proof.
  destruct (proj1 (update_reabre los_proyectos los_usuarios (<[1%N := depto_vendido]> ∅) 1
                     depto_vendido "Disponible" None (Some 3%N) (lookup_insert_eq _ _ _)))
    as (u1 & E & _ & _ & _ & _ & H).
  { intros k [=]. }
  rewrite E. cbn [snd]. apply (H eq_refl). intros k [= <-].
  unfold los_usuarios. apply elem_of_union. right. apply elem_of_singleton. reflexivity.
Defined.


Lemma delete_unidad_witness :
  UnidadService.delete los_proyectos los_usuarios 1 una_unidad
  = (Ok true, base.delete 1%N una_unidad)
  /\ UnidadService.delete los_proyectos los_usuarios 1 ∅ = (Ok false, ∅).
Proof.
  split.
  - apply (proj1 (delete_unidad los_proyectos los_usuarios una_unidad 1)).
    exists depto. apply lookup_insert_eq.
  - apply (proj2 (delete_unidad los_proyectos los_usuarios ∅ 1)). apply lookup_empty.
Defined.

Lemma Qc_leb_le (x y : Qc) : Qc_leb x y = true <-> Qcle x y.
Proof. apply QArith_base.Qle_bool_iff. Qed.

Section Lookup.

Variable precio_de : string -> option Qc.

(** X6. The bounds of [get_by_rango_precio] are [None] or the text of a
    query parameter, and a bound is given when its text is not empty (so
    the text '0' is a bound).  The query raises exactly when the text of
    a given bound is not a price.  Otherwise it returns each stored unit
    at most once, and a unit is returned exactly when its price is at
    least the lower bound, if one is given, and at most the upper bound,
    if one is given: both bounds are inclusive.  Without a given bound it
    returns every stored unit. *)
Theorem get_by_rango_precio_spec (precio_desde precio_hasta : option string) (t : table) :
  let r := get_by_rango_precio precio_de precio_desde precio_hasta t in
  (r = None
   <-> (exists s, dado precio_desde s /\ precio_de s = None)
       \/ (exists s, dado precio_hasta s /\ precio_de s = None))
  /\ (forall l, r = Some l ->
        NoDup l
        /\ forall i u,
             In (i, u) l
             <-> t !! i = Some u
                 /\ (forall s p, dado precio_desde s -> precio_de s = Some p ->
                                 Qcle p (Qc_of_Z (UnidadPropiedad.precio_venta u)))
                 /\ (forall s p, dado precio_hasta s -> precio_de s = Some p ->
                                 Qcle (Qc_of_Z (UnidadPropiedad.precio_venta u)) p))
  /\ ((forall s, ~ dado precio_desde s) -> (forall s, ~ dado precio_hasta s) ->
      r = Some (UnidadRepository.get_all t)).
Proof.
  cbv zeta. unfold get_by_rango_precio, UnidadRepository.get_by_rango_precio. cbv zeta.
  assert (forall b : option string,
            (from_option (fun s => truthy (PyStr s)) false b = true
             /\ dado b (default "" b))
            \/ (from_option (fun s => truthy (PyStr s)) false b = false
                /\ forall s, ~ dado b s)) as Hb.
  { intros [[|c s]|]; [right|left|right]; unfold dado; cbn.
    - split; [reflexivity|]. intros s [[= <-] H]. congruence.
    - split; [reflexivity|]. split; [reflexivity|discriminate].
    - split; [reflexivity|]. intros s [[=] _]. }
  assert (forall b s s', dado b s -> dado b s' -> s' = s) as Hdado
    by (intros b s s' [E _] [E' _]; congruence).
  assert (forall i u, In (i, u) (UnidadRepository.get_all t) <-> t !! i = Some u) as Hall.
  { intros i u. unfold UnidadRepository.get_all, all. rewrite <- list_elem_of_In.
    apply elem_of_map_to_list. }
  assert (NoDup (UnidadRepository.get_all t)) as Hnd by apply NoDup_map_to_list.
  destruct (Hb precio_desde) as [[-> Hd]|[-> Hd]];
    destruct (Hb precio_hasta) as [[-> Hh]|[-> Hh]];
    cbn [mbind option_bind]; try destruct (precio_de (default "" precio_desde)) as [d|] eqn:Ed;
    cbn [mbind option_bind]; try destruct (precio_de (default "" precio_hasta)) as [h|] eqn:Eh;
    cbn [mbind option_bind];
    (split; [|split]);
    try (split; [discriminate|]);
    try (split; [intros _|reflexivity]);
    try (intros l [= <-]; split;
         [repeat (apply NoDup_ListNoDup, List.NoDup_filter, NoDup_ListNoDup); exact Hnd|
          intros i u; rewrite ?filter_In, Hall; cbn [snd]; rewrite ?Qc_leb_le]);
    try discriminate.
  all: try (intros H1 H2; first [exfalso; exact (H1 _ Hd)|exfalso; exact (H2 _ Hh)|reflexivity]).
  all: try (intros [(s & Hs & E)|(s & Hs & E)]; exfalso;
            first [exact (Hd _ Hs)|exact (Hh _ Hs)
                  |rewrite (Hdado _ _ _ Hd Hs) in E; congruence
                  |rewrite (Hdado _ _ _ Hh Hs) in E; congruence]).
  all: try (first [left; eexists; split; [exact Hd|assumption]
                  |right; eexists; split; [exact Hh|assumption]]).
  all: try (split;
            [intros H; repeat split; try tauto;
             intros s p Hs E;
             first [exfalso; exact (Hd _ Hs)|exfalso; exact (Hh _ Hs)
                   |rewrite (Hdado _ _ _ Hd Hs) in E; assert (p = d) as -> by congruence; tauto
                   |rewrite (Hdado _ _ _ Hh Hs) in E; assert (p = h) as -> by congruence; tauto]
            |intros (H1 & H2 & H3); repeat split; try assumption;
             first [exact (H2 _ _ Hd Ed)|exact (H3 _ _ Hh Eh)]]).
Qed.

End Lookup.

(** Sample runs on the table with one unit priced at 5000: the text '0'
    is an upper bound that no price meets, the empty text is no bound, and
    a text that is no number raises. *)
Lemma rango_hasta_cero :
  get_by_rango_precio precio_entero None (Some "0") una_unidad = Some []
  /\ get_by_rango_precio precio_entero None (Some "") una_unidad
     = Some (UnidadRepository.get_all una_unidad)
  /\ get_by_rango_precio precio_entero (Some "5000") (Some "5000") una_unidad
     = Some (UnidadRepository.get_all una_unidad)
  /\ get_by_rango_precio precio_entero (Some "abc") None una_unidad = None.
Proof. repeat split; vm_compute; reflexivity. Qed.

(** The sum of the counts after one more element. *)
Lemma suma_insert (d : gmap string nat) (k : string) :
  suma (match d !! k with
        | Some n => <[k := (n + 1)%nat]> d
        | None => <[k := 1%nat]> d
        end) = S (suma d).
Proof.
  unfold suma.
  assert (forall (m : gmap string nat) (j1 j2 : string) (z1 z2 y : nat),
            j1 <> j2 -> m !! j1 = Some z1 -> m !! j2 = Some z2 ->
            (z1 + (z2 + y) = z2 + (z1 + y))%nat) as Hcomm by (intros; lia).
  destruct (d !! k) as [n|] eqn:Hk.
  - rewrite <- insert_delete_eq.
    rewrite map_fold_insert_L; [|intros; lia|apply lookup_delete_eq].
    rewrite (map_fold_delete_L _ _ k n d); [lia|intros; lia|exact Hk].
  - rewrite map_fold_insert_L; [lia|intros; lia|exact Hk].
Qed.

Lemma suma_contar {A} (key : A -> string) (l : list A) :
  suma (contar key l) = length l.
Proof.
  unfold contar.
  assert (forall d : gmap string nat,
            suma (fold_left
                    (fun (d : gmap string nat) x =>
                       match d !! key x with
                       | Some n => <[key x := (n + 1)%nat]> d
                       | None => <[key x := 1%nat]> d
                       end) l d) = (suma d + length l)%nat) as H.
  { induction l as [|x l IH]; intros d; cbn [fold_left length]; [lia|].
    rewrite IH, suma_insert. lia. }
  rewrite H. unfold suma. rewrite map_fold_empty. reflexivity.
Qed.

(** X7. In the statistics of a project, whatever the backend gives as
    the mean: the counts by state add up to the total, and so do the
    counts by type; the least and the greatest price are [None] exactly
    when the project has no unit, and otherwise the least is at most the
    greatest. *)
Theorem estadisticas_coherentes (Avg : list Z -> option decimal) (t : table)
    (proyecto_id : N) :
  let stats := get_estadisticas_por_proyecto Avg proyecto_id t in
  suma (unidades_por_estado stats) = total_unidades stats
  /\ suma (unidades_por_tipo stats) = total_unidades stats
  /\ (total_unidades stats = 0%nat
      <-> precio_minimo stats = None /\ precio_maximo stats = None)
  /\ (forall mn mx, precio_minimo stats = Some mn -> precio_maximo stats = Some mx ->
                    mn <= mx).
Proof.
  cbv zeta. unfold get_estadisticas_por_proyecto.
  cbn [total_unidades precio_promedio precio_minimo precio_maximo unidades_por_estado
       unidades_por_tipo].
  split; [apply suma_contar|]. split; [apply suma_contar|].
  unfold Count. destruct (get_by_proyecto proyecto_id t) as [|x l]; cbn [map length Min Max].
  - split; [tauto|discriminate].
  - split; [split; [discriminate|intros [H _]; discriminate]|].
    intros mn mx [= <-] [= <-].
    destruct (Min_spec (UnidadPropiedad.precio_venta x.2)
                (map (fun u : instance UnidadPropiedad.t =>
                        UnidadPropiedad.precio_venta u.2) l)) as [_ Hle].
    destruct (Max_spec (UnidadPropiedad.precio_venta x.2)
                (map (fun u : instance UnidadPropiedad.t =>
                        UnidadPropiedad.precio_venta u.2) l)) as [Hin _].
    apply Hle, Hin.
Qed.

End UnidadServiceMore.

(* ===================================================================== *)
(** * Further properties of the user service                             *)
(* ===================================================================== *)

Module UsuarioServiceMore.
Import Db UsuarioRepository UsuarioService Spec Vocabulary DbProps UsuarioServiceProps.

(** Unfolds the calls of the service down to the reads of the table. *)
Ltac open_service :=
  unfold create, update, delete, get_by_id, get_by_email, get_by_rut,
    UsuarioRepository.get_by_email, UsuarioRepository.get_by_rut,
    BaseService.delete, BaseService.get_by_id, repo_get_by_id, repo_delete;
  cbn [repository UsuarioRepository.repository];
  unfold UsuarioRepository.get_by_id, objects_get_pk;
  cbv zeta.

Section Hasher.

Variable make_password : string -> string.
Variable normalize_email : string -> string.

(** A [create] that returns has passed the three checks and is the
    [create] of the repository. *)
Lemma create_returns (t t' : table) (new_id : N) (kw : kwargs) (i : instance Usuario.t) :
  create make_password normalize_email new_id kw t = (Ok i, t') ->
  (passed (kw_email kw) = true -> ~ email_taken t (default "" (kw_email kw)))
  /\ (passed (kw_rut kw) = true -> ~ rut_taken t (default "" (kw_rut kw)))
  /\ role_accepted (kw_role kw)
  /\ UsuarioRepository.create make_password normalize_email new_id kw t = (Ok i, t').
Proof.
  open_service. rewrite mbind_unfold.
  destruct (create_check (passed (kw_email kw))
              (fun u => String.eqb (Usuario.email u) (default "" (kw_email kw)))
              ("Ya existe un usuario con el email " ++ default "" (kw_email kw)) t)
    as [[E1 H1]|[e E1]]; rewrite E1; [|discriminate].
  rewrite mbind_unfold.
  destruct (create_check (passed (kw_rut kw))
              (fun u => String.eqb (Usuario.rut u) (default "" (kw_rut kw)))
              ("Ya existe un usuario con el RUT " ++ default "" (kw_rut kw)) t)
    as [[E2 H2]|[e E2]]; rewrite E2; [|discriminate].
  rewrite mbind_unfold.
  destruct (role_check (kw_role kw) t) as [[E3 H3]|[e E3]]; rewrite E3; [|discriminate].
  intros H. split; [|split; [|split; [exact H3|exact H]]].
  - intros Hp (j & u & Hj & Hu). specialize (H1 Hp j u Hj). cbn in H1.
    rewrite Hu, String.eqb_refl in H1. discriminate.
  - intros Hp (j & u & Hj & Hu). specialize (H2 Hp j u Hj). cbn in H2.
    rewrite Hu, String.eqb_refl in H2. discriminate.
Qed.

(** The row that the [create] of the repository stores. *)
Lemma repo_create_returns (t t' : table) (new_id : N) (kw : kwargs) (i : instance Usuario.t) :
  UsuarioRepository.create make_password normalize_email new_id kw t = (Ok i, t') ->
  t !! new_id = None /\ i.1 = new_id /\ t' = <[new_id := i.2]> t
  /\ Usuario.rut i.2 = default "" (kw_rut kw)
  /\ Usuario.role i.2 = default "Cliente" (kw_role kw)
  /\ (if passed (kw_password kw)
      then passed (kw_email kw) = true
           /\ Usuario.email i.2 = normalize_email (default "" (kw_email kw))
           /\ Usuario.password i.2 = make_password (default "" (kw_password kw))
      else Usuario.email i.2 = default "" (kw_email kw) /\ Usuario.password i.2 = "").
Proof.
  unfold UsuarioRepository.create. cbv zeta.
  destruct (passed (kw_password kw)).
  - unfold create_user. cbn [pop_password kw_email]. destruct (kw_email kw) as [e|];
      [|discriminate]. cbn [passed default from_option id].
    destruct (truthy (PyStr e)); cbn [negb]; [|discriminate].
    rewrite mbind_unfold. unfold save_new, save. cbn [fst snd].
    destruct (t !! new_id); [discriminate|].
    destruct (accepted _ _ _ _); [|discriminate]. intros [= <- <-]. repeat split.
  - unfold objects_create. rewrite mbind_unfold. unfold save_new, save. cbn [fst snd].
    destruct (t !! new_id); [discriminate|].
    destruct (accepted _ _ _ _); [|discriminate]. intros [= <- <-]. repeat split.
Qed.

(** What a [create] that returns has checked and written. *)
Lemma create_returns_row (t t' : table) (new_id : N) (kw : kwargs) (i : instance Usuario.t) :
  create make_password normalize_email new_id kw t = (Ok i, t') ->
  t !! new_id = None /\ i.1 = new_id /\ t' = <[new_id := i.2]> t
  /\ (passed (kw_email kw) = true -> ~ email_taken t (default "" (kw_email kw)))
  /\ (passed (kw_rut kw) = true -> ~ rut_taken t (default "" (kw_rut kw)))
  /\ role_accepted (kw_role kw)
  /\ Usuario.rut i.2 = default "" (kw_rut kw)
  /\ Usuario.role i.2 = default "Cliente" (kw_role kw)
  /\ (if passed (kw_password kw)
      then Usuario.email i.2 = normalize_email (default "" (kw_email kw))
           /\ Usuario.password i.2 = make_password (default "" (kw_password kw))
      else Usuario.email i.2 = default "" (kw_email kw) /\ Usuario.password i.2 = "").
Proof.
  intros H. apply create_returns in H as (H1 & H2 & H3 & H).
  apply repo_create_returns in H as (Hn & Hi & Ht & Hr & Hro & Hp).
  repeat (split; [assumption|]).
  destruct (passed (kw_password kw)); [destruct Hp as (_ & ? & ?); auto|exact Hp].
Qed.

(** X8. When [create] returns a user: the key drawn was free and the table
    is the one before with that one row added; the three checks have
    passed; the stored password is the hash of the password passed (the
    empty string when none is passed), the stored email is the normalised
    one when a password is passed and the one passed otherwise; and
    [get_by_id] of the new key then returns the user. *)
Theorem create_stores (t t' : table) (new_id : N) (kw : kwargs) (i : instance Usuario.t) :
  create make_password normalize_email new_id kw t = (Ok i, t') ->
  t !! new_id = None /\ i.1 = new_id /\ t' = <[new_id := i.2]> t
  /\ (passed (kw_email kw) = true -> ~ email_taken t (default "" (kw_email kw)))
  /\ (passed (kw_rut kw) = true -> ~ rut_taken t (default "" (kw_rut kw)))
  /\ role_accepted (kw_role kw)
  /\ Usuario.rut i.2 = default "" (kw_rut kw)
  /\ Usuario.role i.2 = default "Cliente" (kw_role kw)
  /\ (if passed (kw_password kw)
      then Usuario.email i.2 = normalize_email (default "" (kw_email kw))
           /\ Usuario.password i.2 = make_password (default "" (kw_password kw))
      else Usuario.email i.2 = default "" (kw_email kw) /\ Usuario.password i.2 = "")
  /\ get_by_id make_password normalize_email new_id t' = (Ok (Some i), t').
Proof.
  intros H. pose proof (create_returns_row t t' new_id kw i H) as Hrow.
  destruct Hrow as (Hn & Hi & Ht & He & Hr & Hro & Hrut & Hrole & Hp).
  repeat (split; [assumption|]).
  open_service. rewrite Ht, lookup_insert_eq. destruct i as [k u]. cbn in Hi. subst k.
  reflexivity.
Qed.

(** X9. [create] keeps the table free of duplicates when the email and the
    RUT are passed and not empty, and the email is one that normalisation
    leaves as it is (or no password is passed): if no two users of the
    table share an email or a RUT before a [create] that returns, none do
    after it. *)
Theorem create_keeps_unique (t t' : table) (new_id : N) (kw : kwargs)
    (i : instance Usuario.t) :
  unique_keys t ->
  create make_password normalize_email new_id kw t = (Ok i, t') ->
  passed (kw_email kw) = true ->
  passed (kw_rut kw) = true ->
  (passed (kw_password kw) = true ->
   normalize_email (default "" (kw_email kw)) = default "" (kw_email kw)) ->
  unique_keys t'.
Proof.
  intros Hu H Pe Pr Hnorm.
  apply create_returns_row in H as (Hn & Hi & -> & He & Hr & _ & Erut & _ & Hp).
  assert (Usuario.email i.2 = default "" (kw_email kw)) as Eemail.
  { destruct (passed (kw_password kw)); [|apply Hp].
    destruct Hp as [-> _]. apply Hnorm. reflexivity. }
  specialize (He Pe). specialize (Hr Pr).
  intros a b u v Ha Hb Hab.
  destruct (decide (a = new_id)) as [->|Na]; destruct (decide (b = new_id)) as [->|Nb];
    [reflexivity| | |].
  - rewrite lookup_insert_eq in Ha. injection Ha as <-.
    rewrite lookup_insert_ne in Hb by congruence. exfalso.
    destruct Hab as [E|E]; [apply He|apply Hr]; exists b, v; split; congruence.
  - rewrite lookup_insert_eq in Hb. injection Hb as <-.
    rewrite lookup_insert_ne in Ha by congruence. exfalso.
    destruct Hab as [E|E]; [apply He|apply Hr]; exists a, u; split; congruence.
  - rewrite lookup_insert_ne in Ha, Hb by congruence. exact (Hu a b u v Ha Hb Hab).
Qed.

(** An [update] that returns has found the user, has passed the three
    checks and has written the row of the repository. *)
Lemma update_returns_inv (t t' : table) (id : N) (kw : kwargs)
    (r : option (instance Usuario.t)) :
  update make_password normalize_email id kw t = (Ok r, t') ->
  match t !! id with
  | None => r = None /\ t' = t
  | Some u =>
      (passed (kw_email kw) = true -> default "" (kw_email kw) <> Usuario.email u ->
       ~ email_of_other t id (default "" (kw_email kw)))
      /\ (passed (kw_rut kw) = true -> default "" (kw_rut kw) <> Usuario.rut u ->
          ~ rut_of_other t id (default "" (kw_rut kw)))
      /\ role_accepted (kw_role kw)
      /\ exists u',
           r = Some (id, u') /\ t' = <[id := u']> t
           /\ Usuario.email u' = default (Usuario.email u) (kw_email kw)
           /\ Usuario.rut u' = default (Usuario.rut u) (kw_rut kw)
           /\ Usuario.password u'
              = (if passed (kw_password kw)
                 then make_password (default "" (kw_password kw))
                 else Usuario.password u)
  end.
Proof.
  open_service. rewrite mbind_unfold. destruct (t !! id) as [u|] eqn:Hu;
    cbn [fmap option_fmap option_map fst snd]; [|intros [= <- <-]; split; reflexivity].
  rewrite mbind_unfold.
  destruct (update_check
              (passed (kw_email kw)
               && negb (String.eqb (default "" (kw_email kw)) (Usuario.email u)))
              (fun u => String.eqb (Usuario.email u) (default "" (kw_email kw)))
              ("Ya existe un usuario con el email " ++ default "" (kw_email kw)) id t)
    as [[E1 H1]|[e E1]]; rewrite E1; [|discriminate].
  rewrite mbind_unfold.
  destruct (update_check
              (passed (kw_rut kw)
               && negb (String.eqb (default "" (kw_rut kw)) (Usuario.rut u)))
              (fun u => String.eqb (Usuario.rut u) (default "" (kw_rut kw)))
              ("Ya existe un usuario con el RUT " ++ default "" (kw_rut kw)) id t)
    as [[E2 H2]|[e E2]]; rewrite E2; [|discriminate].
  rewrite mbind_unfold.
  destruct (role_check (kw_role kw) t) as [[E3 H3]|[e E3]]; rewrite E3; [|discriminate].
  intros H. split; [|split; [|split; [exact H3|]]].
  - intros Hp Hd (j & v & Hne & Hj & Hv).
    assert (String.eqb (Usuario.email v) (default "" (kw_email kw)) = false) as Habs.
    { apply (H1 ltac:(rewrite Hp; cbn; apply negb_true_iff, String.eqb_neq; exact Hd)
               j v Hne Hj). }
    rewrite Hv, String.eqb_refl in Habs. discriminate.
  - intros Hp Hd (j & v & Hne & Hj & Hv).
    assert (String.eqb (Usuario.rut v) (default "" (kw_rut kw)) = false) as Habs.
    { apply (H2 ltac:(rewrite Hp; cbn; apply negb_true_iff, String.eqb_neq; exact Hd)
               j v Hne Hj). }
    rewrite Hv, String.eqb_refl in Habs. discriminate.
  - revert H. unfold repo_update, UsuarioService.repository.
    cbn [UsuarioRepository.repository].
    unfold UsuarioRepository.update, fmap, M_fmap, mbind, M_bind, mret, M_ret, bind,
      ret, save. cbv zeta. cbn [fst snd].
    destruct (accepted _ _ _ _); [|discriminate].
    intros [= <- <-]. eexists. split; [reflexivity|]. split; [reflexivity|].
    destruct (passed (kw_password kw)); repeat split.
Qed.

(** X10. [update] keeps the table free of duplicates when the email and
    the RUT, if passed, are not empty: if no two users of the table share
    an email or a RUT before an [update] that returns, none do after it;
    and the [update] writes the row of the user only. *)
Theorem update_keeps_unique (t t' : table) (id : N) (kw : kwargs)
    (r : option (instance Usuario.t)) :
  unique_keys t ->
  update make_password normalize_email id kw t = (Ok r, t') ->
  (kw_email kw = None \/ passed (kw_email kw) = true) ->
  (kw_rut kw = None \/ passed (kw_rut kw) = true) ->
  unique_keys t' /\ forall j, j <> id -> t' !! j = t !! j.
Proof.
  intros Hu H Pe Pr. apply update_returns_inv in H.
  destruct (t !! id) as [u|] eqn:Hid; [|destruct H as [_ ->]; auto].
  destruct H as (He & Hr & _ & u' & _ & -> & Ee & Er & _).
  split; [|intros j Hj; apply lookup_insert_ne; congruence].
  assert (forall j v, j <> id -> t !! j = Some v ->
            ~ (Usuario.email v = Usuario.email u' \/ Usuario.rut v = Usuario.rut u'))
    as Hother.
  { intros j v Hne Hj [E|E].
    - rewrite Ee in E. destruct Pe as [Pe|Pe].
      + rewrite Pe in E. apply Hne, (Hu j id v u Hj Hid). left. exact E.
      + destruct (String.eqb_spec (default "" (kw_email kw)) (Usuario.email u)) as [D|D].
        * apply Hne, (Hu j id v u Hj Hid). left.
          destruct (kw_email kw); [cbn in *; congruence|discriminate].
        * apply (He Pe D). exists j, v. repeat split; [exact Hne|exact Hj|].
          destruct (kw_email kw); [exact E|discriminate].
    - rewrite Er in E. destruct Pr as [Pr|Pr].
      + rewrite Pr in E. apply Hne, (Hu j id v u Hj Hid). right. exact E.
      + destruct (String.eqb_spec (default "" (kw_rut kw)) (Usuario.rut u)) as [D|D].
        * apply Hne, (Hu j id v u Hj Hid). right.
          destruct (kw_rut kw); [cbn in *; congruence|discriminate].
        * apply (Hr Pr D). exists j, v. repeat split; [exact Hne|exact Hj|].
          destruct (kw_rut kw); [exact E|discriminate]. }
  intros a b x y Ha Hb Hab.
  destruct (decide (a = id)) as [->|Na]; destruct (decide (b = id)) as [->|Nb];
    [reflexivity| | |].
  - rewrite lookup_insert_eq in Ha. injection Ha as <-.
    rewrite lookup_insert_ne in Hb by congruence. exfalso.
    apply (Hother b y Nb Hb). destruct Hab; [left|right]; congruence.
  - rewrite lookup_insert_eq in Hb. injection Hb as <-.
    rewrite lookup_insert_ne in Ha by congruence. exfalso.
    apply (Hother a x Na Ha). exact Hab.
  - rewrite lookup_insert_ne in Ha, Hb by congruence. exact (Hu a b x y Ha Hb Hab).
Qed.

(** X11. [delete] of a stored user returns [True] and removes that row
    only: afterwards [get_by_id] and [update] of the key return [None].
    Deleting the user that a [create] has just returned gives back the
    table before the [create]. *)
Theorem delete_removes (t : table) (id : N) (u : Usuario.t) (kw : kwargs) :
  t !! id = Some u ->
  delete make_password normalize_email id t = (Ok true, base.delete id t)
  /\ (forall j, j <> id -> base.delete id t !! j = t !! j)
  /\ get_by_id make_password normalize_email id (base.delete id t)
     = (Ok None, base.delete id t)
  /\ update make_password normalize_email id kw (base.delete id t)
     = (Ok None, base.delete id t)
  /\ (forall t0 kw0,
        create make_password normalize_email id kw0 t0 = (Ok (id, u), t) ->
        base.delete id t = t0).
Proof.
  intros Hu. split; [|split; [|split; [|split]]].
  - open_service. rewrite mbind_unfold, Hu. reflexivity.
  - intros j Hj. apply lookup_delete_ne. congruence.
  - open_service. rewrite lookup_delete_eq. reflexivity.
  - open_service. rewrite mbind_unfold, lookup_delete_eq. reflexivity.
  - intros t0 kw0 H. apply create_returns_row in H as (Hn & _ & -> & _).
    apply delete_insert_id, Hn.
Qed.

(** X12. On a table where no two users share an email or a RUT,
    [get_by_email] and [get_by_rut] never raise: they return the user that
    has the email or the RUT, and [None] when no user has it. *)
Theorem get_by_key_exact (t : table) :
  unique_keys t ->
  (forall i u, t !! i = Some u ->
     get_by_email (Usuario.email u) t = (Ok (Some (i, u)), t)
     /\ get_by_rut (Usuario.rut u) t = (Ok (Some (i, u)), t))
  /\ (forall e, ~ email_taken t e -> get_by_email e t = (Ok None, t))
  /\ (forall r, ~ rut_taken t r -> get_by_rut r t = (Ok None, t)).
Proof.
  intros Hu.
  assert (forall (p : Usuario.t -> bool) i u,
            (forall v, p v = true -> p u = true ->
                       Usuario.email v = Usuario.email u \/ Usuario.rut v = Usuario.rut u) ->
            t !! i = Some u -> p u = true ->
            objects_get p t = (Ok (Some (i, u)), t)) as Hone.
  { intros p i u Hp Hi Hpu. unfold objects_get.
    assert (forall x, In x (objects_filter p t) -> x = (i, u)) as Hall.
    { intros [j v] Hx. apply elem_of_objects_filter in Hx as [Hj Hv]. cbn in Hj, Hv.
      assert (j = i) as -> by (apply (Hu j i v u Hj Hi), Hp; assumption).
      congruence. }
    assert (NoDup (objects_filter p t)) as Hnd.
    { unfold objects_filter, all.
      apply NoDup_ListNoDup, List.NoDup_filter, NoDup_ListNoDup, NoDup_map_to_list. }
    assert (In (i, u) (objects_filter p t)) as Hin
      by (apply elem_of_objects_filter; auto).
    destruct (objects_filter p t) as [|x [|y l]]; [destruct Hin| |].
    - rewrite (Hall x (or_introl eq_refl)). reflexivity.
    - exfalso. inversion Hnd as [|a b Hnot Hrest]; subst. apply Hnot.
      apply list_elem_of_In. left.
      rewrite (Hall x (or_introl eq_refl)), (Hall y (or_intror (or_introl eq_refl))).
      reflexivity. }
  assert (forall (p : Usuario.t -> bool),
            (forall i u, t !! i = Some u -> p u = false) ->
            objects_get p t = (Ok None, t)) as Hnone.
  { intros p Hp. unfold objects_get.
    destruct (objects_filter p t) as [|[j v] l] eqn:E; [reflexivity|].
    assert (In (j, v) (objects_filter p t)) as Hin by (rewrite E; left; reflexivity).
    apply elem_of_objects_filter in Hin as [Hj Hv]. cbn in Hj, Hv.
    rewrite (Hp j v Hj) in Hv. discriminate. }
  split; [|split].
  - intros i u Hi. split.
    + apply Hone; [|exact Hi|apply String.eqb_refl].
      intros v Hv _. left. apply String.eqb_eq, Hv.
    + apply Hone; [|exact Hi|apply String.eqb_refl].
      intros v Hv _. right. apply String.eqb_eq, Hv.
  - intros e He. apply Hnone. intros i u Hi. apply String.eqb_neq. intros E.
    apply He. exists i, u. auto.
  - intros r Hr. apply Hnone. intros i u Hi. apply String.eqb_neq. intros E.
    apply Hr. exists i, u. auto.
Qed.

(** X13. [get_clientes] returns the users whose role is 'Cliente' and
    [get_administradores] those whose role is 'Administrador'; no user is
    in both.  A user created without a role is among the clients; a user
    created with an empty role is in neither list. *)
Theorem roles_partition (t : table) :
  (forall i u, In (i, u) (get_clientes t)
               <-> t !! i = Some u /\ Usuario.role u = "Cliente")
  /\ (forall i u, In (i, u) (get_administradores t)
                  <-> t !! i = Some u /\ Usuario.role u = "Administrador")
  /\ (forall x, In x (get_clientes t) -> ~ In x (get_administradores t))
  /\ (forall t0 new_id kw i,
        create make_password normalize_email new_id kw t0 = (Ok i, t) ->
        (kw_role kw = None -> In i (get_clientes t))
        /\ (kw_role kw = Some "" ->
            ~ In i (get_clientes t) /\ ~ In i (get_administradores t))).
Proof.
  assert (forall (t : table) role i u,
            In (i, u) (UsuarioRepository.get_by_role role t)
            <-> t !! i = Some u /\ Usuario.role u = role) as Hin.
  { intros t1 role i u. unfold UsuarioRepository.get_by_role, UsuarioRepository.filter.
    rewrite (elem_of_objects_filter _ t1 (i, u)). cbn [fst snd].
    rewrite String.eqb_eq. reflexivity. }
  split; [intros; apply Hin|]. split; [intros; apply Hin|]. split.
  - intros [i u] Hc Ha. apply Hin in Hc as [_ Hc]. apply Hin in Ha as [_ Ha].
    rewrite Hc in Ha. discriminate.
  - intros t0 new_id kw [k u] H.
    apply create_returns_row in H as (_ & Hk & -> & _ & _ & _ & _ & Hrole & _).
    cbn in Hk. subst k. cbn [snd] in *.
    unfold get_clientes, get_administradores, UsuarioRepository.get_clientes,
      UsuarioRepository.get_administradores.
    split.
    + intros Hn. apply Hin. rewrite lookup_insert_eq, Hrole, Hn. split; reflexivity.
    + intros Hn. rewrite Hn in Hrole. cbn in Hrole.
      split; intros Hx; apply Hin in Hx as [_ Hx]; rewrite Hrole in Hx; discriminate.
Qed.

End Hasher.

Section Passwords.

Variable make_password : string -> string.
Variable check_password : string -> string -> bool.

Lemma accepted_set_password (t : table) (id : N) (u : Usuario.t) (nuevo : string) :
  t !! id = Some u ->
  accepted Usuario.constraints t id (set_password make_password u nuevo) = true.
Proof.
  intros Hu. unfold accepted. rewrite Hu.
  cbn [Usuario.constraints unique_indexes foreign_keys forallb from_option set_password
       Usuario.rut Usuario.email Usuario.username].
  rewrite !String.eqb_refl. reflexivity.
Qed.

(** X14. [cambiar_password] never raises.  It returns [False] and writes
    nothing when no user has the key or when the current password does
    not verify against the stored one.  Otherwise it returns [True] and
    writes the user with the hash of the new password as its only change;
    and when the new password verifies against its own hash, a further
    change that gives it as the current password returns [True]. *)
Theorem cambiar_password_spec (t : table) (id : N) (actual nuevo : string) :
  let r := cambiar_password make_password check_password id actual nuevo t in
  match t !! id with
  | None => r = (Ok false, t)
  | Some u =>
      if check_password actual (Usuario.password u) then
        r = (Ok true, <[id := set_password make_password u nuevo]> t)
        /\ Usuario.password (set_password make_password u nuevo) = make_password nuevo
        /\ Usuario.email (set_password make_password u nuevo) = Usuario.email u
        /\ Usuario.rut (set_password make_password u nuevo) = Usuario.rut u
        /\ Usuario.role (set_password make_password u nuevo) = Usuario.role u
        /\ (check_password nuevo (make_password nuevo) = true ->
            forall otra,
              (cambiar_password make_password check_password id nuevo otra r.2).1
              = Ok true)
      else r = (Ok false, t)
  end.
Proof.
  cbv zeta. unfold cambiar_password, UsuarioRepository.get_by_id, objects_get_pk.
  rewrite mbind_unfold. destruct (t !! id) as [u|] eqn:Hu;
    cbn [fmap option_fmap option_map fst snd]; [|reflexivity].
  destruct (check_password actual (Usuario.password u)) eqn:Hc; cbn [negb];
    [|reflexivity].
  assert (forall (t' : table) u' clave, t' !! id = Some u' ->
            save Usuario.constraints (id, set_password make_password u' clave) t'
            = (Ok tt, <[id := set_password make_password u' clave]> t')) as Hsave.
  { intros t' u' clave Hu'. unfold save. cbn [fst snd].
    rewrite (accepted_set_password t' id u' clave Hu'). reflexivity. }
  rewrite mbind_unfold, (Hsave t u nuevo Hu). unfold mret, M_ret, ret.
  split; [reflexivity|]. repeat (split; [reflexivity|]).
  intros Hround otra. rewrite !mbind_unfold. cbn [fst snd].
  rewrite lookup_insert_eq. cbn [fmap option_fmap option_map fst snd set_password
    Usuario.password]. rewrite Hround. cbn [negb]. rewrite mbind_unfold.
  rewrite (Hsave _ _ otra (lookup_insert_eq _ _ _)). reflexivity.
Qed.

End Passwords.

Lemma get_by_key_exact_witness :
  get_by_email "ana@example.com" dos_usuarios = (Ok (Some (1%N, ana)), dos_usuarios)
  /\ get_by_rut "22222222-2" dos_usuarios = (Ok (Some (2%N, luis)), dos_usuarios).
Proof.
  destruct (get_by_key_exact dos_usuarios unique_keys_dos_usuarios) as [H _].
  split; [exact (proj1 (H 1%N ana eq_refl))|exact (proj2 (H 2%N luis eq_refl))].
Defined.

Lemma roles_partition_witness :
  In (1%N, ana) (get_clientes dos_usuarios)
  /\ ~ In (1%N, ana) (get_administradores dos_usuarios).
Proof.
  destruct (roles_partition plain plain dos_usuarios) as (H1 & _ & H3 & _).
  assert (In (1%N, ana) (get_clientes dos_usuarios)) as H
    by (apply H1; split; reflexivity).
  split; [exact H|exact (H3 _ H)].
Defined.

Lemma cambiar_password_spec_witness :
  (cambiar_password plain String.eqb 1 "" "Nueva123" dos_usuarios).1 = Ok true
  /\ (cambiar_password plain String.eqb 1 "Nueva123" "Otra4567"
        (cambiar_password plain String.eqb 1 "" "Nueva123" dos_usuarios).2).1 = Ok true.
Proof.
  pose proof (cambiar_password_spec plain String.eqb dos_usuarios 1 "" "Nueva123") as H.
  cbv zeta in H. change (dos_usuarios !! 1%N) with (Some ana) in H.
  change (String.eqb "" (Usuario.password ana)) with true in H. cbv iota in H.
  destruct H as (H1 & _ & _ & _ & _ & H2).
  split; [rewrite H1; reflexivity|apply H2; reflexivity].
Defined.

Lemma create_keeps_unique_witness : unique_keys (<[3%N := eva]> dos_usuarios).
Proof.
  apply (create_keeps_unique plain plain dos_usuarios _ 3 Spec.kw_empty_role (3%N, eva));
    [exact unique_keys_dos_usuarios|vm_compute; reflexivity|reflexivity|reflexivity
    |reflexivity].
Defined.

Lemma update_keeps_unique_witness :
  unique_keys (update plain plain 1 (kw_email_only "ana2@example.com") dos_usuarios).2.
Proof.
  assert (exists r t', update plain plain 1 (kw_email_only "ana2@example.com") dos_usuarios
                       = (Ok r, t')) as (r & t' & H)
    by (eexists; eexists; vm_compute; reflexivity).
  rewrite H.
  apply (update_keeps_unique plain plain dos_usuarios t' 1
           (kw_email_only "ana2@example.com") r);
    [exact unique_keys_dos_usuarios|exact H|right; reflexivity|left; reflexivity].
Defined.

Lemma delete_removes_witness :
  delete plain plain 1 dos_usuarios = (Ok true, base.delete 1%N dos_usuarios)
  /\ get_by_id plain plain 1 (base.delete 1%N dos_usuarios)
     = (Ok None, base.delete 1%N dos_usuarios).
Proof.
  destruct (delete_removes plain plain dos_usuarios 1 ana no_kwargs eq_refl)
    as (H1 & _ & H3 & _).
  split; [exact H1|exact H3].
Defined.

Lemma create_stores_witness :
  Usuario.password eva = ""
  /\ get_by_id plain plain 3 (<[3%N := eva]> dos_usuarios)
     = (Ok (Some (3%N, eva)), <[3%N := eva]> dos_usuarios).
Proof.
  assert (create plain plain 3 Spec.kw_empty_role dos_usuarios
          = (Ok (3%N, eva), <[3%N := eva]> dos_usuarios)) as H
    by (vm_compute; reflexivity).
  apply create_stores in H as (_ & _ & _ & _ & _ & _ & _ & _ & [_ Hp] & Hg).
  split; [exact Hp|exact Hg].
Defined.

End UsuarioServiceMore.

(* ===================================================================== *)
(** * Properties of the project service                                  *)
(* ===================================================================== *)

Module ProyectoServiceProps.
Import Db ProyectoRepository ProyectoService Spec Vocabulary DbProps ReProps.

(** Words of [split]: there is none exactly when every character is white
    space, and a word is not empty and has no white space. *)
Lemma split_from_nil (cur s : string) :
  split_from cur s = [] <-> cur = "" /\ Re.allb isspace s = true.
Proof.
  revert cur. induction s as [|c s IH]; intros cur; cbn [split_from Re.allb].
  - destruct cur; split; try discriminate; auto. intros [? _]. discriminate.
  - destruct (isspace c); cbn [andb].
    + destruct cur; [apply IH|]. split; [discriminate|]. intros [? _]. discriminate.
    + rewrite IH. split; [|intros [_ ?]; discriminate].
      intros [E _]. apply append_empty in E as [_ E]. discriminate.
Qed.

Lemma split_from_words (cur s : string) (w : string) :
  sin_espacios cur = true -> In w (split_from cur s) -> w <> "" /\ sin_espacios w = true.
Proof.
  revert cur. induction s as [|c s IH]; intros cur Hcur; cbn [split_from].
  - destruct cur; [intros []|]. intros [<-|[]]. split; [discriminate|exact Hcur].
  - destruct (isspace c) eqn:Hc.
    + destruct cur; [apply IH; reflexivity|].
      intros [<-|Hin]; [split; [discriminate|exact Hcur]|]. apply (IH ""); auto.
    + apply IH. unfold sin_espacios in *. rewrite allb_app, Hcur. cbn. rewrite Hc.
      reflexivity.
Qed.

Lemma take_length (n : nat) (s : string) :
  String.length (take n s) = Nat.min n (String.length s).
Proof.
  revert s. induction n as [|n IH]; intros [|c s]; cbn; [reflexivity..|].
  rewrite IH. reflexivity.
Qed.

Lemma hex_length (n : nat) (x : N) : String.length (hex n x) = n.
Proof.
  revert x. induction n as [|n IH]; intros x; cbn [hex]; [reflexivity|].
  rewrite append_length, IH. cbn. lia.
Qed.

Section Upper.

Variable upper : string -> string.

(** Without a code and without a word in the name, [create] raises
    before it writes. *)
Lemma create_sin_palabra (new_id u : N) (kw : kwargs) (t : table) :
  kw_codigo kw = None ->
  Re.allb isspace (default "" (kw_nombre kw)) = true ->
  create upper new_id u kw t = (inl IndexError, t).
Proof.
  intros Hc Hs. unfold create, nombre_base. rewrite Hc.
  assert (split (default "" (kw_nombre kw)) = []) as ->
    by (apply split_from_nil; auto).
  reflexivity.
Qed.

(** The engine accepts a new project exactly when no stored project has
    its code. *)
Lemma accepted_new_project (t : table) (id : N) (row : ProyectoInmobiliario.t) :
  t !! id = None ->
  accepted ProyectoInmobiliario.constraints t id row = true
  <-> codigo_libre t (ProyectoInmobiliario.codigo row).
Proof.
  intros Hid. split.
  - intros Ha j p Hj Hc.
    assert (j <> id) as Hne by congruence.
    rewrite (accepted_refused ProyectoInmobiliario.constraints t id j row p
               (fun a b => String.eqb (ProyectoInmobiliario.codigo a)
                                      (ProyectoInmobiliario.codigo b))) in Ha;
      [discriminate|left; reflexivity|rewrite Hid; reflexivity|exact Hne|exact Hj|].
    rewrite Hc. apply String.eqb_refl.
  - intros Hl. apply accepted_intro.
    + intros same [<-|[]]. right. intros j other _ Hj.
      apply String.eqb_neq. exact (Hl j other Hj).
    + intros fk [].
Qed.

(** X15. [create] of the project service keeps a code that is passed.
    When none is passed and the name is absent, empty or made of white
    space only, it raises [IndexError] and writes nothing.  Otherwise the
    code it makes is the upper case of the first three characters (fewer
    if the word is shorter) of the first word of the name, a hyphen, and
    eight characters taken from a UUID, and it is the code of the project
    that [create] returns; with a start date and a free key the project
    is stored when no stored project has that code, and when one has it
    the engine refuses the row: [create] raises [IntegrityError] and
    writes nothing. *)
Theorem create_codigo (new_id u : N) (kw : kwargs) (t : table) :
  let r := create upper new_id u kw t in
  match kw_codigo kw with
  | Some c => forall i t', r = (inr i, t') -> ProyectoInmobiliario.codigo i.2 = c
  | None =>
      if Re.allb isspace (default "" (kw_nombre kw)) then r = (inl IndexError, t)
      else
        exists w rest,
          let codigo := upper (take 3 w) ++ "-" ++ uuid_corto u in
          split (default "" (kw_nombre kw)) = w :: rest
          /\ w <> "" /\ sin_espacios w = true
          /\ (1 <= String.length (take 3 w) <= 3)%nat
          /\ String.length (uuid_corto u) = 8%nat
          /\ (forall i t', r = (inr i, t') -> ProyectoInmobiliario.codigo i.2 = codigo)
          /\ (forall f, kw_fecha_inicio kw = Some f -> t !! new_id = None ->
                codigo_libre t codigo ->
                exists row, r = (inr (new_id, row), <[new_id := row]> t))
          /\ (forall f, kw_fecha_inicio kw = Some f -> ~ codigo_libre t codigo ->
                r = (inl (Repository IntegrityError), t))
  end.
Proof.
  cbv zeta. unfold create, nombre_base, BaseService.create, repo_create.
  cbn [ProyectoRepository.repository]. unfold ProyectoRepository.create, new_row.
  destruct (kw_codigo kw) as [c|] eqn:Hc.
  - intros i t'. destruct (kw_fecha_inicio kw) as [f|]; cbn [mbind option_bind];
      [|discriminate].
    rewrite mbind_unfold. unfold save_new, save. cbn [fst snd].
    destruct (t !! new_id); [discriminate|].
    destruct (accepted _ _ _ _); [|discriminate].
    intros [= <- <-]. cbn. rewrite Hc. reflexivity.
  - destruct (Re.allb isspace (default "" (kw_nombre kw))) eqn:Hs.
    + assert (split (default "" (kw_nombre kw)) = []) as ->
        by (apply split_from_nil; auto).
      reflexivity.
    + destruct (split (default "" (kw_nombre kw))) as [|w rest] eqn:Hw.
      { apply split_from_nil in Hw as [_ Hw]. congruence. }
      destruct (split_from_words "" (default "" (kw_nombre kw)) w eq_refl) as [Hne Hsp].
      { unfold split in Hw. rewrite Hw. left. reflexivity. }
      exists w, rest. split; [reflexivity|]. split; [exact Hne|]. split; [exact Hsp|].
      split; [|split; [apply hex_length|]].
      { rewrite take_length. destruct w; [congruence|]. cbn [String.length]. lia. }
      cbn [mbind option_bind option_map kw_fecha_inicio kw_nombre kw_descripcion
           kw_ubicacion kw_fecha_finalizacion kw_estado kw_codigo].
      split; [|split].
      * intros i t'. destruct (kw_fecha_inicio kw) as [f|]; cbn [mbind option_bind];
          [|discriminate].
        rewrite mbind_unfold. unfold save_new, save. cbn [fst snd].
        destruct (t !! new_id); [discriminate|].
        destruct (accepted _ _ _ _); [|discriminate].
        intros [= <- <-]. reflexivity.
      * intros f -> Hn Hl. cbn [mbind option_bind]. rewrite mbind_unfold.
        unfold save_new, save. cbn [fst snd]. rewrite Hn.
        rewrite (proj2 (accepted_new_project t new_id _ Hn)) by exact Hl.
        eexists. reflexivity.
      * intros f -> Hl. cbn [mbind option_bind]. rewrite mbind_unfold.
        unfold save_new, save. cbn [fst snd].
        destruct (t !! new_id) eqn:Hn; [reflexivity|].
        destruct (accepted _ _ _ _) eqn:Ha; [|reflexivity].
        exfalso. apply Hl. apply (accepted_new_project t new_id _ Hn) in Ha. exact Ha.
Qed.

(** X16. The validator of projects accepts a name of three to a hundred
    characters that are all white space, and [create] without a code then
    raises [IndexError] on it. *)
Theorem nombre_en_blanco (fromisoformat : string -> option date) (nombre : string)
    (d : gmap string pyval) (errs : list BaseValidator.ValidationError)
    (new_id u : N) (kw : kwargs) (t : table) :
  Re.allb isspace nombre = true ->
  (3 <= String.length nombre <= 100)%nat ->
  get d "nombre" = PyStr nombre ->
  kw_nombre kw = Some nombre -> kw_codigo kw = None ->
  ProyectoValidator._validate_nombre d errs = (Ok tt, errs)
  /\ create upper new_id u kw t = (inl IndexError, t).
Proof.
  intros Hs [Hl1 Hl2] Hd Hn Hc. split.
  - unfold ProyectoValidator._validate_nombre. cbv zeta. rewrite Hd.
    cbn [truthy len]. destruct nombre as [|c s]; [cbn in Hl1; lia|].
    cbn [String.length Nat.eqb negb]. rewrite mbind_unfold. unfold lift. cbn [fst snd].
    destruct (Nat.ltb_spec (S (String.length s)) 3) as [H|_]; [cbn in Hl1; lia|].
    destruct (Nat.ltb_spec 100 (S (String.length s))) as [H|_]; [cbn in Hl2; lia|].
    reflexivity.
  - apply create_sin_palabra; [exact Hc|]. rewrite Hn. exact Hs.
Qed.

End Upper.

Lemma create_codigo_witness :
  exists row,
    create mayusculas 5 (2 ^ 127 + 11) (kw_proyecto (Some "torre del mar")) ∅
    = (inr (5%N, row), <[5%N := row]> ∅)
    /\ ProyectoInmobiliario.codigo row = "TOR-80000000".
Proof.
  pose proof (create_codigo mayusculas 5 (2 ^ 127 + 11)
                (kw_proyecto (Some "torre del mar")) ∅) as H.
  cbv zeta in H. cbn [kw_proyecto kw_codigo kw_nombre default from_option id] in H.
  change (Re.allb isspace "torre del mar") with false in H. cbv iota in H.
  destruct H as (w & rest & Hw & _ & _ & _ & _ & Hcod & Hst & _).
  destruct (Hst (mkdate 2024 1 1) eq_refl eq_refl) as [row Hrow].
  { intros j p Hj. rewrite lookup_empty in Hj. discriminate. }
  exists row. split; [exact Hrow|].
  pose proof (Hcod _ _ Hrow) as E. cbn [snd] in E. rewrite E.
  injection Hw as <- _. vm_compute. reflexivity.
Defined.

Lemma nombre_en_blanco_witness :
  ProyectoValidator._validate_nombre (<["nombre" := PyStr "    "]> ∅) [] = (Ok tt, [])
  /\ create plain 5 7 (kw_proyecto (Some "    ")) ∅ = (inl IndexError, ∅).
Proof.
  apply (nombre_en_blanco plain ProyectoValidator.fromisoformat_ymd "    "
           (<["nombre" := PyStr "    "]> ∅) [] 5 7 (kw_proyecto (Some "    ")) ∅);
    [reflexivity|cbn; lia|reflexivity|reflexivity|reflexivity].
Defined.

(** X17. In the statistics of the projects, the counts by state add up to
    the total, and the number of active projects is the count under the
    state 'En Construcción' (zero when the grouping has no such entry). *)
Theorem get_estadisticas_coherentes (t : table) :
  let stats := get_estadisticas t in
  total_proyectos stats = size t
  /\ suma (proyectos_por_estado stats) = total_proyectos stats
  /\ proyectos_activos stats
     = default 0%nat (proyectos_por_estado stats !! py_str "En Construcción")
  /\ (proyectos_activos stats <= total_proyectos stats)%nat.
Proof.
  cbv zeta. unfold get_estadisticas.
  cbn [total_proyectos proyectos_por_estado proyectos_activos].
  split; [|split; [|split]].
  - unfold ProyectoRepository.get_all, all. apply length_map_to_list.
  - apply UnidadServiceMore.suma_contar.
  - rewrite UnidadServiceProps.contar_lookup. unfold cuenta.
    destruct (length _); reflexivity.
  - apply filter_length_le.
Qed.

End ProyectoServiceProps.

(* ===================================================================== *)
(** * The patterns of the user validator                                 *)
(* ===================================================================== *)

Module PatternProps.
Import St BaseValidator Spec Vocabulary ReProps.

Lemma lang_cat_inv (r1 r2 : Re.regex) (s : string) :
  Re.lang (Re.Cat r1 r2) s <-> exists s1 s2, s = s1 ++ s2 /\ Re.lang r1 s1 /\ Re.lang r2 s2.
Proof.
  split.
  - intros H. inversion H; subst. eauto.
  - intros (s1 & s2 & -> & H1 & H2). constructor; assumption.
Qed.

Lemma lang_lit (c : ascii) (s : string) : Re.lang (Re.lit c) s <-> s = String c "".
Proof.
  unfold Re.lit. split.
  - intros H. inversion H as [|q c' Hc| | | | |]; subst. apply Ascii.eqb_eq in Hc.
    subst. reflexivity.
  - intros ->. constructor. apply Ascii.eqb_refl.
Qed.

Lemma lang_opt (r : Re.regex) (s : string) :
  Re.lang (Re.opt r) s <-> s = "" \/ Re.lang r s.
Proof.
  unfold Re.opt. split.
  - intros H. inversion H as [| | |a b w H1|a b w H2| |]; subst.
    + inversion H1. left. reflexivity.
    + right. exact H2.
  - intros [->|H]; [apply Re.lang_alt_l; constructor|apply Re.lang_alt_r, H].
Qed.

Lemma lang_star_chr (p : ascii -> bool) (s : string) :
  Re.lang (Re.Star (Re.Chr p)) s <-> Re.allb p s = true.
Proof.
  split.
  - intros H. remember (Re.Star (Re.Chr p)) as r eqn:Er.
    induction H as [|q c Hq|r1 r2 s1 s2 H1 IH1 H2 IH2|r1 r2 w H IH|r1 r2 w H IH|r0
                    |r0 s1 s2 H1 IH1 H2 IH2]; try discriminate; [reflexivity|].
    injection Er as ->. inversion H1 as [|q c Hc| | | | |]; subst.
    rewrite append_cons, append_nil_l. cbn [Re.allb]. rewrite Hc, IH2; reflexivity.
  - induction s as [|c s IH]; intros H; [constructor|].
    cbn [Re.allb] in H. apply andb_true_iff in H as [Hc H].
    change (String c s) with (String c "" ++ s). constructor; [constructor; exact Hc|auto].
Qed.

Lemma lang_plus_chr (p : ascii -> bool) (s : string) :
  Re.lang (Re.plus (Re.Chr p)) s <-> s <> "" /\ Re.allb p s = true.
Proof.
  unfold Re.plus. rewrite lang_cat_inv. split.
  - intros (s1 & s2 & -> & H1 & H2). inversion H1 as [|q c Hc| | | | |]; subst.
    apply lang_star_chr in H2. rewrite append_cons, append_nil_l. cbn [Re.allb].
    rewrite Hc, H2. split; [discriminate|reflexivity].
  - intros [Hne H]. destruct s as [|c s]; [congruence|].
    cbn [Re.allb] in H. apply andb_true_iff in H as [Hc H].
    exists (String c ""), s. split; [reflexivity|].
    split; [constructor; exact Hc|apply lang_star_chr, H].
Qed.

Lemma lang_at_least_chr (p : ascii -> bool) (n : nat) (s : string) :
  Re.lang (Re.at_least n (Re.Chr p)) s <-> (n <= String.length s)%nat /\ Re.allb p s = true.
Proof.
  unfold Re.at_least. rewrite lang_cat_inv. split.
  - intros (s1 & s2 & -> & H1 & H2). apply lang_times_chr in H1 as [Hl H1].
    apply lang_star_chr in H2. rewrite append_length, allb_app, H1, H2.
    split; [lia|reflexivity].
  - intros [Hl H]. destruct (split_at n s Hl) as (s1 & s2 & -> & Hn).
    rewrite allb_app in H. apply andb_true_iff in H as [H1 H2].
    exists s1, s2. split; [reflexivity|].
    split; [apply lang_times_chr; auto|apply lang_star_chr, H2].
Qed.

Lemma email_pattern_lang (s : string) :
  Re.lang UsuarioValidator.email_pattern s <-> email_shape s.
Proof.
  unfold UsuarioValidator.email_pattern, email_shape. rewrite lang_cat_inv. split.
  - intros (local & s2 & -> & Hl & H2).
    apply lang_plus_chr in Hl as [Hl1 Hl2].
    apply lang_cat_inv in H2 as (a & s3 & -> & Ha & H3). apply lang_lit in Ha as ->.
    apply lang_cat_inv in H3 as (dominio & s4 & -> & Hd & H4).
    apply lang_plus_chr in Hd as [Hd1 Hd2].
    apply lang_cat_inv in H4 as (b & tld & -> & Hb & Ht). apply lang_lit in Hb as ->.
    apply lang_at_least_chr in Ht as [Ht1 Ht2].
    exists local, dominio, tld. repeat split; assumption.
  - intros (local & dominio & tld & -> & Hl1 & Hl2 & Hd1 & Hd2 & Ht1 & Ht2).
    exists local, (String "@" (dominio ++ String "." tld)). split; [reflexivity|].
    split; [apply lang_plus_chr; auto|].
    apply lang_cat_inv. exists (String "@" ""), (dominio ++ String "." tld).
    split; [reflexivity|]. split; [apply lang_lit; reflexivity|].
    apply lang_cat_inv. exists dominio, (String "." tld). split; [reflexivity|].
    split; [apply lang_plus_chr; auto|].
    apply lang_cat_inv. exists (String "." ""), tld. split; [reflexivity|].
    split; [apply lang_lit; reflexivity|apply lang_at_least_chr; auto].
Qed.

Lemma phone_pattern_lang (s : string) :
  Re.lang UsuarioValidator.phone_pattern s <-> phone_shape s.
Proof.
  unfold UsuarioValidator.phone_pattern, phone_shape. rewrite lang_cat_inv. split.
  - intros (prefijo & numero & -> & Hp & Hn).
    apply lang_between_chr in Hn as [Hn1 Hn2]; [|lia].
    exists prefijo, numero. split; [reflexivity|]. split; [|split; assumption].
    apply lang_opt in Hp as [->|Hp]; [left; reflexivity|right].
    apply lang_cat_inv in Hp as (a & cc & -> & Ha & Hc). apply lang_lit in Ha as ->.
    apply lang_between_chr in Hc as [Hc1 Hc2]; [|lia].
    exists cc. repeat split; [lia|lia|exact Hc2].
  - intros (prefijo & numero & -> & Hp & Hn1 & Hn2).
    exists prefijo, numero. split; [reflexivity|].
    split; [|apply lang_between_chr; [lia|auto]].
    apply lang_opt. destruct Hp as [->|(cc & -> & Hc1 & Hc2)]; [left; reflexivity|right].
    apply lang_cat_inv. exists (String "+" ""), cc. split; [reflexivity|].
    split; [apply lang_lit; reflexivity|apply lang_between_chr; [lia|auto]].
Qed.

(** [re_match] with an anchored pattern accepts the language of the body,
    with or without one line feed after it. *)
Lemma re_match_true (body : Re.regex) (shape : string -> Prop) (s : string) :
  (forall w, Re.lang body w <-> shape w) ->
  re_match body (PyStr s) = Ok true <-> or_line_feed shape s.
Proof.
  intros Hshape. unfold re_match, Re.match_anchored, or_line_feed. split.
  - intros [= H]. apply orb_true_iff in H as [H|H].
    + left. apply Hshape, fullmatch_lang, H.
    + right. destruct (Re.chomp s) as [p|] eqn:E; [|discriminate].
      exists p. split; [apply chomp_spec, E|]. apply Hshape, fullmatch_lang, H.
  - intros [H|(p & -> & H)]; f_equal; apply orb_true_iff.
    + left. apply fullmatch_lang, Hshape, H.
    + right. unfold line_feed. rewrite chomp_app. apply fullmatch_lang, Hshape, H.
Qed.

(** X18. The format check of the email accepts a string exactly when it
    is, or is followed by one line feed, a non-empty local part of
    letters, digits and [._%+-], an at sign, a non-empty domain of
    letters, digits, dots and hyphens, a dot, and at least two letters. *)
Theorem _is_valid_email_shape (s : string) :
  UsuarioValidator._is_valid_email (PyStr s) = Ok true <-> or_line_feed email_shape s.
Proof. apply re_match_true, email_pattern_lang. Qed.

(** X19. The format check of the telephone accepts a string exactly when
    it is, or is followed by one line feed, eight to twelve digits after
    an optional plus sign with one to three digits. *)
Theorem _is_valid_phone_shape (s : string) :
  UsuarioValidator._is_valid_phone (PyStr s) = Ok true <-> or_line_feed phone_shape s.
Proof. apply re_match_true, phone_pattern_lang. Qed.

End PatternProps.

(* ===================================================================== *)
(** * Further properties of the validators                               *)
(* ===================================================================== *)

Module ValidatorMore.
Import St BaseValidator Spec Vocabulary ReProps ValidatorProps PatternProps.

Lemma ordered_ret (fs : list string) : ordered (ret tt) fs.
Proof.
  split; [intros errs; cbn; rewrite app_nil_r; reflexivity|apply sublist_nil_l].
Qed.

Lemma ordered_add_error (f m : string) (fs : list string) :
  f ∈ fs -> ordered (add_error f m) fs.
Proof.
  intros Hf. split; [intros errs; reflexivity|]. cbn. apply singleton_sublist_l, Hf.
Qed.

Lemma ordered_lift {A} (r : result A) (k : A -> V unit) (fs : list string) :
  (forall a, ordered (k a) fs) -> ordered (lift r ≫= k) fs.
Proof.
  intros Hk. destruct r as [a|e]; [exact (Hk a)|].
  split; [intros errs; cbn; rewrite app_nil_r; reflexivity|apply sublist_nil_l].
Qed.

Lemma ordered_if (c : bool) (m k : V unit) (fs : list string) :
  ordered m fs -> ordered k fs -> ordered (if c then m else k) fs.
Proof. destruct c; auto. Qed.

Lemma ordered_seq (m k : V unit) (fs1 fs2 : list string) :
  ordered m fs1 -> ordered k fs2 -> ordered (m ;; k) (fs1 ++ fs2)%list.
Proof.
  intros [Hm Sm] [Hk Sk].
  assert (forall errs,
            (m ;; k) errs
            = match (m []).1 with
              | Ok _ => ((k []).1, (errs ++ (m []).2 ++ (k []).2)%list)
              | Raise e => (Raise e, (errs ++ (m []).2)%list)
              end) as Hmk.
  { intros errs. rewrite DbProps.mbind_unfold, (Hm errs). cbn [fst snd].
    destruct (m []).1; [|reflexivity]. rewrite Hk, app_assoc. reflexivity. }
  split.
  - intros errs. rewrite (Hmk errs), (Hmk []). destruct (m []).1; reflexivity.
  - rewrite (Hmk []). destruct (m []).1; cbn [snd app].
    + rewrite map_app. apply sublist_app; assumption.
    + apply sublist_inserts_r, Sm.
Qed.

(** Solves [ordered] for a check of one or two fields. *)
Ltac ordered_leaf :=
  cbv zeta;
  repeat first
    [ apply ordered_ret
    | apply ordered_add_error; apply list_elem_of_In; cbn; tauto
    | apply ordered_lift; intros
    | apply ordered_if
    | match goal with
      | |- ordered (match ?x with _ => _ end) _ => destruct x
      end ].

Lemma ordered_seq_eq (m k : V unit) (fs1 fs2 fs : list string) :
  ordered m fs1 -> fs = (fs1 ++ fs2)%list -> ordered k fs2 -> ordered (m ;; k) fs.
Proof. intros Hm -> Hk. apply ordered_seq; assumption. Qed.

Create HintDb ordered discriminated.
#[local] Hint Constants Opaque : ordered.

Lemma ordered_rut (d : gmap string pyval) :
  ordered (UsuarioValidator._validate_rut d) ["rut"].
Proof. unfold UsuarioValidator._validate_rut. ordered_leaf. Qed.

Lemma ordered_email (d : gmap string pyval) :
  ordered (UsuarioValidator._validate_email d) ["email"].
Proof. unfold UsuarioValidator._validate_email. ordered_leaf. Qed.

Lemma ordered_nombres (d : gmap string pyval) :
  ordered (UsuarioValidator._validate_nombres d) ["first_name"; "last_name"].
Proof.
  unfold UsuarioValidator._validate_nombres. cbv zeta.
  apply (ordered_seq _ _ ["first_name"] ["last_name"]); ordered_leaf.
Qed.

Lemma ordered_password (d : gmap string pyval) :
  ordered (UsuarioValidator._validate_password d) ["password"].
Proof. unfold UsuarioValidator._validate_password. ordered_leaf. Qed.

Lemma ordered_role (d : gmap string pyval) :
  ordered (UsuarioValidator._validate_role d) ["role"].
Proof. unfold UsuarioValidator._validate_role. ordered_leaf. Qed.

Lemma ordered_phone (d : gmap string pyval) :
  ordered (UsuarioValidator._validate_phone d) ["phone"].
Proof. unfold UsuarioValidator._validate_phone. ordered_leaf. Qed.

Lemma ordered_nombre (d : gmap string pyval) :
  ordered (ProyectoValidator._validate_nombre d) ["nombre"].
Proof. unfold ProyectoValidator._validate_nombre. ordered_leaf. Qed.

Lemma ordered_ubicacion (d : gmap string pyval) :
  ordered (ProyectoValidator._validate_ubicacion d) ["ubicacion"].
Proof. unfold ProyectoValidator._validate_ubicacion. ordered_leaf. Qed.

Lemma ordered_fechas (fromisoformat : string -> option date) (d : gmap string pyval) :
  ordered (ProyectoValidator._validate_fechas fromisoformat d)
    ["fecha_inicio"; "fecha_finalizacion"].
Proof. unfold ProyectoValidator._validate_fechas. ordered_leaf. Qed.

Lemma ordered_estado_proyecto (d : gmap string pyval) :
  ordered (ProyectoValidator._validate_estado d) ["estado"].
Proof. unfold ProyectoValidator._validate_estado. ordered_leaf. Qed.

Lemma ordered_codigo (d : gmap string pyval) :
  ordered (ProyectoValidator._validate_codigo d) ["codigo"].
Proof. unfold ProyectoValidator._validate_codigo. ordered_leaf. Qed.

Lemma ordered_proyecto (d : gmap string pyval) :
  ordered (UnidadValidator._validate_proyecto d) ["proyecto_id"].
Proof. unfold UnidadValidator._validate_proyecto. ordered_leaf. Qed.

Lemma ordered_numero_unidad (d : gmap string pyval) :
  ordered (UnidadValidator._validate_numero_unidad d) ["numero_unidad"].
Proof. unfold UnidadValidator._validate_numero_unidad. ordered_leaf. Qed.

Lemma ordered_tipo_unidad (d : gmap string pyval) :
  ordered (UnidadValidator._validate_tipo_unidad d) ["tipo_unidad"].
Proof. unfold UnidadValidator._validate_tipo_unidad. ordered_leaf. Qed.

Lemma ordered_metraje (d : gmap string pyval) :
  ordered (UnidadValidator._validate_metraje d) ["metraje_cuadrado"].
Proof. unfold UnidadValidator._validate_metraje. ordered_leaf. Qed.

Lemma ordered_precio (d : gmap string pyval) :
  ordered (UnidadValidator._validate_precio d) ["precio_venta"].
Proof. unfold UnidadValidator._validate_precio. ordered_leaf. Qed.

Lemma ordered_estado_unidad (d : gmap string pyval) :
  ordered (UnidadValidator._validate_estado d) ["estado"].
Proof. unfold UnidadValidator._validate_estado. ordered_leaf. Qed.

#[local] Hint Resolve ordered_rut ordered_email ordered_nombres ordered_password
  ordered_role ordered_phone ordered_nombre ordered_ubicacion ordered_fechas
  ordered_estado_proyecto ordered_codigo ordered_proyecto ordered_numero_unidad
  ordered_tipo_unidad ordered_metraje ordered_precio ordered_estado_unidad : ordered.

(** Solves [ordered] for a sequence of the checks above. *)
Ltac ordered_chain :=
  lazymatch goal with
  | |- ordered (_ ≫= _) _ =>
      eapply ordered_seq_eq; [solve [eauto with ordered]|reflexivity|ordered_chain]
  | _ => solve [eauto with ordered]
  end.

Lemma usuario_ordered (d : gmap string pyval) :
  ordered (UsuarioValidator._validate d) (campos Validators.Usuario).
Proof. unfold UsuarioValidator._validate. ordered_chain. Qed.

Lemma proyecto_ordered (fromisoformat : string -> option date) (d : gmap string pyval) :
  ordered (ProyectoValidator._validate fromisoformat d) (campos Validators.Proyecto).
Proof. unfold ProyectoValidator._validate. ordered_chain. Qed.

Lemma unidad_ordered (d : gmap string pyval) :
  ordered (UnidadValidator._validate d) (campos Validators.Unidad).
Proof. unfold UnidadValidator._validate. ordered_chain. Qed.

Lemma validate_ordered (fromisoformat : string -> option date) (k : Validators.subclass)
    (d : gmap string pyval) :
  ordered (Validators._validate fromisoformat k d) (campos k).
Proof.
  destruct k; cbn [Validators._validate];
    [apply usuario_ordered|apply proyecto_ordered|apply unidad_ordered].
Qed.

Lemma messages_of_NoDup (f : string) (errs : list ValidationError) :
  NoDup (map field errs) -> (length (messages_of f errs) <= 1)%nat.
Proof.
  unfold messages_of. induction errs as [|e errs IH]; cbn [map List.filter]; [cbn; lia|].
  intros Hnd. inversion Hnd as [|a b Hnot Hrest]; subst. specialize (IH Hrest).
  destruct (String.eqb_spec (field e) f) as [E|E]; [|exact IH].
  cbn [map length]. assert (List.filter (fun e0 => String.eqb (field e0) f) errs = []) as ->.
  { destruct (List.filter _ errs) as [|x l] eqn:Ef; [reflexivity|]. exfalso.
    assert (In x (List.filter (fun e0 => String.eqb (field e0) f) errs)) as Hin
      by (rewrite Ef; left; reflexivity).
    apply filter_In in Hin as [Hin Hx]. apply String.eqb_eq in Hx.
    apply Hnot. rewrite E, <- Hx. apply list_elem_of_In, in_map, Hin. }
  cbn. lia.
Qed.

(** X20. For each of the three validators and every mapping, also when a
    check raises: the checks only append to the error list, the same
    errors with the same outcome whatever the list holds before; the
    errors come in the order of the fields of the validator with at most
    one error for a field; so that after [is_valid] every entry of
    [get_error_dict] is a list of exactly one message, under one of those
    fields. *)
Theorem un_error_por_campo (fromisoformat : string -> option date)
    (k : Validators.subclass) (d : gmap string pyval) (errs0 : list ValidationError) :
  let run := Validators._validate fromisoformat k d in
  let self := (Validators.is_valid fromisoformat k (mk d errs0)).2 in
  run errs0 = ((run []).1, (errs0 ++ (run []).2)%list)
  /\ sublist (map field (errors self)) (campos k)
  /\ (forall f l, get_error_dict self !! f = Some l ->
        f ∈ campos k /\ exists m, l = [m]).
Proof.
  cbv zeta. destruct (validate_ordered fromisoformat k d) as [Happ Hsub].
  split; [apply Happ|].
  unfold Validators.is_valid. rewrite is_valid_eq. cbn [snd data errors].
  split; [exact Hsub|].
  intros f l. rewrite get_error_dict_lookup. cbn [errors].
  assert (NoDup (campos k)) as Hnd
    by (destruct k; cbn; apply NoDup_ListNoDup; repeat constructor; cbn; intuition discriminate).
  pose proof (messages_of_NoDup f _ (sublist_NoDup _ _ Hnd Hsub)) as Hlen.
  destruct (messages_of f (Validators._validate fromisoformat k d []).2) as [|m1 [|m2 l']] eqn:E;
    [discriminate| |cbn in Hlen; lia].
  intros [= <-]. split; [|eexists; reflexivity].
  unfold messages_of in E.
  destruct (List.filter _ _) as [|x xs] eqn:Ef; [discriminate|].
  assert (In x (List.filter (fun e => String.eqb (field e) f)
                  (Validators._validate fromisoformat k d []).2)) as Hin
    by (rewrite Ef; left; reflexivity).
  apply filter_In in Hin as [Hin Hx]. apply String.eqb_eq in Hx. subst f.
  apply (sublist_subseteq _ _ Hsub). apply list_elem_of_In, in_map, Hin.
Qed.

(** ** The mappings that a validator accepts *)

Lemma accepts_ret : accepts (ret tt) <-> True.
Proof. split; [trivial|reflexivity]. Qed.

Lemma accepts_add_error (f m : string) : accepts (add_error f m) <-> False.
Proof. split; [|tauto]. unfold accepts, add_error. cbn [app]. discriminate. Qed.

Lemma accepts_raise {A} (e : exn) (k : A -> V unit) :
  accepts (lift (Raise e) ≫= k) <-> False.
Proof. split; [|tauto]. unfold accepts. rewrite DbProps.mbind_unfold. discriminate. Qed.

Lemma accepts_lift {A} (a : A) (k : A -> V unit) :
  accepts (lift (Ok a) ≫= k) <-> accepts (k a).
Proof. reflexivity. Qed.

Lemma accepts_seq (m k : V unit) (fs : list string) :
  ordered k fs -> accepts (m ;; k) <-> accepts m /\ accepts k.
Proof.
  intros [Hk _]. unfold accepts. rewrite DbProps.mbind_unfold.
  destruct (m []) as [[[]|e] l].
  - rewrite Hk. destruct (k []) as [r l']. cbn [fst snd]. split.
    + intros [= -> H]. apply app_eq_nil in H as [-> ->]. split; reflexivity.
    + intros [[= ->] [= -> ->]]. reflexivity.
  - split; [discriminate|intros [H _]; discriminate].
Qed.

Lemma and_iff (A B C D : Prop) : (A <-> C) -> (B <-> D) -> (A /\ B <-> C /\ D).
Proof. tauto. Qed.

(** The cases of a value, down to its truth value. *)
Ltac by_value v :=
  generalize v; intros [|[|]|z|[| | |]|s|dt];
  cbn [truthy negb len in_strs cadena re_match UnidadValidator.is_None
       UsuarioValidator._is_valid_rut_format UsuarioValidator._is_valid_email
       UsuarioValidator._is_valid_phone UsuarioValidator._is_strong_password].

(** Runs a check down to its outcomes, one goal for each. *)
Ltac run_check :=
  repeat first
    [ rewrite accepts_lift
    | rewrite accepts_ret
    | rewrite accepts_add_error
    | rewrite accepts_raise
    | progress cbn [negb andb orb]
    | match goal with
      | |- context [(?x =? ?y)%nat] => destruct (Nat.eqb_spec x y)
      | |- context [(?x <? ?y)%nat] => destruct (Nat.ltb_spec x y)
      | |- context [(?x =? ?y)%Z] => destruct (Z.eqb_spec x y)
      | |- context [bool_decide ?P] => destruct (bool_decide_reflect P)
      | |- context [any ?p ?s] => destruct (any p s)
      | |- context [Re.match_anchored ?r ?s] => destruct (Re.match_anchored r s)
      end ].

Ltac close_check := intuition (try lia; try congruence).

Lemma elem_of_no_vacio (s : string) (l : list string) :
  s ∈ l -> forallb (fun x => negb (String.length x =? 0)%nat) l = true ->
  String.length s <> 0%nat.
Proof.
  intros Hs Hl. rewrite forallb_forall in Hl. apply list_elem_of_In, Hl in Hs.
  destruct (String.length s); [discriminate|lia].
Qed.

Lemma accepts_proyecto (d : gmap string pyval) :
  accepts (UnidadValidator._validate_proyecto d) <-> truthy (get d "proyecto_id") = true.
Proof.
  unfold UnidadValidator._validate_proyecto. cbv zeta.
  destruct (truthy (get d "proyecto_id")); run_check; close_check.
Qed.

Lemma accepts_numero_unidad (d : gmap string pyval) :
  accepts (UnidadValidator._validate_numero_unidad d) <-> texto 1 20 (get d "numero_unidad").
Proof.
  unfold UnidadValidator._validate_numero_unidad, texto. cbv zeta.
  by_value (get d "numero_unidad"); run_check; close_check.
Qed.

Lemma accepts_tipo_unidad (d : gmap string pyval) :
  accepts (UnidadValidator._validate_tipo_unidad d)
  <-> uno_de UnidadValidator.tipos_validos (get d "tipo_unidad").
Proof.
  unfold UnidadValidator._validate_tipo_unidad, uno_de. cbv zeta.
  by_value (get d "tipo_unidad"); run_check; close_check.
  eapply elem_of_no_vacio; [eassumption|reflexivity|assumption].
Qed.

Lemma accepts_estado_unidad (d : gmap string pyval) :
  accepts (UnidadValidator._validate_estado d)
  <-> uno_de UnidadValidator.estados_validos (get d "estado").
Proof.
  unfold UnidadValidator._validate_estado, uno_de. cbv zeta.
  by_value (get d "estado"); run_check; close_check.
  eapply elem_of_no_vacio; [eassumption|reflexivity|assumption].
Qed.

Lemma accepts_nombre (d : gmap string pyval) :
  accepts (ProyectoValidator._validate_nombre d) <-> texto 3 100 (get d "nombre").
Proof.
  unfold ProyectoValidator._validate_nombre, texto. cbv zeta.
  by_value (get d "nombre"); run_check; close_check.
Qed.

Lemma accepts_ubicacion (d : gmap string pyval) :
  accepts (ProyectoValidator._validate_ubicacion d) <-> texto 5 200 (get d "ubicacion").
Proof.
  unfold ProyectoValidator._validate_ubicacion, texto. cbv zeta.
  by_value (get d "ubicacion"); run_check; close_check.
Qed.

Lemma accepts_estado_proyecto (d : gmap string pyval) :
  accepts (ProyectoValidator._validate_estado d)
  <-> ausente (get d "estado")
      \/ uno_de ProyectoValidator.estados_validos (get d "estado").
Proof.
  unfold ProyectoValidator._validate_estado, uno_de, ausente. cbv zeta.
  by_value (get d "estado"); run_check; close_check.
Qed.

Lemma accepts_codigo (d : gmap string pyval) :
  accepts (ProyectoValidator._validate_codigo d)
  <-> ausente (get d "codigo") \/ texto 5 20 (get d "codigo").
Proof.
  unfold ProyectoValidator._validate_codigo, texto, ausente. cbv zeta.
  by_value (get d "codigo"); run_check; close_check.
Qed.

Lemma accepts_nombres (d : gmap string pyval) :
  accepts (UsuarioValidator._validate_nombres d)
  <-> texto_desde 2 (get d "first_name") /\ texto_desde 2 (get d "last_name").
Proof.
  unfold UsuarioValidator._validate_nombres. cbv zeta.
  rewrite (accepts_seq _ _ ["last_name"]) by ordered_leaf.
  apply and_iff; unfold texto_desde.
  - by_value (get d "first_name"); run_check; close_check.
  - by_value (get d "last_name"); run_check; close_check.
Qed.

Lemma accepts_password (d : gmap string pyval) :
  accepts (UsuarioValidator._validate_password d)
  <-> ausente (get d "password") \/ clave_fuerte (get d "password").
Proof.
  unfold UsuarioValidator._validate_password, clave_fuerte, ausente. cbv zeta.
  by_value (get d "password"); run_check; close_check.
Qed.

Lemma accepts_role (d : gmap string pyval) :
  accepts (UsuarioValidator._validate_role d)
  <-> ausente (get d "role") \/ uno_de UsuarioValidator.roles_validos (get d "role").
Proof.
  unfold UsuarioValidator._validate_role, uno_de, ausente. cbv zeta.
  by_value (get d "role"); run_check; close_check.
Qed.

Lemma match_anchored_shape (body : Re.regex) (shape : string -> Prop) (s : string) :
  (forall w, Re.lang body w <-> shape w) ->
  or_line_feed shape s <-> Re.match_anchored body s = true.
Proof.
  intros Hshape. destruct (PatternProps.re_match_true body shape s Hshape) as [H1 H2].
  unfold re_match in H1, H2. split; intros H.
  - apply H2 in H. injection H as H. exact H.
  - apply H1. rewrite H. reflexivity.
Qed.

(** A check of a required string against a pattern that the empty string
    does not match. *)
Ltac pattern_check v body Hlang :=
  generalize v; intros [|[|]|z|[| | |]|[|c s]|dt];
  cbn [truthy negb cadena re_match String.length Nat.eqb
       UsuarioValidator._is_valid_rut_format UsuarioValidator._is_valid_email
       UsuarioValidator._is_valid_phone];
  rewrite ?(match_anchored_shape _ _ _ Hlang);
  try change (Re.match_anchored body "") with false;
  run_check; close_check.

Lemma accepts_rut (d : gmap string pyval) :
  accepts (UsuarioValidator._validate_rut d) <-> con_forma rut_shape (get d "rut").
Proof.
  unfold UsuarioValidator._validate_rut, con_forma. cbv zeta.
  pattern_check (get d "rut") UsuarioValidator.rut_pattern rut_pattern_lang.
Qed.

Lemma accepts_email (d : gmap string pyval) :
  accepts (UsuarioValidator._validate_email d) <-> con_forma email_shape (get d "email").
Proof.
  unfold UsuarioValidator._validate_email, con_forma. cbv zeta.
  pattern_check (get d "email") UsuarioValidator.email_pattern email_pattern_lang.
Qed.

Lemma accepts_phone (d : gmap string pyval) :
  accepts (UsuarioValidator._validate_phone d)
  <-> ausente (get d "phone") \/ con_forma phone_shape (get d "phone").
Proof.
  unfold UsuarioValidator._validate_phone, con_forma, ausente. cbv zeta.
  pattern_check (get d "phone") UsuarioValidator.phone_pattern phone_pattern_lang.
Qed.

Lemma le_zero (v : pyval) :
  Py.le v (PyInt 0)
  = match v with
    | PyNone | PyStr _ | PyDate _ => Raise TypeError
    | _ => Ok (negb (positivo v))
    end.
Proof.
  destruct v as [|[|]|z|[s|s| |s m e]|s|dt]; try reflexivity.
  - unfold Py.le, Py.compare, positivo. destruct (Z.ltb_spec 0 z) as [H|H].
    + apply Z.lt_gt, Z.compare_gt_iff in H. rewrite (proj2 (Z.compare_gt_iff _ _)) by lia.
      reflexivity.
    + destruct (z ?= 0) eqn:E; try reflexivity. apply Z.compare_gt_iff in E. lia.
  - destruct s; reflexivity.
  - unfold Py.le, Py.compare, float_compare_Z, positivo.
    destruct (Z.leb_spec 0 e) as [H|H].
    + assert (0 < 2 ^ e) by (apply Z.pow_pos_nonneg; lia).
      destruct s; cbn [negb].
      * rewrite (proj2 (Z.compare_lt_iff _ _)) by nia. reflexivity.
      * rewrite (proj2 (Z.compare_gt_iff _ _)) by nia. reflexivity.
    + destruct s; reflexivity.
Qed.

Lemma accepts_metraje (d : gmap string pyval) :
  accepts (UnidadValidator._validate_metraje d)
  <-> positivo (get d "metraje_cuadrado") = true.
Proof.
  unfold UnidadValidator._validate_metraje. cbv zeta. rewrite le_zero.
  destruct (positivo (get d "metraje_cuadrado")) eqn:P;
    destruct (get d "metraje_cuadrado") as [|b|z|f|s|dt]; try discriminate P;
    cbn [UnidadValidator.is_None]; run_check; close_check.
Qed.

Lemma accepts_precio (d : gmap string pyval) :
  accepts (UnidadValidator._validate_precio d)
  <-> positivo (get d "precio_venta") = true.
Proof.
  unfold UnidadValidator._validate_precio. cbv zeta. rewrite le_zero.
  destruct (positivo (get d "precio_venta")) eqn:P;
    destruct (get d "precio_venta") as [|b|z|f|s|dt]; try discriminate P;
    cbn [UnidadValidator.is_None]; run_check; close_check.
Qed.

Lemma accepts_fechas (fromisoformat : string -> option date) (d : gmap string pyval) :
  date_or_false (get d "fecha_inicio") = true ->
  date_or_false (get d "fecha_finalizacion") = true ->
  accepts (ProyectoValidator._validate_fechas fromisoformat d)
  <-> fechas_en_orden fromisoformat (get d "fecha_inicio") (get d "fecha_finalizacion").
Proof.
  unfold ProyectoValidator._validate_fechas, fechas_en_orden, ausente. cbv zeta.
  generalize (get d "fecha_inicio") (get d "fecha_finalizacion"). intros a b Ha Hb.
  destruct (truthy a) eqn:Ta; [|run_check; close_check].
  destruct (truthy b) eqn:Tb; [|run_check; close_check].
  cbn [andb].
  assert (forall v, date_or_false v = true -> truthy v = true ->
            ProyectoValidator.parse_if_str fromisoformat v
            = PyDate <$> date_value fromisoformat v) as Hparse.
  { intros [|?|?|?|?|?] Hv Tv; cbn [date_or_false] in Hv; rewrite ?Tv in Hv;
      try discriminate Hv; reflexivity. }
  rewrite (Hparse a Ha Ta), (Hparse b Hb Tb).
  destruct (date_value fromisoformat a) as [x|]; cbn [fmap option_fmap option_map];
    [|run_check; split; [tauto|intros [H|[H|(x & y & H & _)]]; discriminate H]].
  destruct (date_value fromisoformat b) as [y|]; cbn [fmap option_fmap option_map];
    [|run_check; split; [tauto|intros [H|[H|(x' & y & _ & H & _)]]; discriminate H]].
  unfold Py.gt, Py.compare.
  destruct (date_compare x y) eqn:E; run_check; split; try tauto.
  - intros _. right; right. exists x, y. repeat split. congruence.
  - intros _. right; right. exists x, y. repeat split. congruence.
  - intros [H|[H|(x' & y' & [= <-] & [= <-] & H)]]; try discriminate H. apply H, E.
Qed.

Lemma is_valid_true (fromisoformat : string -> option date) (k : Validators.subclass)
    (d : gmap string pyval) (errs0 : list ValidationError) :
  (Validators.is_valid fromisoformat k (mk d errs0)).1 = Ok true
  <-> accepts (Validators._validate fromisoformat k d).
Proof.
  unfold Validators.is_valid, accepts. rewrite is_valid_eq. cbn [fst data].
  destruct (Validators._validate fromisoformat k d []) as [[[]|e] [|x l]];
    cbn [fst snd length Nat.eqb]; intuition congruence.
Qed.

(** Splits the acceptance of a sequence of checks into theirs. *)
Ltac split_accepts :=
  lazymatch goal with
  | |- accepts (_ ≫= _) <-> _ =>
      etransitivity; [eapply accepts_seq; ordered_chain|apply and_iff; [|split_accepts]]
  | _ => idtac
  end.

(** X21. [is_valid] of the user validator returns [True] exactly on the
    mappings in which the RUT and the email are strings of their patterns
    (with or without a line feed after them), the first and the last name
    are strings of two characters or more, the password is left out or is
    a string of eight characters or more with an upper-case letter, a
    lower-case letter and a digit, the role is left out or is one of the
    two roles, and the telephone is left out or is a string of its
    pattern.  On any other mapping it returns [False] or raises. *)
Theorem is_valid_usuario (fromisoformat : string -> option date) (d : gmap string pyval)
    (errs0 : list ValidationError) :
  (Validators.is_valid fromisoformat Validators.Usuario (mk d errs0)).1 = Ok true
  <-> usuario_aceptado d.
Proof.
  rewrite is_valid_true. cbn [Validators._validate].
  unfold UsuarioValidator._validate, usuario_aceptado.
  rewrite (and_assoc (texto_desde 2 (get d "first_name"))).
  split_accepts.
  - apply accepts_rut.
  - apply accepts_email.
  - apply accepts_nombres.
  - apply accepts_password.
  - apply accepts_role.
  - apply accepts_phone.
Qed.

(** X22. When the two date fields hold strings, dates or false values,
    [is_valid] of the project validator returns [True] exactly on the
    mappings in which the name is a string of 3 to 100 characters, the
    location a string of 5 to 200 characters, the dates, when both are
    given, parse and the start is not after the end, the state is left
    out or is one of the four states, and the code is left out or is a
    string of 5 to 20 characters. *)
Theorem is_valid_proyecto (fromisoformat : string -> option date) (d : gmap string pyval)
    (errs0 : list ValidationError) :
  date_or_false (get d "fecha_inicio") = true ->
  date_or_false (get d "fecha_finalizacion") = true ->
  (Validators.is_valid fromisoformat Validators.Proyecto (mk d errs0)).1 = Ok true
  <-> proyecto_aceptado fromisoformat d.
Proof.
  intros Hi Hf. rewrite is_valid_true. cbn [Validators._validate].
  unfold ProyectoValidator._validate, proyecto_aceptado. split_accepts.
  - apply accepts_nombre.
  - apply accepts_ubicacion.
  - apply accepts_fechas; assumption.
  - apply accepts_estado_proyecto.
  - apply accepts_codigo.
Qed.

(** X23. [is_valid] of the unit validator returns [True] exactly on the
    mappings in which the project identifier is a true value, the unit
    number a string of 1 to 20 characters, the type one of the seven
    types, the area and the price values that are not below or equal to
    zero ([True], a number above zero, plus infinity, or a NaN), and the
    state one of the four states.  On any other mapping it returns
    [False] or raises. *)
Theorem is_valid_unidad (fromisoformat : string -> option date) (d : gmap string pyval)
    (errs0 : list ValidationError) :
  (Validators.is_valid fromisoformat Validators.Unidad (mk d errs0)).1 = Ok true
  <-> unidad_aceptada d.
Proof.
  rewrite is_valid_true. cbn [Validators._validate].
  unfold UnidadValidator._validate, unidad_aceptada. split_accepts.
  - apply accepts_proyecto.
  - apply accepts_numero_unidad.
  - apply accepts_tipo_unidad.
  - apply accepts_metraje.
  - apply accepts_precio.
  - apply accepts_estado_unidad.
Qed.

Lemma is_valid_proyecto_witness :
  proyecto_aceptado ProyectoValidator.fromisoformat_ymd
    (proyecto_valido (PyStr "2024-01-01") (PyDate (mkdate 2024 12 31))).
Proof.
  apply (is_valid_proyecto ProyectoValidator.fromisoformat_ymd _ []);
    vm_compute; reflexivity.
Defined.

(** ** The required fields *)

Lemma seq_returns (m k : V unit) (fs : list string) :
  ordered k fs -> ((m ;; k) []).1 = Ok tt ->
  (m []).1 = Ok tt /\ (k []).1 = Ok tt
  /\ ((m ;; k) []).2 = ((m []).2 ++ (k []).2)%list.
Proof.
  intros [Hk _]. rewrite DbProps.mbind_unfold.
  destruct (m []) as [[[]|e] l]; cbn [fst snd]; [|discriminate].
  rewrite Hk. cbn [fst snd]. auto.
Qed.

Lemma in_seq_l (m k : V unit) (fs : list string) (e : ValidationError) :
  ordered k fs -> ((m ;; k) []).1 = Ok tt ->
  ((m []).1 = Ok tt -> e ∈ (m []).2) -> e ∈ ((m ;; k) []).2.
Proof.
  intros Hk Hret He. destruct (seq_returns m k fs Hk Hret) as (Hmret & _ & ->).
  apply elem_of_app. left. exact (He Hmret).
Qed.

Lemma in_seq_r (m k : V unit) (fs : list string) (e : ValidationError) :
  ordered k fs -> ((m ;; k) []).1 = Ok tt ->
  ((k []).1 = Ok tt -> e ∈ (k []).2) -> e ∈ ((m ;; k) []).2.
Proof.
  intros Hk Hret He. destruct (seq_returns m k fs Hk Hret) as (_ & Hkret & ->).
  apply elem_of_app. right. exact (He Hkret).
Qed.

Lemma messages_of_unique (f m : string) (errs : list ValidationError) :
  NoDup (map field errs) -> mkerror f m ∈ errs -> messages_of f errs = [m].
Proof.
  intros Hnd Hin. pose proof (messages_of_NoDup f errs Hnd) as Hlen.
  assert (In m (messages_of f errs)) as Hm.
  { unfold messages_of. apply (in_map message _ (mkerror f m)), filter_In.
    split; [apply list_elem_of_In, Hin|apply String.eqb_refl]. }
  destruct (messages_of f errs) as [|x [|y l]]; [destruct Hm| |cbn in Hlen; lia].
  destruct Hm as [->|[]]. reflexivity.
Qed.

(** The error of a missing required field is in the list that the checks
    leave when they return. *)
Ltac skip_check H :=
  eapply in_seq_r; [ordered_chain|exact H|clear H; intros H].
Ltac this_check H :=
  eapply in_seq_l; [ordered_chain|exact H|clear H; intros H].
Ltac missing Hf :=
  cbv zeta; rewrite ?negb_true_iff in Hf; rewrite ?Hf; cbn [negb];
  apply list_elem_of_here.

Lemma obligatorio_recorded (fromisoformat : string -> option date)
    (k : Validators.subclass) (d : gmap string pyval)
    (campo : string) (falta : pyval -> bool) (mensaje : string) :
  (campo, falta, mensaje) ∈ obligatorios k ->
  falta (get d campo) = true ->
  (Validators._validate fromisoformat k d []).1 = Ok tt ->
  mkerror campo mensaje ∈ (Validators._validate fromisoformat k d []).2.
Proof.
  intros Hin Hf Hret. apply list_elem_of_In in Hin.
  destruct k; cbn [obligatorios In] in Hin; cbn [Validators._validate] in Hret |- *.
  - unfold UsuarioValidator._validate in Hret |- *.
    destruct Hin as [Hin|[Hin|[Hin|[Hin|[]]]]]; injection Hin as <- <- <-.
    + this_check Hret. unfold UsuarioValidator._validate_rut. missing Hf.
    + skip_check Hret. this_check Hret. unfold UsuarioValidator._validate_email. missing Hf.
    + do 2 skip_check Hret. this_check Hret.
      unfold UsuarioValidator._validate_nombres in Hret |- *. cbv zeta in Hret |- *.
      eapply (in_seq_l _ _ ["last_name"]); [ordered_leaf|exact Hret|]. intros _. missing Hf.
    + do 2 skip_check Hret. this_check Hret.
      unfold UsuarioValidator._validate_nombres in Hret |- *. cbv zeta in Hret |- *.
      eapply (in_seq_r _ _ ["last_name"]); [ordered_leaf|exact Hret|]. intros _. missing Hf.
  - unfold ProyectoValidator._validate in Hret |- *.
    destruct Hin as [Hin|[Hin|[]]]; injection Hin as <- <- <-.
    + this_check Hret. unfold ProyectoValidator._validate_nombre. missing Hf.
    + skip_check Hret. this_check Hret. unfold ProyectoValidator._validate_ubicacion.
      missing Hf.
  - unfold UnidadValidator._validate in Hret |- *.
    destruct Hin as [Hin|[Hin|[Hin|[Hin|[Hin|[Hin|[]]]]]]]; injection Hin as <- <- <-.
    + this_check Hret. unfold UnidadValidator._validate_proyecto. missing Hf.
    + skip_check Hret. this_check Hret. unfold UnidadValidator._validate_numero_unidad.
      missing Hf.
    + do 2 skip_check Hret. this_check Hret. unfold UnidadValidator._validate_tipo_unidad.
      missing Hf.
    + do 3 skip_check Hret. this_check Hret. unfold UnidadValidator._validate_metraje.
      missing Hf.
    + do 4 skip_check Hret. this_check Hret. unfold UnidadValidator._validate_precio.
      missing Hf.
    + do 5 skip_check Hret. unfold UnidadValidator._validate_estado. missing Hf.
Qed.

(** X24. For each of the three validators: when a required field is
    missing from the mapping (or holds a false value; for the area and
    the price of a unit, [None]) and [is_valid] returns, it returns
    [False] and [get_error_dict] has, for that field, the message that
    the field is required and no other. *)
Theorem campo_obligatorio (fromisoformat : string -> option date)
    (k : Validators.subclass) (d : gmap string pyval) (errs0 : list ValidationError)
    (campo : string) (falta : pyval -> bool) (mensaje : string) (b : bool) :
  let r := Validators.is_valid fromisoformat k (mk d errs0) in
  (campo, falta, mensaje) ∈ obligatorios k ->
  falta (get d campo) = true ->
  r.1 = Ok b ->
  b = false /\ get_error_dict r.2 !! campo = Some [mensaje].
Proof.
  cbv zeta. intros Hin Hf. unfold Validators.is_valid. rewrite is_valid_eq.
  cbn [fst snd data]. intros Hb.
  assert ((Validators._validate fromisoformat k d []).1 = Ok tt) as Hret.
  { destruct (Validators._validate fromisoformat k d []).1 as [[]|e];
      [reflexivity|discriminate Hb]. }
  pose proof (obligatorio_recorded fromisoformat k d campo falta mensaje Hin Hf Hret) as He.
  rewrite Hret in Hb. split.
  - destruct (Validators._validate fromisoformat k d []).2;
      [apply elem_of_nil in He; destruct He|]. injection Hb as <-. reflexivity.
  - rewrite get_error_dict_lookup. cbn [errors].
    rewrite (messages_of_unique campo mensaje); [reflexivity| |exact He].
    destruct (validate_ordered fromisoformat k d) as [_ Hsub].
    eapply sublist_NoDup; [|exact Hsub].
    destruct k; cbn; apply NoDup_ListNoDup; repeat constructor; cbn; intuition discriminate.
Qed.

Lemma campo_obligatorio_witness :
  get_error_dict
    (Validators.is_valid ProyectoValidator.fromisoformat_ymd Validators.Usuario
       (mk (delete "email" usuario_valido) [])).2 !! "email"
  = Some ["El email es obligatorio"].
Proof.
  apply (campo_obligatorio ProyectoValidator.fromisoformat_ymd Validators.Usuario
           (delete "email" usuario_valido) [] "email" (fun v => negb (truthy v))
           "El email es obligatorio" false).
  - apply list_elem_of_In. cbn. tauto.
  - vm_compute. reflexivity.
  - vm_compute. reflexivity.
Defined.

End ValidatorMore.
